(** * JSON-to-XML converter for Roo Code tools: a shallow embedding

    The development follows [src/utils/converters/json-to-xml.ts].  The
    converter is dynamically typed code: its entry points take [unknown],
    its encoders take [any], and failures travel as JavaScript exceptions
    that the entry points catch.  The embedding therefore works on a type of
    JavaScript values, and every operation that can throw returns an
    [outcome]. *)

From Stdlib Require Import String Ascii List Bool Arith Lia DecimalString DecimalNat.
Import ListNotations.
Local Open Scope list_scope.
Local Open Scope string_scope.

(** ** Values

    The values are the ones [JSON.parse] can produce, together with
    [undefined] (the result of reading a missing property, and a possible
    argument).  A Number is represented by its canonical rendering, the
    result of [Number.prototype.toString]; that determines the number up to
    the sign of zero, and the converter only renders a number, tests its
    truthiness, and compares a length with [0].  An object is its list of
    own properties in insertion order; a read returns the first binding of
    the name.  Strings are sequences of code units; the converter inspects
    only the five ASCII markup characters. *)

#[local] Set Warnings "-register-all".

Inductive value : Type :=
| VUndefined
| VNull
| VBool (b : bool)
| VNum (rendering : string)
| VStr (s : string)
| VArr (elements : list value)
| VObj (properties : list (string * value)).

(** What a [throw] carries: an instance of [Error] (with the name of its
    constructor and its message), or any other value. *)
Inductive thrown : Type :=
| ErrorObject (name : string) (message : string)
| ThrownValue (v : value).

Inductive outcome (A : Type) : Type :=
| Return (a : A)
| Throw (e : thrown).
Arguments Return {A} a.
Arguments Throw {A} e.

Definition bind {A B : Type} (m : outcome A) (k : A -> outcome B) : outcome B :=
  match m with
  | Return a => k a
  | Throw e => Throw e
  end.

Notation "x <- m ;; k" := (bind m (fun x => k))
  (at level 61, m at next level, right associativity).

(** [try { body } catch (e) { handler e }] *)
Definition try_catch {A : Type} (body : outcome A) (handler : thrown -> outcome A)
  : outcome A :=
  match body with
  | Return a => Return a
  | Throw e => handler e
  end.

Definition Error (message : string) : thrown := ErrorObject "Error" message.
Definition TypeError (message : string) : thrown := ErrorObject "TypeError" message.

(** [e instanceof Error ? e.message : "Unknown error"] *)
Definition message_or_unknown (e : thrown) : string :=
  match e with
  | ErrorObject _ message => message
  | ThrownValue _ => "Unknown error"
  end.

(** ** Characters and strings *)

Definition nl : string := String "010"%char EmptyString.
Definition dquote : ascii := "034"%char.

Definition decimal (n : nat) : string := NilEmpty.string_of_uint (Nat.to_uint n).

(** ** The operations of the language the converter uses *)

(** [!!v] *)
Definition truthy (v : value) : bool :=
  match v with
  | VUndefined | VNull => false
  | VBool b => b
  | VNum r => negb (String.eqb r "0" || String.eqb r "NaN")
  | VStr s => negb (String.eqb s EmptyString)
  | VArr _ | VObj _ => true
  end.

(** [typeof v === "object"] *)
Definition typeof_object (v : value) : bool :=
  match v with
  | VNull | VArr _ | VObj _ => true
  | _ => false
  end.

(** [Array.isArray(v)] *)
Definition isArray (v : value) : bool :=
  match v with
  | VArr _ => true
  | _ => false
  end.

(** [v === "literal"] *)
Definition is_string (v : value) (literal : string) : bool :=
  match v with
  | VStr s => String.eqb s literal
  | _ => false
  end.

(** [v === undefined] *)
Definition is_undefined (v : value) : bool :=
  match v with
  | VUndefined => true
  | _ => false
  end.

(** [v === 0] *)
Definition is_zero (v : value) : bool :=
  match v with
  | VNum r => String.eqb r "0"
  | _ => false
  end.

(** [a || b] *)
Definition or_else (a b : value) : value := if truthy a then a else b.

Fixpoint own_property (k : string) (properties : list (string * value)) : value :=
  match properties with
  | [] => VUndefined
  | (k', v) :: rest => if String.eqb k k' then v else own_property k rest
  end.

Fixpoint has_own_property (k : string) (properties : list (string * value)) : bool :=
  match properties with
  | [] => false
  | (k', _) :: rest => String.eqb k k' || has_own_property k rest
  end.

(** [o.k], for the property names the converter reads as data: [thinking],
    [single_tool], [multiple_tools], [reasoning], [response_type],
    [text_response], [tool_use], [tools], [length], [tool], [args], [file],
    [path], [line_range], [regex], [file_pattern], [recursive], [content],
    [line_count], [diff], [task].  None of them is an array index, and the
    only one a prototype supplies is [length], on arrays and strings.  The
    message of the TypeError is V8's. *)
Definition get (o : value) (k : string) : outcome value :=
  match o with
  | VUndefined =>
      Throw (TypeError ("Cannot read properties of undefined (reading '" ++ k ++ "')"))
  | VNull =>
      Throw (TypeError ("Cannot read properties of null (reading '" ++ k ++ "')"))
  | VBool _ | VNum _ => Return VUndefined
  | VStr s =>
      Return (if String.eqb k "length" then VNum (decimal (String.length s)) else VUndefined)
  | VArr elements =>
      Return (if String.eqb k "length" then VNum (decimal (List.length elements)) else VUndefined)
  | VObj properties => Return (own_property k properties)
  end.

(** [o?.k] *)
Definition get_optional (o : value) (k : string) : outcome value :=
  match o with
  | VUndefined | VNull => Return VUndefined
  | _ => get o k
  end.

(** [Array.prototype.join] on strings: the separator goes before every
    element but the first. *)
Fixpoint join_from (separator : string) (acc : string) (rest : list string) : string :=
  match rest with
  | [] => acc
  | x :: rest' => join_from separator (acc ++ separator ++ x) rest'
  end.

Definition join (separator : string) (fragments : list string) : string :=
  match fragments with
  | [] => EmptyString
  | x :: rest => join_from separator x rest
  end.

(** [`${v}`], the abstract operation ToString.  An array is rendered by
    [Array.prototype.join] with a comma, where [null] and [undefined]
    elements give the empty string.  An object parsed from JSON has no
    callable property of its own: when it has an own [toString] the
    conversion finds no method that returns a primitive and throws;
    otherwise [Object.prototype.toString] answers. *)
Fixpoint ToString (v : value) : outcome string :=
  match v with
  | VUndefined => Return "undefined"
  | VNull => Return "null"
  | VBool true => Return "true"
  | VBool false => Return "false"
  | VNum r => Return r
  | VStr s => Return s
  | VArr elements =>
      pieces <- (fix each (l : list value) : outcome (list string) :=
                   match l with
                   | [] => Return []
                   | x :: rest =>
                       s <- match x with
                            | VUndefined | VNull => Return EmptyString
                            | _ => ToString x
                            end ;;
                       ss <- each rest ;;
                       Return (s :: ss)
                   end) elements ;;
      Return (join "," pieces)
  | VObj properties =>
      if has_own_property "toString" properties
      then Throw (TypeError "Cannot convert object to primitive value")
      else Return "[object Object]"
  end.

(** [for (const x of l) { s = body s x }], stopping at the first throw. *)
Fixpoint for_of {A S : Type} (l : list A) (body : S -> A -> outcome S) (s : S)
  : outcome S :=
  match l with
  | [] => Return s
  | x :: rest => s' <- body s x ;; for_of rest body s'
  end.

(** [Array.prototype.map] with a callback that can throw: elements are
    visited from left to right and the first throw ends the call. *)
Fixpoint map_outcome {A B : Type} (f : A -> outcome B) (l : list A) : outcome (list B) :=
  match l with
  | [] => Return []
  | x :: rest => y <- f x ;; ys <- map_outcome f rest ;; Return (y :: ys)
  end.

(** [s.replace(/c/g, replacement)] for a pattern that is the one character
    [c] and a replacement without [$]: every occurrence is replaced, in one
    pass from left to right. *)
Fixpoint replace_all (c : ascii) (replacement : string) (s : string) : string :=
  match s with
  | EmptyString => EmptyString
  | String a rest =>
      (if Ascii.eqb a c then replacement else String a EmptyString)
        ++ replace_all c replacement rest
  end.

(** ** The escaper *)

Definition escapeXml (unsafe : string) : string :=
  replace_all "'" "&#39;"
    (replace_all dquote "&quot;"
       (replace_all ">" "&gt;"
          (replace_all "<" "&lt;"
             (replace_all "&" "&amp;" unsafe)))).

(** [escapeXml(v)] at a call site whose argument is typed [any]: the body
    starts with [unsafe.replace(...)], which only a string answers. *)
Definition escapeXml_any (unsafe : value) : outcome string :=
  match unsafe with
  | VStr s => Return (escapeXml s)
  | VUndefined =>
      Throw (TypeError "Cannot read properties of undefined (reading 'replace')")
  | VNull =>
      Throw (TypeError "Cannot read properties of null (reading 'replace')")
  | _ => Throw (TypeError "unsafe.replace is not a function")
  end.

(** ** The tool encoders *)

Definition convertReadFileToXml (toolUse : value) : outcome string :=
  args <- get toolUse "args" ;;
  let xml := "<read_file>" ++ nl ++ "<args>" ++ nl in
  file0 <- get args "file" ;;
  files <- (if isArray file0 then get args "file"
            else file1 <- get args "file" ;; Return (VArr [file1])) ;;
  xml <- for_of (match files with VArr l => l | _ => [] end)
           (fun xml file =>
              let xml := xml ++ "  <file>" ++ nl in
              path <- get file "path" ;;
              escaped <- escapeXml_any path ;;
              let xml := xml ++ "    <path>" ++ escaped ++ "</path>" ++ nl in
              line_range <- get file "line_range" ;;
              xml <- (if truthy line_range
                      then line_range <- get file "line_range" ;;
                           escaped <- escapeXml_any line_range ;;
                           Return (xml ++ "    <line_range>" ++ escaped
                                       ++ "</line_range>" ++ nl)
                      else Return xml) ;;
              Return (xml ++ "  </file>" ++ nl))
           xml ;;
  Return (xml ++ "</args>" ++ nl ++ "</read_file>").

Definition convertSearchFilesToXml (toolUse : value) : outcome string :=
  let xml := "<search_files>" ++ nl in
  path <- get toolUse "path" ;;
  escaped <- escapeXml_any path ;;
  let xml := xml ++ "<path>" ++ escaped ++ "</path>" ++ nl in
  regex <- get toolUse "regex" ;;
  escaped <- escapeXml_any regex ;;
  let xml := xml ++ "<regex>" ++ escaped ++ "</regex>" ++ nl in
  file_pattern <- get toolUse "file_pattern" ;;
  xml <- (if truthy file_pattern
          then file_pattern <- get toolUse "file_pattern" ;;
               escaped <- escapeXml_any file_pattern ;;
               Return (xml ++ "<file_pattern>" ++ escaped ++ "</file_pattern>" ++ nl)
          else Return xml) ;;
  Return (xml ++ "</search_files>").

Definition convertListFilesToXml (toolUse : value) : outcome string :=
  let xml := "<list_files>" ++ nl in
  path <- get toolUse "path" ;;
  escaped <- escapeXml_any path ;;
  let xml := xml ++ "<path>" ++ escaped ++ "</path>" ++ nl in
  recursive <- get toolUse "recursive" ;;
  xml <- (if negb (is_undefined recursive)
          then recursive <- get toolUse "recursive" ;;
               literal <- ToString recursive ;;
               Return (xml ++ "<recursive>" ++ literal ++ "</recursive>" ++ nl)
          else Return xml) ;;
  Return (xml ++ "</list_files>").

Definition convertListCodeDefinitionNamesToXml (toolUse : value) : outcome string :=
  let xml := "<list_code_definition_names>" ++ nl in
  path <- get toolUse "path" ;;
  escaped <- escapeXml_any path ;;
  let xml := xml ++ "<path>" ++ escaped ++ "</path>" ++ nl in
  Return (xml ++ "</list_code_definition_names>").

Definition convertWriteToFileToXml (toolUse : value) : outcome string :=
  let xml := "<write_to_file>" ++ nl in
  path <- get toolUse "path" ;;
  escaped <- escapeXml_any path ;;
  let xml := xml ++ "<path>" ++ escaped ++ "</path>" ++ nl in
  content <- get toolUse "content" ;;
  escaped <- escapeXml_any content ;;
  let xml := xml ++ "<content>" ++ nl ++ escaped ++ nl ++ "</content>" ++ nl in
  line_count <- get toolUse "line_count" ;;
  literal <- ToString line_count ;;
  let xml := xml ++ "<line_count>" ++ literal ++ "</line_count>" ++ nl in
  Return (xml ++ "</write_to_file>").

Definition convertApplyDiffToXml (toolUse : value) : outcome string :=
  let xml := "<apply_diff>" ++ nl in
  path <- get toolUse "path" ;;
  escaped <- escapeXml_any path ;;
  let xml := xml ++ "<path>" ++ escaped ++ "</path>" ++ nl in
  diff <- get toolUse "diff" ;;
  escaped <- escapeXml_any diff ;;
  let xml := xml ++ "<diff>" ++ nl ++ escaped ++ nl ++ "</diff>" ++ nl in
  Return (xml ++ "</apply_diff>").

Definition convertFetchInstructionsToXml (toolUse : value) : outcome string :=
  let xml := "<fetch_instructions>" ++ nl in
  task <- get toolUse "task" ;;
  escaped <- escapeXml_any task ;;
  let xml := xml ++ "<task>" ++ escaped ++ "</task>" ++ nl in
  Return (xml ++ "</fetch_instructions>").

(** ** The dispatcher *)

Definition convertSingleToolToXml (toolUse : value) : outcome string :=
  tool <- get toolUse "tool" ;;
  if is_string tool "read_file" then convertReadFileToXml toolUse
  else if is_string tool "search_files" then convertSearchFilesToXml toolUse
  else if is_string tool "list_files" then convertListFilesToXml toolUse
  else if is_string tool "list_code_definition_names"
       then convertListCodeDefinitionNamesToXml toolUse
  else if is_string tool "write_to_file" then convertWriteToFileToXml toolUse
  else if is_string tool "apply_diff" then convertApplyDiffToXml toolUse
  else if is_string tool "fetch_instructions" then convertFetchInstructionsToXml toolUse
  else tool <- get toolUse "tool" ;;
       name <- ToString tool ;;
       Throw (Error ("Unknown tool type: " ++ name)).

(** [tools.map(...)]: only an array has a callable [map]. *)
Definition tools_map (tools : value) (f : value -> outcome string)
  : outcome (list string) :=
  match tools with
  | VArr elements => map_outcome f elements
  | VUndefined =>
      Throw (TypeError "Cannot read properties of undefined (reading 'map')")
  | VNull =>
      Throw (TypeError "Cannot read properties of null (reading 'map')")
  | _ => Throw (TypeError "tools.map is not a function")
  end.

Definition convertMultipleToolsToXml (tools : value) : outcome string :=
  fragments <- tools_map tools (fun tool => convertSingleToolToXml tool) ;;
  Return (join (nl ++ nl) fragments).

(** ** Results *)

(** [ConversionResult]: an optional field that a result does not carry reads
    as [undefined].  At run time [xml], [reasoning] and [thinking] hold
    whatever the response held. *)
Record ConversionResult : Type := {
  success : bool;
  xml : value;
  error : value;
  reasoning : value;
  thinking : value
}.

(** [{ success: false, error: message }] *)
Definition failure (message : string) : ConversionResult :=
  {| success := false; xml := VUndefined; error := VStr message;
     reasoning := VUndefined; thinking := VUndefined |}.

(** [result.xml = x] *)
Definition set_xml (result : ConversionResult) (x : value) : ConversionResult :=
  {| success := result.(success); xml := x; error := result.(error);
     reasoning := result.(reasoning); thinking := result.(thinking) |}.

(** The result of [validateJsonStructure]. *)
Record validation : Type := {
  valid : bool;
  errors : list string
}.

(** The validator pushes onto one [errors] array inside its [try] block and
    in its [catch] clause: a computation takes the array as it stands and
    gives it back with its completion. *)
Definition checking (A : Type) : Type := list string -> list string * outcome A.

Definition pure {A : Type} (a : A) : checking A := fun errors => (errors, Return a).

Definition lift {A : Type} (m : outcome A) : checking A := fun errors => (errors, m).

(** [errors.push(message)] *)
Definition push (message : string) : checking unit :=
  fun errors => (List.app errors [message], Return tt).

Definition and_then {A B : Type} (m : checking A) (k : A -> checking B) : checking B :=
  fun errors =>
    match m errors with
    | (errors', Return a) => k a errors'
    | (errors', Throw e) => (errors', Throw e)
    end.

Notation "x <~ m ;; k" := (and_then m (fun x => k))
  (at level 61, m at next level, right associativity).

(** [["single_tool", "multiple_tools", "text_only"].includes(v)] *)
Definition known_response_type (v : value) : bool :=
  is_string v "single_tool" || is_string v "multiple_tools" || is_string v "text_only".

Section Entry_points.

(** [JSON.parse], applied to a string without a reviver: the parsed value,
    or a throw (a SyntaxError). *)
Variable JSON_parse : string -> outcome value.

(** ** The orchestrator *)

(** The [try] block of [convertJsonToXml] from "Validate basic structure"
    on. *)
Definition convert_parsed (parsedResponse : value) : outcome ConversionResult :=
  if negb (truthy parsedResponse) || negb (typeof_object parsedResponse)
  then Return (failure "Invalid input: expected object or JSON string")
  else
    let response := parsedResponse in
    thinking0 <- get response "thinking" ;;
    single_tool <- get response "single_tool" ;;
    reasoning1 <- get_optional single_tool "reasoning" ;;
    reasoning0 <- (if truthy reasoning1 then Return reasoning1
                   else multiple_tools <- get response "multiple_tools" ;;
                        get_optional multiple_tools "reasoning") ;;
    let result :=
      {| success := true; xml := VUndefined; error := VUndefined;
         reasoning := reasoning0; thinking := thinking0 |} in
    response_type <- get response "response_type" ;;
    if is_string response_type "text_only" then
      text_response <- get response "text_response" ;;
      Return {| success := true;
                xml := or_else text_response (VStr EmptyString);
                error := VUndefined;
                reasoning := VUndefined;
                thinking := result.(thinking) |}
    else if is_string response_type "single_tool" then
      single_tool <- get response "single_tool" ;;
      tool_use <- get_optional single_tool "tool_use" ;;
      if negb (truthy tool_use)
      then Return (failure "Single tool response missing tool_use")
      else
        single_tool <- get response "single_tool" ;;
        tool_use <- get single_tool "tool_use" ;;
        fragment <- convertSingleToolToXml tool_use ;;
        Return (set_xml result (VStr fragment))
    else if is_string response_type "multiple_tools" then
      multiple_tools <- get response "multiple_tools" ;;
      tools <- get_optional multiple_tools "tools" ;;
      if negb (truthy tools)
      then Return (failure "Multiple tools response missing tools array")
      else
        multiple_tools <- get response "multiple_tools" ;;
        tools <- get multiple_tools "tools" ;;
        length <- get tools "length" ;;
        if is_zero length
        then Return (failure "Multiple tools response missing tools array")
        else
          multiple_tools <- get response "multiple_tools" ;;
          tools <- get multiple_tools "tools" ;;
          fragments <- convertMultipleToolsToXml tools ;;
          Return (set_xml result (VStr fragments))
    else
      response_type <- get response "response_type" ;;
      name <- ToString response_type ;;
      Return (failure ("Unknown response_type: " ++ name)).

Definition convertJsonToXml (jsonResponse : value) : outcome ConversionResult :=
  try_catch
    (match jsonResponse with
     | VStr text =>
         match JSON_parse text with
         | Return parsedResponse => convert_parsed parsedResponse
         | Throw e =>
             Return (failure ("Failed to parse JSON string: " ++ message_or_unknown e))
         end
     | _ => convert_parsed jsonResponse
     end)
    (fun error => Return (failure ("Conversion error: " ++ message_or_unknown error))).

(** ** The batch runner *)

Definition convertMultipleJsonToXml (jsonResponses : list value)
  : outcome (list ConversionResult) :=
  map_outcome convertJsonToXml jsonResponses.

(** ** The structural validator *)

(** The [try] block of [validateJsonStructure] after its first
    statement. *)
Definition validate_parsed (response : value) : checking validation :=
  if negb (truthy response) || negb (typeof_object response)
  then _ <~ push "Response must be an object" ;;
       fun errors => (errors, Return {| valid := false; errors := errors |})
  else
    response_type <~ lift (get response "response_type") ;;
    _ <~ (if negb (truthy response_type)
          then push "Missing required field: response_type"
          else if negb (known_response_type response_type)
          then response_type <~ lift (get response "response_type") ;;
               name <~ lift (ToString response_type) ;;
               push ("Invalid response_type: " ++ name)
          else pure tt) ;;
    response_type <~ lift (get response "response_type") ;;
    _ <~ (if is_string response_type "single_tool" then
            single_tool <~ lift (get response "single_tool") ;;
            if negb (truthy single_tool)
            then push "single_tool field is required for single_tool response_type"
            else single_tool <~ lift (get response "single_tool") ;;
                 tool_use <~ lift (get single_tool "tool_use") ;;
                 if negb (truthy tool_use)
                 then push "tool_use field is required in single_tool"
                 else pure tt
          else if is_string response_type "multiple_tools" then
            multiple_tools <~ lift (get response "multiple_tools") ;;
            if negb (truthy multiple_tools)
            then push "multiple_tools field is required for multiple_tools response_type"
            else multiple_tools <~ lift (get response "multiple_tools") ;;
                 tools <~ lift (get multiple_tools "tools") ;;
                 if negb (isArray tools)
                 then push "tools field must be an array in multiple_tools"
                 else multiple_tools <~ lift (get response "multiple_tools") ;;
                      tools <~ lift (get multiple_tools "tools") ;;
                      length <~ lift (get tools "length") ;;
                      if is_zero length
                      then push "tools array cannot be empty"
                      else pure tt
          else if is_string response_type "text_only" then
            text_response <~ lift (get response "text_response") ;;
            if negb (truthy text_response)
            then push "text_response field is required for text_only response_type"
            else pure tt
          else pure tt) ;;
    fun errors =>
      (errors, Return {| valid := Nat.eqb (List.length errors) 0; errors := errors |}).

(** The [try] block of [validateJsonStructure]. *)
Definition validate_try (jsonResponse : value) : checking validation :=
  response <~ lift (match jsonResponse with
                    | VStr text => JSON_parse text
                    | _ => Return jsonResponse
                    end) ;;
  validate_parsed response.

Definition validateJsonStructure (jsonResponse : value) : outcome validation :=
  match validate_try jsonResponse [] with
  | (_, Return result) => Return result
  | (errors, Throw error) =>
      let errors := List.app errors ["JSON parsing error: " ++ message_or_unknown error] in
      Return {| valid := false; errors := errors |}
  end.

End Entry_points.

(** ** The caller: the Ollama provider

    [src/api/providers/ollama.ts].  [completePrompt] sends a request and
    then decides what to return from the content of the response.  The
    request, the logging and the rethrow of a failed request are outside the
    embedding; what follows is the value returned once the content is
    known, for a [jsonSchema] and a [content] that are given. *)

Section Provider.

(** [JSON.parse] and [String.prototype.trim]. *)
Variable JSON_parse : string -> outcome value.
Variable trim : string -> string.

(** [if (jsonSchema && content.trim()) { ... } return content] *)
Definition completePrompt_result (jsonSchema : value) (content : string)
  : outcome value :=
  if truthy jsonSchema && truthy (VStr (trim content)) then
    conversionResult <- convertJsonToXml JSON_parse (VStr content) ;;
    if conversionResult.(success) && truthy conversionResult.(xml)
    then Return conversionResult.(xml)
    else Return (VStr content)
  else Return (VStr content).

End Provider.

(** * Properties *)

(** ** Vocabulary for statements about text *)

(** The number of code units of [s] equal to [c]. *)
Fixpoint count_char (c : ascii) (s : string) : nat :=
  match s with
  | EmptyString => 0
  | String a rest => (if Ascii.eqb a c then 1 else 0) + count_char c rest
  end.

(** [s.startsWith(pattern)] *)
Fixpoint starts_with (pattern s : string) : bool :=
  match pattern with
  | EmptyString => true
  | String p pattern' =>
      match s with
      | EmptyString => false
      | String a rest => Ascii.eqb p a && starts_with pattern' rest
      end
  end.

(** The number of positions of [s] at which [pattern] occurs. *)
Fixpoint occurrences (pattern s : string) : nat :=
  match s with
  | EmptyString => 0
  | String _ rest as here =>
      (if starts_with pattern here then 1 else 0) + occurrences pattern rest
  end.

(** [s.includes(pattern)] *)
Definition includes (s pattern : string) : bool :=
  negb (Nat.eqb (occurrences pattern s) 0).

(** The five entities. *)
Definition entities : list string :=
  ["&amp;"; "&lt;"; "&gt;"; "&quot;"; "&#39;"].

(** What one code unit becomes when each unit is rewritten on its own. *)
Definition escape_char (a : ascii) : string :=
  if Ascii.eqb a "&" then "&amp;"
  else if Ascii.eqb a "<" then "&lt;"
  else if Ascii.eqb a ">" then "&gt;"
  else if Ascii.eqb a dquote then "&quot;"
  else if Ascii.eqb a "'" then "&#39;"
  else String a EmptyString.

Fixpoint escape_each (s : string) : string :=
  match s with
  | EmptyString => EmptyString
  | String a rest => escape_char a ++ escape_each rest
  end.

(** Whether [s] holds one of the five markup characters. *)
Definition has_markup (s : string) : bool :=
  existsb (fun c => negb (Nat.eqb (count_char c s) 0))
    ["&"%char; "<"%char; ">"%char; dquote; "'"%char].

(** The number of markup characters of [s]. *)
Definition markup_count (s : string) : nat :=
  count_char "&" s + count_char "<" s + count_char ">" s
  + count_char dquote s + count_char "'" s.

(** Whether one of the five entities occurs at the start of [s]. *)
Definition entity_at (s : string) : bool :=
  existsb (fun entity => starts_with entity s) entities.

(** [P] holds of [s] and of every suffix of [s]. *)
Fixpoint every_suffix (P : string -> bool) (s : string) : bool :=
  P s && match s with
         | EmptyString => true
         | String _ rest => every_suffix P rest
         end.

(** A suffix that starts with an ampersand starts with an entity. *)
Definition ampersand_begins_entity (s : string) : bool :=
  match s with
  | EmptyString => true
  | String a _ => if Ascii.eqb a "&" then entity_at s else true
  end.

(** The concatenation of a list of fragments. *)
Definition append_all (fragments : list string) : string :=
  fold_right append EmptyString fragments.

(** ** Vocabulary for statements about invocations *)

(** [FileRef], as the schema types it. *)
Record FileRef : Type := {
  ref_path : string;
  ref_line_range : option string
}.

Definition optional_string (o : option string) : value :=
  match o with
  | Some s => VStr s
  | None => VUndefined
  end.

Definition optional_bool (o : option bool) : value :=
  match o with
  | Some b => VBool b
  | None => VUndefined
  end.

(** The value [v] reads as the file reference [f]. *)
Definition reads_as_FileRef (v : value) (f : FileRef) : Prop :=
  get v "path" = Return (VStr f.(ref_path))
  /\ get v "line_range" = Return (optional_string f.(ref_line_range)).

(** The entries of [args.file]: the elements of an array, or the one value
    that is not an array. *)
Definition file_entries (file : value) : list value :=
  match file with
  | VArr elements => elements
  | single => [single]
  end.

(** The [<line_range>] line of a block, as the encoder writes it: none for
    an absent range and none for the empty string. *)
Definition line_range_line (range : option string) : string :=
  match range with
  | None => EmptyString
  | Some r =>
      if String.eqb r EmptyString then EmptyString
      else "    <line_range>" ++ escapeXml r ++ "</line_range>" ++ nl
  end.

(** The [<line_range>] line of a block when every present range is
    written. *)
Definition line_range_line_if_present (range : option string) : string :=
  match range with
  | None => EmptyString
  | Some r => "    <line_range>" ++ escapeXml r ++ "</line_range>" ++ nl
  end.

Definition file_block_with (line : option string -> string) (f : FileRef) : string :=
  "  <file>" ++ nl
  ++ "    <path>" ++ escapeXml f.(ref_path) ++ "</path>" ++ nl
  ++ line f.(ref_line_range)
  ++ "  </file>" ++ nl.

Definition read_file_text_with (line : option string -> string) (refs : list FileRef)
  : string :=
  "<read_file>" ++ nl ++ "<args>" ++ nl
  ++ append_all (map (file_block_with line) refs)
  ++ "</args>" ++ nl ++ "</read_file>".

(** The text of a [list_files] invocation, as the schema types it. *)
Definition list_files_text (path : string) (recursive : option bool) : string :=
  "<list_files>" ++ nl
  ++ "<path>" ++ escapeXml path ++ "</path>" ++ nl
  ++ match recursive with
     | Some true => "<recursive>true</recursive>" ++ nl
     | Some false => "<recursive>false</recursive>" ++ nl
     | None => EmptyString
     end
  ++ "</list_files>".

(** Fragments with [separator] between each two consecutive ones. *)
Fixpoint joined_with (separator : string) (fragments : list string) : string :=
  match fragments with
  | [] => EmptyString
  | [x] => x
  | x :: rest => x ++ separator ++ joined_with separator rest
  end.

(** ** Vocabulary for statements about the entry points *)

(** [jsonResponse] presents [response] to an entry point: it is the text
    that parses to [response], or it is [response] itself and not text. *)
Definition presents (JSON_parse : string -> outcome value)
           (jsonResponse response : value) : Prop :=
  match jsonResponse with
  | VStr text => JSON_parse text = Return response
  | _ => jsonResponse = response
  end.

(** The seven tags the dispatcher knows. *)
Definition known_tool (tag : value) : bool :=
  is_string tag "read_file" || is_string tag "search_files"
  || is_string tag "list_files" || is_string tag "list_code_definition_names"
  || is_string tag "write_to_file" || is_string tag "apply_diff"
  || is_string tag "fetch_instructions".

(** What every result of the orchestrator satisfies: [xml] is defined
    exactly on success, and a failure carries a message and nothing else. *)
Definition result_invariant (r : ConversionResult) : Prop :=
  (r.(xml) <> VUndefined <-> r.(success) = true)
  /\ (r.(success) = false ->
      (exists message : string, r.(error) = VStr message)
      /\ r.(xml) = VUndefined
      /\ r.(thinking) = VUndefined
      /\ r.(reasoning) = VUndefined).

(** A result of the validator is consistent when it is invalid exactly when
    it lists an error. *)
Definition consistent (result : validation) : Prop :=
  result.(valid) = false <-> result.(errors) <> [].

(** A parser for sample inputs: it knows the texts of a table and rejects
    every other text, as [JSON.parse] rejects a text that is not JSON. *)
Fixpoint parse_known (table : list (string * value)) (text : string) : outcome value :=
  match table with
  | [] => Throw (ErrorObject "SyntaxError" "Unexpected token")
  | (known, v) :: rest =>
      if String.eqb text known then Return v else parse_known rest text
  end.

Definition quoted (s : string) : string :=
  String dquote (s ++ String dquote EmptyString).

(** ** Sample inputs *)

(** [{ tool: "read_file", args: { file: [{ path: "src/file1.ts" },
    { path: "src/file2.ts", line_range: "10-20" }] } }] *)
Definition sample_read_file : value :=
  VObj [("tool", VStr "read_file");
        ("args", VObj [("file", VArr [VObj [("path", VStr "src/file1.ts")];
                                      VObj [("path", VStr "src/file2.ts");
                                            ("line_range", VStr "10-20")]])])].

(** [{ tool: "read_file", args: { file: { path: "a", line_range: "" } } }] *)
Definition sample_read_file_empty_range : value :=
  VObj [("tool", VStr "read_file");
        ("args", VObj [("file", VObj [("path", VStr "a");
                                      ("line_range", VStr EmptyString)])])].

(** [{ tool: "list_files", path: "src", recursive: true }] *)
Definition sample_list_files : value :=
  VObj [("tool", VStr "list_files"); ("path", VStr "src"); ("recursive", VBool true)].

(** [[{ tool: "search_files", path: "src", regex: "TODO" },
    { tool: "list_files", path: "src", recursive: false }]] *)
Definition sample_tools : list value :=
  [VObj [("tool", VStr "search_files"); ("path", VStr "src"); ("regex", VStr "TODO")];
   VObj [("tool", VStr "list_files"); ("path", VStr "src"); ("recursive", VBool false)]].

(** [{ response_type: "text_only", text_response: "Hello from JSON string" }]
    and its text. *)
Definition sample_text_only : value :=
  VObj [("response_type", VStr "text_only");
        ("text_response", VStr "Hello from JSON string")].

Definition sample_text_only_json : string :=
  "{" ++ quoted "response_type" ++ ":" ++ quoted "text_only" ++ ","
  ++ quoted "text_response" ++ ":" ++ quoted "Hello from JSON string" ++ "}".

Definition sample_parse : string -> outcome value :=
  parse_known [(sample_text_only_json, sample_text_only)].

(** [{ response_type: "text_only", text_response: "" }] *)
Definition sample_empty_text : value :=
  VObj [("response_type", VStr "text_only"); ("text_response", VStr EmptyString)].

(** [{ response_type: "text_only" }] *)
Definition sample_no_text : value :=
  VObj [("response_type", VStr "text_only")].

(** [{ tool: "execute_command", command: "ls" }], a tag the dispatcher does
    not know. *)
Definition sample_unknown_tool : value :=
  VObj [("tool", VStr "execute_command"); ("command", VStr "ls")].

(** [{ response_type: "single_tool", single_tool: { tool_use: t } }] *)
Definition single_tool_response (tool_use : value) : value :=
  VObj [("response_type", VStr "single_tool");
        ("single_tool", VObj [("tool_use", tool_use)])].

(** ** Vocabulary for the other encoders *)

(** The [<file_pattern>] line of a [search_files] text: none for an absent
    pattern and none for the empty string. *)
Definition file_pattern_line (file_pattern : option string) : string :=
  match file_pattern with
  | None => EmptyString
  | Some p =>
      if String.eqb p EmptyString then EmptyString
      else "<file_pattern>" ++ escapeXml p ++ "</file_pattern>" ++ nl
  end.

Definition search_files_text (path regex : string) (file_pattern : option string)
  : string :=
  "<search_files>" ++ nl
  ++ "<path>" ++ escapeXml path ++ "</path>" ++ nl
  ++ "<regex>" ++ escapeXml regex ++ "</regex>" ++ nl
  ++ file_pattern_line file_pattern
  ++ "</search_files>".

(** [line_count] is the text that the string conversion of the field
    gives. *)
Definition write_to_file_text (path content line_count : string) : string :=
  "<write_to_file>" ++ nl
  ++ "<path>" ++ escapeXml path ++ "</path>" ++ nl
  ++ "<content>" ++ nl ++ escapeXml content ++ nl ++ "</content>" ++ nl
  ++ "<line_count>" ++ line_count ++ "</line_count>" ++ nl
  ++ "</write_to_file>".

Definition apply_diff_text (path diff : string) : string :=
  "<apply_diff>" ++ nl
  ++ "<path>" ++ escapeXml path ++ "</path>" ++ nl
  ++ "<diff>" ++ nl ++ escapeXml diff ++ nl ++ "</diff>" ++ nl
  ++ "</apply_diff>".

Definition list_code_definition_names_text (path : string) : string :=
  "<list_code_definition_names>" ++ nl
  ++ "<path>" ++ escapeXml path ++ "</path>" ++ nl
  ++ "</list_code_definition_names>".

Definition fetch_instructions_text (task : string) : string :=
  "<fetch_instructions>" ++ nl
  ++ "<task>" ++ escapeXml task ++ "</task>" ++ nl
  ++ "</fetch_instructions>".

(** [{ tool: "search_files", path: "src", regex: "\bfunction\b",
    file_pattern: "*.ts" }] *)
Definition sample_search_files : value :=
  VObj [("tool", VStr "search_files"); ("path", VStr "src");
        ("regex", VStr "\bfunction\b"); ("file_pattern", VStr "*.ts")].

(** [{ tool: "write_to_file", path: "test.ts", content: '<x> & "y"',
    line_count: 1 }] *)
Definition sample_write_to_file : value :=
  VObj [("tool", VStr "write_to_file"); ("path", VStr "test.ts");
        ("content", VStr ("<x> & " ++ quoted "y")); ("line_count", VNum "1")].

(** [{ tool: "apply_diff", path: "src/app.ts", diff: "</diff>" }] *)
Definition sample_apply_diff : value :=
  VObj [("tool", VStr "apply_diff"); ("path", VStr "src/app.ts");
        ("diff", VStr "</diff>")].

(** [{ tool: "list_code_definition_names", path: "src" }] *)
Definition sample_list_code_definition_names : value :=
  VObj [("tool", VStr "list_code_definition_names"); ("path", VStr "src")].

(** [{ tool: "fetch_instructions", task: "create_mode" }] *)
Definition sample_fetch_instructions : value :=
  VObj [("tool", VStr "fetch_instructions"); ("task", VStr "create_mode")].

(** ** Vocabulary for the side channels of a result *)

(** [o.k] where the read is known not to throw. *)
Definition read (o : value) (k : string) : value :=
  match get o k with
  | Return v => v
  | Throw _ => VUndefined
  end.

(** [o?.k], which never throws on the values of the model. *)
Definition read_optional (o : value) (k : string) : value :=
  match get_optional o k with
  | Return v => v
  | Throw _ => VUndefined
  end.

(** [response.single_tool?.reasoning || response.multiple_tools?.reasoning] *)
Definition reasoning_of (response : value) : value :=
  or_else (read_optional (read response "single_tool") "reasoning")
          (read_optional (read response "multiple_tools") "reasoning").

(** [{ response_type: "single_tool", thinking: "I need to analyze this file
    first", single_tool: { tool_use: { tool: "list_files", path: "src",
    recursive: true }, reasoning: "Need to list the sources" } }] *)
Definition sample_with_side_channels : value :=
  VObj [("response_type", VStr "single_tool");
        ("thinking", VStr "I need to analyze this file first");
        ("single_tool", VObj [("tool_use", sample_list_files);
                              ("reasoning", VStr "Need to list the sources")])].

(** [{ response_type: "multiple_tools", multiple_tools: { tools: t } }] *)
Definition multiple_tools_response (tools : value) : value :=
  VObj [("response_type", VStr "multiple_tools");
        ("multiple_tools", VObj [("tools", tools)])].

(** [{ tool: "search_files", path: "src" }], without the required
    [regex]. *)
Definition sample_search_without_regex : value :=
  VObj [("tool", VStr "search_files"); ("path", VStr "src")].

(** ** The escaper *)

Lemma append_empty_r (s : string) : s ++ EmptyString = s.
Proof. induction s as [|a s IH]; simpl; [reflexivity | now rewrite IH]. Qed.

Lemma append_assoc (s t u : string) : (s ++ t) ++ u = s ++ (t ++ u).
Proof. induction s as [|a s IH]; simpl; [reflexivity | now rewrite IH]. Qed.

Lemma replace_all_append (c : ascii) (r s t : string) :
  replace_all c r (s ++ t) = replace_all c r s ++ replace_all c r t.
Proof.
  induction s as [|a s IH]; simpl; [reflexivity|].
  now rewrite IH, append_assoc.
Qed.

Lemma escapeXml_append (s t : string) :
  escapeXml (s ++ t) = escapeXml s ++ escapeXml t.
Proof. unfold escapeXml. now rewrite !replace_all_append. Qed.

(** Every code unit is one of the five markup characters or none of them. *)
Lemma markup_cases (a : ascii) :
  a = "&"%char \/ a = "<"%char \/ a = ">"%char \/ a = dquote \/ a = "'"%char
  \/ (Ascii.eqb a "&" = false /\ Ascii.eqb a "<" = false /\ Ascii.eqb a ">" = false
      /\ Ascii.eqb a dquote = false /\ Ascii.eqb a "'" = false).
Proof.
  destruct (Ascii.eqb_spec a "&"); [now left|].
  destruct (Ascii.eqb_spec a "<"); [now right; left|].
  destruct (Ascii.eqb_spec a ">"); [now right; right; left|].
  destruct (Ascii.eqb_spec a dquote); [now right; right; right; left|].
  destruct (Ascii.eqb_spec a "'"); [now right; right; right; right; left|].
  right; right; right; right; right. repeat split; reflexivity.
Qed.

(** Case analysis on a code unit, with the five tests rewritten in the
    remaining case. *)
Ltac markup_case a :=
  let H := fresh "H" in
  destruct (markup_cases a) as [H|[H|[H|[H|[H|(?E1 & ?E2 & ?E3 & ?E4 & ?E5)]]]]];
  [subst a | subst a | subst a | subst a | subst a | ].

Lemma eqb_flip (a c : ascii) : Ascii.eqb a c = false -> Ascii.eqb c a = false.
Proof. now rewrite Ascii.eqb_sym. Qed.

Lemma escape_char_plain (a : ascii) :
  Ascii.eqb a "&" = false -> Ascii.eqb a "<" = false -> Ascii.eqb a ">" = false ->
  Ascii.eqb a dquote = false -> Ascii.eqb a "'" = false ->
  escape_char a = String a EmptyString.
Proof. intros E1 E2 E3 E4 E5. unfold escape_char. now rewrite E1, E2, E3, E4, E5. Qed.

Lemma escapeXml_one (a : ascii) : escapeXml (String a EmptyString) = escape_char a.
Proof.
  markup_case a; try reflexivity.
  rewrite escape_char_plain by assumption.
  unfold escapeXml. simpl. rewrite E1. simpl. rewrite E2. simpl. rewrite E3. simpl.
  rewrite E4. simpl. now rewrite E5.
Qed.

(** The five passes amount to one pass that rewrites each code unit on its
    own: no pass touches what an earlier one produced. *)
Lemma escapeXml_each (s : string) : escapeXml s = escape_each s.
Proof.
  induction s as [|a s IH]; [reflexivity|].
  change (String a s) with (String a EmptyString ++ s).
  rewrite escapeXml_append, escapeXml_one, IH. reflexivity.
Qed.

Lemma count_char_append (c : ascii) (s t : string) :
  count_char c (s ++ t) = count_char c s + count_char c t.
Proof. induction s as [|a s IH]; simpl; [reflexivity | rewrite IH; lia]. Qed.

Lemma length_append (s t : string) :
  String.length (s ++ t) = String.length s + String.length t.
Proof. induction s as [|a s IH]; simpl; [reflexivity | now rewrite IH]. Qed.

(** The markup characters that are not the ampersand never survive. *)
Lemma count_char_escape_each (c : ascii) (s : string) :
  c = "<"%char \/ c = ">"%char \/ c = dquote \/ c = "'"%char ->
  count_char c (escape_each s) = 0.
Proof.
  intros Hc. induction s as [|a s IH]; [reflexivity|].
  simpl. rewrite count_char_append, IH, Nat.add_0_r.
  markup_case a.
  1-5: destruct Hc as [->|[->|[->| ->]]]; reflexivity.
  rewrite escape_char_plain by assumption. simpl.
  destruct Hc as [->|[->|[->| ->]]]; rewrite ?E2, ?E3, ?E4, ?E5; reflexivity.
Qed.

(** Every markup character leaves exactly one ampersand. *)
Lemma count_ampersand_escape_each (s : string) :
  count_char "&" (escape_each s) = markup_count s.
Proof.
  unfold markup_count. induction s as [|a s IH]; [reflexivity|].
  simpl escape_each. rewrite count_char_append, IH.
  markup_case a; try (simpl; lia).
  rewrite escape_char_plain by assumption. simpl.
  rewrite E1, E2, E3, E4, E5. lia.
Qed.

Lemma length_escape_each (s : string) :
  String.length s + 3 * markup_count s <= String.length (escape_each s).
Proof.
  unfold markup_count. induction s as [|a s IH]; [simpl; lia|].
  simpl escape_each. rewrite length_append.
  markup_case a; try (simpl in *; lia).
  rewrite escape_char_plain by assumption. simpl.
  rewrite E1, E2, E3, E4, E5. simpl in *. lia.
Qed.

Lemma escape_each_plain (s : string) : markup_count s = 0 -> escape_each s = s.
Proof.
  unfold markup_count. induction s as [|a s IH]; [reflexivity|].
  markup_case a; try (simpl; intros; lia).
  simpl. rewrite E1, E2, E3, E4, E5, escape_char_plain by assumption.
  simpl. intros H. now rewrite IH.
Qed.

Lemma has_markup_count (s : string) : has_markup s = true <-> 0 < markup_count s.
Proof.
  unfold has_markup, markup_count. simpl. rewrite !orb_true_iff, !negb_true_iff, !Nat.eqb_neq.
  lia.
Qed.

Lemma occurrences_skip (p a : ascii) (pattern t : string) :
  Ascii.eqb p a = false ->
  occurrences (String p pattern) (String a t) = occurrences (String p pattern) t.
Proof. intros H. cbn [occurrences starts_with]. now rewrite H. Qed.

(** Occurrences of an entity, one code unit of the source at a time. *)
Lemma occurrences_escape_char (entity : string) (c a : ascii) (t : string) :
  (entity, c) = ("&amp;", "&"%char) \/ (entity, c) = ("&lt;", "<"%char)
  \/ (entity, c) = ("&gt;", ">"%char) \/ (entity, c) = ("&quot;", dquote)
  \/ (entity, c) = ("&#39;", "'"%char) ->
  occurrences entity (escape_char a ++ t)
  = (if Ascii.eqb a c then 1 else 0) + occurrences entity t.
Proof.
  intros H.
  markup_case a.
  1-5: destruct H as [H|[H|[H|[H|H]]]]; injection H as -> ->; reflexivity.
  rewrite escape_char_plain by assumption.
  cbn [append].
  destruct H as [H|[H|[H|[H|H]]]]; injection H as -> ->;
    rewrite occurrences_skip by (now apply eqb_flip);
    rewrite ?E1, ?E2, ?E3, ?E4, ?E5; reflexivity.
Qed.

Lemma occurrences_escape_each (entity : string) (c : ascii) (s : string) :
  (entity, c) = ("&amp;", "&"%char) \/ (entity, c) = ("&lt;", "<"%char)
  \/ (entity, c) = ("&gt;", ">"%char) \/ (entity, c) = ("&quot;", dquote)
  \/ (entity, c) = ("&#39;", "'"%char) ->
  occurrences entity (escape_each s) = count_char c s.
Proof.
  intros H. induction s as [|a s IH]; [reflexivity|].
  simpl escape_each. rewrite (occurrences_escape_char entity c) by assumption.
  rewrite IH. reflexivity.
Qed.

Lemma every_suffix_escape_char (a : ascii) (t : string) :
  every_suffix ampersand_begins_entity (escape_char a ++ t)
  = every_suffix ampersand_begins_entity t.
Proof.
  markup_case a; try reflexivity.
  rewrite escape_char_plain by assumption. simpl. now rewrite E1.
Qed.

Lemma every_suffix_escape_each (s : string) :
  every_suffix ampersand_begins_entity (escape_each s) = true.
Proof.
  induction s as [|a s IH]; [reflexivity|].
  simpl escape_each. now rewrite every_suffix_escape_char.
Qed.

Lemma every_suffix_at (P : string -> bool) (before s : string) :
  every_suffix P (before ++ s) = true -> P s = true.
Proof.
  induction before as [|a before IH]; simpl.
  - destruct s; simpl; intros H; apply andb_true_iff in H; tauto.
  - intros H. apply andb_true_iff in H. tauto.
Qed.

(** ** The [read_file] encoder *)

Lemma bind_Return {A B : Type} (a : A) (k : A -> outcome B) :
  bind (Return a) k = k a.
Proof. reflexivity. Qed.

(** One turn of the loop appends one block. *)
Lemma read_file_loop (files : list value) (refs : list FileRef)
      (body := fun (xml : string) (file : value) =>
                 let xml := xml ++ "  <file>" ++ nl in
                 path <- get file "path" ;;
                 escaped <- escapeXml_any path ;;
                 let xml := xml ++ "    <path>" ++ escaped ++ "</path>" ++ nl in
                 line_range <- get file "line_range" ;;
                 xml <- (if truthy line_range
                         then line_range <- get file "line_range" ;;
                              escaped <- escapeXml_any line_range ;;
                              Return (xml ++ "    <line_range>" ++ escaped
                                          ++ "</line_range>" ++ nl)
                         else Return xml) ;;
                 Return (xml ++ "  </file>" ++ nl)) :
  Forall2 reads_as_FileRef files refs ->
  forall xml : string,
    for_of files body xml
    = Return (xml ++ append_all (map (file_block_with line_range_line) refs)).
Proof.
  induction 1 as [|file f files refs [Hp Hr] _ IH]; intros xml.
  - simpl. now rewrite append_empty_r.
  - cbn [for_of]. unfold body at 1. cbv zeta.
    rewrite Hp, bind_Return. cbn [escapeXml_any]. rewrite bind_Return.
    rewrite Hr, bind_Return.
    destruct f as [p [r|]]; cbn [optional_string ref_line_range ref_path truthy] in *.
    + destruct (String.eqb r EmptyString) eqn:Er; cbn [negb].
      * rewrite !bind_Return, IH. f_equal.
        cbn [map append_all fold_right]. unfold file_block_with.
        cbn [ref_path ref_line_range line_range_line]. rewrite Er.
        rewrite !append_assoc. reflexivity.
      * rewrite !bind_Return. cbn [escapeXml_any]. rewrite !bind_Return, IH. f_equal.
        cbn [map append_all fold_right]. unfold file_block_with.
        cbn [ref_path ref_line_range line_range_line]. rewrite Er.
        rewrite !append_assoc. reflexivity.
    + rewrite !bind_Return, IH. f_equal.
      cbn [map append_all fold_right]. unfold file_block_with.
      cbn [ref_path ref_line_range line_range_line].
      rewrite !append_assoc. reflexivity.
Qed.

Lemma convertReadFileToXml_text (toolUse args file : value) (refs : list FileRef) :
  get toolUse "args" = Return args ->
  get args "file" = Return file ->
  Forall2 reads_as_FileRef (file_entries file) refs ->
  convertReadFileToXml toolUse = Return (read_file_text_with line_range_line refs).
Proof.
  intros Ha Hf Hrefs. unfold convertReadFileToXml.
  rewrite Ha, bind_Return. cbv zeta. rewrite Hf, bind_Return.
  assert (Hfiles : (if isArray file then Return file
                    else file1 <- Return file ;; Return (VArr [file1]))
                   = Return (VArr (file_entries file))).
  { destruct file; reflexivity. }
  rewrite Hfiles, bind_Return.
  rewrite (read_file_loop _ _ Hrefs), bind_Return.
  unfold read_file_text_with. rewrite !append_assoc. reflexivity.
Qed.

Lemma count_char_none_head (a c : ascii) (s : string) :
  count_char c (String a s) = 0 -> Ascii.eqb c a = false /\ count_char c s = 0.
Proof.
  simpl. rewrite (Ascii.eqb_sym c a). destruct (Ascii.eqb a c); [discriminate|]. now split.
Qed.

(** A pattern does not occur where its first character does not. *)
Lemma occurrences_no_head (p : ascii) (pattern e t : string) :
  count_char p e = 0 ->
  occurrences (String p pattern) (e ++ t) = occurrences (String p pattern) t.
Proof.
  induction e as [|a e IH]; intros H; [reflexivity|].
  apply count_char_none_head in H as [Ha He].
  cbn [append]. rewrite occurrences_skip by exact Ha. now apply IH.
Qed.

Lemma count_lt_escapeXml (s : string) : count_char "<" (escapeXml s) = 0.
Proof. rewrite escapeXml_each. apply count_char_escape_each. tauto. Qed.

Lemma occurrences_file_block (f : FileRef) (t : string) :
  occurrences "<file>" (file_block_with line_range_line f ++ t)
  = 1 + occurrences "<file>" t.
Proof.
  unfold file_block_with. rewrite !append_assoc.
  change (occurrences "<file>"
            ("  <file>" ++ nl ++ "    <path>" ++ escapeXml (ref_path f) ++ "</path>" ++ nl
             ++ line_range_line (ref_line_range f) ++ "  </file>" ++ nl ++ t))
    with (1 + occurrences "<file>"
                (escapeXml (ref_path f) ++ "</path>" ++ nl
                 ++ line_range_line (ref_line_range f) ++ "  </file>" ++ nl ++ t)).
  f_equal. rewrite occurrences_no_head by apply count_lt_escapeXml.
  destruct (ref_line_range f) as [r|]; cbn [line_range_line]; [|reflexivity].
  destruct (String.eqb r EmptyString); [reflexivity|].
  rewrite !append_assoc.
  change (occurrences "<file>"
            ("</path>" ++ nl ++ "    <line_range>" ++ escapeXml r ++ "</line_range>" ++ nl
             ++ "  </file>" ++ nl ++ t))
    with (occurrences "<file>"
            (escapeXml r ++ "</line_range>" ++ nl ++ "  </file>" ++ nl ++ t)).
  rewrite occurrences_no_head by apply count_lt_escapeXml. reflexivity.
Qed.

Lemma occurrences_read_file_text (refs : list FileRef) :
  occurrences "<file>" (read_file_text_with line_range_line refs) = List.length refs.
Proof.
  unfold read_file_text_with.
  change (occurrences "<file>"
            ("<read_file>" ++ nl ++ "<args>" ++ nl
             ++ append_all (map (file_block_with line_range_line) refs)
             ++ "</args>" ++ nl ++ "</read_file>"))
    with (occurrences "<file>"
            (append_all (map (file_block_with line_range_line) refs)
             ++ "</args>" ++ nl ++ "</read_file>")).
  induction refs as [|f refs IH]; [reflexivity|].
  cbn [map append_all fold_right]. rewrite append_assoc, occurrences_file_block.
  cbn [List.length]. change (1 + ?n) with (S n). f_equal. exact IH.
Qed.

(** ** The [list_files] encoder *)

Lemma convertListFilesToXml_text (toolUse : value) (path : string) (recursive : option bool) :
  get toolUse "path" = Return (VStr path) ->
  get toolUse "recursive" = Return (optional_bool recursive) ->
  convertListFilesToXml toolUse = Return (list_files_text path recursive).
Proof.
  intros Hp Hr. unfold convertListFilesToXml, list_files_text. cbv zeta.
  rewrite Hp, bind_Return. cbn [escapeXml_any]. rewrite bind_Return, Hr, bind_Return.
  destruct recursive as [[|]|]; cbn [optional_bool is_undefined negb ToString bind];
    rewrite !append_assoc; reflexivity.
Qed.

Lemma occurrences_recursive_list_files_text (path : string) (recursive : option bool) :
  occurrences "<recursive>" (list_files_text path recursive)
  = match recursive with Some _ => 1 | None => 0 end.
Proof.
  unfold list_files_text.
  change (occurrences "<recursive>"
            ("<list_files>" ++ nl ++ "<path>" ++ escapeXml path ++ "</path>" ++ nl
             ++ match recursive with
                | Some true => "<recursive>true</recursive>" ++ nl
                | Some false => "<recursive>false</recursive>" ++ nl
                | None => EmptyString
                end ++ "</list_files>"))
    with (occurrences "<recursive>"
            (escapeXml path ++ "</path>" ++ nl
             ++ match recursive with
                | Some true => "<recursive>true</recursive>" ++ nl
                | Some false => "<recursive>false</recursive>" ++ nl
                | None => EmptyString
                end ++ "</list_files>")).
  rewrite occurrences_no_head by apply count_lt_escapeXml.
  destruct recursive as [[|]|]; reflexivity.
Qed.

(** ** The multiple-tools encoder *)

Lemma join_from_append (separator acc x : string) (rest : list string) :
  join_from separator (acc ++ x) rest = acc ++ join_from separator x rest.
Proof.
  revert x. induction rest as [|y rest IH]; intros x; [reflexivity|].
  cbn [join_from]. rewrite append_assoc. apply IH.
Qed.

Lemma join_joined_with (separator : string) (fragments : list string) :
  join separator fragments = joined_with separator fragments.
Proof.
  destruct fragments as [|x rest]; [reflexivity|].
  revert x. induction rest as [|y rest IH]; intros x; [reflexivity|].
  change (join_from separator (x ++ separator ++ y) rest
          = x ++ separator ++ joined_with separator (y :: rest)).
  rewrite <- (IH y). cbn [join].
  now rewrite !join_from_append.
Qed.

Lemma map_outcome_Forall2 {A B : Type} (f : A -> outcome B) (l : list A) (l' : list B) :
  Forall2 (fun x y => f x = Return y) l l' -> map_outcome f l = Return l'.
Proof.
  induction 1 as [|x y l l' Hxy _ IH]; [reflexivity|].
  cbn [map_outcome]. now rewrite Hxy, bind_Return, IH.
Qed.

(** ** The orchestrator *)

Lemma convertJsonToXml_presents (JSON_parse : string -> outcome value)
      (jsonResponse response : value) :
  presents JSON_parse jsonResponse response ->
  convertJsonToXml JSON_parse jsonResponse
  = try_catch (convert_parsed response)
      (fun error => Return (failure ("Conversion error: " ++ message_or_unknown error))).
Proof.
  unfold presents, convertJsonToXml.
  destruct jsonResponse; intros H; try (rewrite H); try (rewrite <- H); reflexivity.
Qed.

(** A value with a string for [response_type] is a plain object. *)
Lemma response_type_object (response : value) (name : string) :
  get response "response_type" = Return (VStr name) ->
  exists properties, response = VObj properties.
Proof.
  destruct response; simpl; try discriminate. intros _. now eexists.
Qed.

Lemma or_else_defined (a : value) (s : string) : or_else a (VStr s) <> VUndefined.
Proof.
  unfold or_else. destruct (truthy a) eqn:Ha; [|discriminate].
  intros ->. discriminate.
Qed.

Lemma result_invariant_failure (message : string) : result_invariant (failure message).
Proof.
  unfold result_invariant, failure. simpl. repeat split; try congruence. now eexists.
Qed.

Ltac outcome_cases H :=
  repeat match type of H with
    | context [if ?b then _ else _] => destruct b eqn:?
    | context [bind ?m _] => destruct m eqn:?; cbn [bind] in H
    | Throw _ = Return _ => discriminate H
    end.

Lemma convert_parsed_invariant (parsedResponse : value) (r : ConversionResult) :
  convert_parsed parsedResponse = Return r -> result_invariant r.
Proof.
  unfold convert_parsed. intros H. cbv zeta in H. outcome_cases H;
    injection H as <-; try apply result_invariant_failure;
    unfold result_invariant, set_xml; simpl; repeat split; try congruence.
  all: intros _; apply or_else_defined.
Qed.

Lemma convertJsonToXml_returns (JSON_parse : string -> outcome value)
      (jsonResponse : value) :
  exists r : ConversionResult,
    convertJsonToXml JSON_parse jsonResponse = Return r /\ result_invariant r.
Proof.
  assert (Hbody : forall v, exists r,
             try_catch (convert_parsed v)
               (fun error => Return (failure ("Conversion error: " ++ message_or_unknown error)))
             = Return r /\ result_invariant r).
  { intros v. destruct (convert_parsed v) as [r|e] eqn:E; cbn [try_catch].
    - exists r. split; [reflexivity|]. exact (convert_parsed_invariant _ _ E).
    - eexists. split; [reflexivity|]. apply result_invariant_failure. }
  unfold convertJsonToXml.
  destruct jsonResponse as [| |b|n|text|l|o]; try apply Hbody.
  destruct (JSON_parse text) as [v|e]; [apply Hbody|].
  cbn [try_catch]. eexists. split; [reflexivity|]. apply result_invariant_failure.
Qed.

Lemma get_optional_returns (o : value) (k : string) :
  exists v, get_optional o k = Return v.
Proof. destruct o; simpl; eexists; reflexivity. Qed.

Lemma get_object (properties : list (string * value)) (k : string) (v : value) :
  get (VObj properties) k = Return v -> own_property k properties = v.
Proof. simpl. now intros [= ->]. Qed.

(** A value that answers a read is neither [null] nor [undefined], so the
    optional read of the same property is the plain one. *)
Lemma get_optional_get (o : value) (k : string) (v : value) :
  get o k = Return v -> get_optional o k = Return v.
Proof. destruct o; simpl; try discriminate; auto. Qed.

(** A value with a string property is a plain object, hence truthy. *)
Lemma get_string_truthy (o : value) (k s : string) :
  String.eqb k "length" = false ->
  get o k = Return (VStr s) -> truthy o = true.
Proof. intros Hk. destruct o; simpl; try discriminate; rewrite ?Hk; try discriminate; auto. Qed.

Lemma known_tool_false (tag : value) :
  known_tool tag = false ->
  is_string tag "read_file" = false /\ is_string tag "search_files" = false
  /\ is_string tag "list_files" = false
  /\ is_string tag "list_code_definition_names" = false
  /\ is_string tag "write_to_file" = false /\ is_string tag "apply_diff" = false
  /\ is_string tag "fetch_instructions" = false.
Proof. unfold known_tool. rewrite !orb_false_iff. tauto. Qed.

(** The dispatcher throws on a tag that is not one of the seven. *)
Lemma convertSingleToolToXml_unknown (toolUse tag : value) :
  get toolUse "tool" = Return tag ->
  known_tool tag = false ->
  convertSingleToolToXml toolUse
  = (name <- ToString tag ;; Throw (Error ("Unknown tool type: " ++ name))).
Proof.
  intros Hg Hk. apply known_tool_false in Hk as (H1 & H2 & H3 & H4 & H5 & H6 & H7).
  unfold convertSingleToolToXml. rewrite Hg. cbn [bind].
  now rewrite H1, H2, H3, H4, H5, H6, H7.
Qed.

Lemma bind_Throw_always {A B : Type} (m : outcome A) (f : A -> thrown) :
  exists e, bind m (fun a => @Throw B (f a)) = Throw e.
Proof. destruct m; simpl; eexists; reflexivity. Qed.

(** The reads before the branch on [response_type] never throw on an
    object. *)
Lemma convert_parsed_object (properties : list (string * value)) :
  exists reasoning0 : value,
    convert_parsed (VObj properties)
    = (let response := VObj properties in
       let result :=
         {| success := true; xml := VUndefined; error := VUndefined;
            reasoning := reasoning0;
            thinking := own_property "thinking" properties |} in
       response_type <- get response "response_type" ;;
       if is_string response_type "text_only" then
         text_response <- get response "text_response" ;;
         Return {| success := true;
                   xml := or_else text_response (VStr EmptyString);
                   error := VUndefined;
                   reasoning := VUndefined;
                   thinking := result.(thinking) |}
       else if is_string response_type "single_tool" then
         single_tool <- get response "single_tool" ;;
         tool_use <- get_optional single_tool "tool_use" ;;
         if negb (truthy tool_use)
         then Return (failure "Single tool response missing tool_use")
         else
           single_tool <- get response "single_tool" ;;
           tool_use <- get single_tool "tool_use" ;;
           fragment <- convertSingleToolToXml tool_use ;;
           Return (set_xml result (VStr fragment))
       else if is_string response_type "multiple_tools" then
         multiple_tools <- get response "multiple_tools" ;;
         tools <- get_optional multiple_tools "tools" ;;
         if negb (truthy tools)
         then Return (failure "Multiple tools response missing tools array")
         else
           multiple_tools <- get response "multiple_tools" ;;
           tools <- get multiple_tools "tools" ;;
           length <- get tools "length" ;;
           if is_zero length
           then Return (failure "Multiple tools response missing tools array")
           else
             multiple_tools <- get response "multiple_tools" ;;
             tools <- get multiple_tools "tools" ;;
             fragments <- convertMultipleToolsToXml tools ;;
             Return (set_xml result (VStr fragments))
       else
         response_type <- get response "response_type" ;;
         name <- ToString response_type ;;
         Return (failure ("Unknown response_type: " ++ name))).
Proof.
  unfold convert_parsed. cbn [truthy typeof_object negb orb]. cbv zeta.
  cbn [get bind].
  destruct (get_optional_returns (own_property "single_tool" properties) "reasoning")
    as [r1 ->]. cbn [bind].
  destruct (truthy r1).
  - exists r1. reflexivity.
  - destruct (get_optional_returns (own_property "multiple_tools" properties) "reasoning")
      as [r2 ->]. exists r2. reflexivity.
Qed.

(** ** The structural validator *)

Lemma validateJsonStructure_presents (JSON_parse : string -> outcome value)
      (jsonResponse response : value) :
  presents JSON_parse jsonResponse response ->
  validateJsonStructure JSON_parse jsonResponse
  = match validate_parsed response [] with
    | (_, Return result) => Return result
    | (errors, Throw error) =>
        Return {| valid := false;
                  errors := List.app errors
                              ["JSON parsing error: " ++ message_or_unknown error] |}
    end.
Proof.
  unfold presents, validateJsonStructure, validate_try, and_then, lift.
  destruct jsonResponse; intros H; try (rewrite H); try (rewrite <- H); reflexivity.
Qed.

Lemma consistent_counted (errors0 : list string) :
  consistent {| valid := Nat.eqb (List.length errors0) 0; errors := errors0 |}.
Proof. unfold consistent. destruct errors0; simpl; split; congruence. Qed.

Lemma consistent_pushed (errors0 : list string) (message : string) :
  consistent {| valid := false; errors := List.app errors0 [message] |}.
Proof.
  unfold consistent. simpl. split; [|reflexivity].
  intros _ H. now destruct errors0.
Qed.

Ltac checking_cases H :=
  repeat match type of H with
    | context [if ?b then _ else _] => destruct b eqn:?
    | context [match ?m with Return _ => _ | Throw _ => _ end] => destruct m eqn:?
    | (_, Throw _) = (_, Return _) => discriminate H
    end.

Lemma validate_parsed_consistent (response : value) (errors0 errors1 : list string)
      (result : validation) :
  validate_parsed response errors0 = (errors1, Return result) -> consistent result.
Proof.
  unfold validate_parsed, and_then, lift, push, pure. intros H.
  checking_cases H; injection H as _ <-;
    first [apply consistent_counted | apply consistent_pushed].
Qed.

Lemma validateJsonStructure_consistent (JSON_parse : string -> outcome value)
      (jsonResponse : value) :
  exists result : validation,
    validateJsonStructure JSON_parse jsonResponse = Return result /\ consistent result.
Proof.
  unfold validateJsonStructure, validate_try, and_then, lift.
  destruct (match jsonResponse with
            | VStr text => JSON_parse text
            | _ => Return jsonResponse
            end) as [response|e].
  - destruct (validate_parsed response []) as [errors1 [result|e]] eqn:E.
    + exists result. split; [reflexivity|]. exact (validate_parsed_consistent _ _ _ _ E).
    + eexists. split; [reflexivity|]. apply consistent_pushed.
  - eexists. split; [reflexivity|]. apply (consistent_pushed []).
Qed.

Lemma validate_text_only (JSON_parse : string -> outcome value)
      (jsonResponse response text_response : value) :
  presents JSON_parse jsonResponse response ->
  get response "response_type" = Return (VStr "text_only") ->
  get response "text_response" = Return text_response ->
  validateJsonStructure JSON_parse jsonResponse
  = Return (if truthy text_response
            then {| valid := true; errors := [] |}
            else {| valid := false;
                    errors := ["text_response field is required for text_only response_type"] |}).
Proof.
  intros Hp Ht Hx.
  destruct (response_type_object _ _ Ht) as [properties ->].
  rewrite (validateJsonStructure_presents _ _ _ Hp).
  apply get_object in Ht. apply get_object in Hx.
  unfold validate_parsed, and_then, lift, push, pure.
  cbn [truthy typeof_object negb orb get]. rewrite Ht, Hx.
  destruct (truthy text_response); reflexivity.
Qed.

Lemma validate_single_tool (JSON_parse : string -> outcome value)
      (jsonResponse response single_tool tool_use : value) :
  presents JSON_parse jsonResponse response ->
  get response "response_type" = Return (VStr "single_tool") ->
  get response "single_tool" = Return single_tool ->
  truthy single_tool = true ->
  get single_tool "tool_use" = Return tool_use ->
  validateJsonStructure JSON_parse jsonResponse
  = Return (if truthy tool_use
            then {| valid := true; errors := [] |}
            else {| valid := false;
                    errors := ["tool_use field is required in single_tool"] |}).
Proof.
  intros Hp Ht Hs Hst Hu.
  destruct (response_type_object _ _ Ht) as [properties ->].
  rewrite (validateJsonStructure_presents _ _ _ Hp).
  apply get_object in Ht. apply get_object in Hs.
  unfold validate_parsed, and_then, lift, push, pure.
  cbn [truthy typeof_object negb orb get]. rewrite Ht, Hs.
  cbn. rewrite Hst. cbn. rewrite Hu.
  destruct (truthy tool_use); reflexivity.
Qed.

Lemma decimal_successor (n : nat) : String.eqb (decimal (S n)) "0" = false.
Proof.
  apply String.eqb_neq. unfold decimal. intros H.
  assert (E : NilEmpty.uint_of_string (NilEmpty.string_of_uint (Nat.to_uint (S n)))
              = NilEmpty.uint_of_string "0") by now rewrite H.
  rewrite NilEmpty.usu in E. simpl in E. injection E as E.
  apply (f_equal Nat.of_uint) in E. rewrite DecimalNat.Unsigned.of_to in E.
  discriminate E.
Qed.

Lemma array_length_not_zero (t : value) (tools : list value) :
  exists v, get (VArr (t :: tools)) "length" = Return v /\ is_zero v = false.
Proof.
  eexists. split; [reflexivity|]. apply decimal_successor.
Qed.

Lemma validate_multiple_tools (JSON_parse : string -> outcome value)
      (jsonResponse response multiple_tools : value) (tools : list value) :
  presents JSON_parse jsonResponse response ->
  get response "response_type" = Return (VStr "multiple_tools") ->
  get response "multiple_tools" = Return multiple_tools ->
  truthy multiple_tools = true ->
  get multiple_tools "tools" = Return (VArr tools) ->
  validateJsonStructure JSON_parse jsonResponse
  = Return (match tools with
            | _ :: _ => {| valid := true; errors := [] |}
            | [] => {| valid := false; errors := ["tools array cannot be empty"] |}
            end).
Proof.
  intros Hp Ht Hs Hst Hu.
  destruct (response_type_object _ _ Ht) as [properties ->].
  rewrite (validateJsonStructure_presents _ _ _ Hp).
  apply get_object in Ht. apply get_object in Hs.
  unfold validate_parsed, and_then, lift, push, pure.
  cbn [truthy typeof_object negb orb get]. rewrite Ht, Hs.
  cbn. rewrite Hst. cbn. rewrite Hu. cbn [isArray negb].
  destruct tools as [|t tools]; [reflexivity|].
  destruct (array_length_not_zero t tools) as [v [Hv Hz]].
  rewrite Hv, Hz. reflexivity.
Qed.

(** ** The dispatcher and the tool branches of the orchestrator *)

Lemma convertSingleToolToXml_dispatch (toolUse : value) (name : string) :
  get toolUse "tool" = Return (VStr name) ->
  convertSingleToolToXml toolUse
  = if String.eqb name "read_file" then convertReadFileToXml toolUse
    else if String.eqb name "search_files" then convertSearchFilesToXml toolUse
    else if String.eqb name "list_files" then convertListFilesToXml toolUse
    else if String.eqb name "list_code_definition_names"
         then convertListCodeDefinitionNamesToXml toolUse
    else if String.eqb name "write_to_file" then convertWriteToFileToXml toolUse
    else if String.eqb name "apply_diff" then convertApplyDiffToXml toolUse
    else if String.eqb name "fetch_instructions" then convertFetchInstructionsToXml toolUse
    else Throw (Error ("Unknown tool type: " ++ name)).
Proof.
  intros H. unfold convertSingleToolToXml. rewrite H. reflexivity.
Qed.

Lemma convertJsonToXml_single_tool (JSON_parse : string -> outcome value)
      (jsonResponse response single_tool tool_use : value) :
  presents JSON_parse jsonResponse response ->
  get response "response_type" = Return (VStr "single_tool") ->
  get response "single_tool" = Return single_tool ->
  get single_tool "tool_use" = Return tool_use ->
  truthy tool_use = true ->
  exists reasoning0 thinking0 : value,
    get response "thinking" = Return thinking0
    /\ convertJsonToXml JSON_parse jsonResponse
       = match convertSingleToolToXml tool_use with
         | Return fragment =>
             Return {| success := true; xml := VStr fragment; error := VUndefined;
                       reasoning := reasoning0; thinking := thinking0 |}
         | Throw e =>
             Return (failure ("Conversion error: " ++ message_or_unknown e))
         end.
Proof.
  intros Hp Ht Hs Hu Htruthy.
  destruct (response_type_object _ _ Ht) as [properties ->].
  rewrite (convertJsonToXml_presents _ _ _ Hp).
  destruct (convert_parsed_object properties) as [reasoning0 ->]. cbv zeta.
  exists reasoning0, (own_property "thinking" properties). split; [reflexivity|].
  rewrite Ht, bind_Return. cbn [is_string String.eqb Ascii.eqb Bool.eqb].
  rewrite Hs, bind_Return, (get_optional_get _ _ _ Hu), bind_Return.
  rewrite Htruthy. cbn [negb bind]. rewrite Hu, bind_Return.
  destruct (convertSingleToolToXml tool_use); reflexivity.
Qed.

Lemma array_length_not_zero_nonempty (tools : list value) :
  tools <> [] ->
  exists v, get (VArr tools) "length" = Return v /\ is_zero v = false.
Proof.
  destruct tools as [|t tools]; [congruence|]. intros _. apply array_length_not_zero.
Qed.

Lemma convertJsonToXml_multiple_tools (JSON_parse : string -> outcome value)
      (jsonResponse response multiple_tools : value) (tools : list value) :
  presents JSON_parse jsonResponse response ->
  get response "response_type" = Return (VStr "multiple_tools") ->
  get response "multiple_tools" = Return multiple_tools ->
  get multiple_tools "tools" = Return (VArr tools) ->
  tools <> [] ->
  exists reasoning0 thinking0 : value,
    get response "thinking" = Return thinking0
    /\ convertJsonToXml JSON_parse jsonResponse
       = match convertMultipleToolsToXml (VArr tools) with
         | Return fragments =>
             Return {| success := true; xml := VStr fragments; error := VUndefined;
                       reasoning := reasoning0; thinking := thinking0 |}
         | Throw e =>
             Return (failure ("Conversion error: " ++ message_or_unknown e))
         end.
Proof.
  intros Hp Ht Hs Hu Hne.
  destruct (response_type_object _ _ Ht) as [properties ->].
  rewrite (convertJsonToXml_presents _ _ _ Hp).
  destruct (convert_parsed_object properties) as [reasoning0 ->]. cbv zeta.
  exists reasoning0, (own_property "thinking" properties). split; [reflexivity|].
  rewrite Ht, bind_Return. cbn [is_string String.eqb Ascii.eqb Bool.eqb].
  rewrite Hs, bind_Return, (get_optional_get _ _ _ Hu), bind_Return.
  cbn [truthy negb bind]. rewrite Hu, bind_Return.
  destruct (array_length_not_zero_nonempty tools Hne) as [v [Hv Hz]].
  rewrite Hv, bind_Return, Hz, !bind_Return.
  destruct (convertMultipleToolsToXml (VArr tools)); reflexivity.
Qed.

(** [map] stops at the first invocation that throws. *)
Lemma map_outcome_first_throw {A B : Type} (f : A -> outcome B)
      (before : list A) (results : list B) (bad : A) (after : list A) (e : thrown) :
  Forall2 (fun x y => f x = Return y) before results ->
  f bad = Throw e ->
  map_outcome f (before ++ bad :: after)%list = Throw e.
Proof.
  intros Hbefore Hbad. induction Hbefore as [|x y l l' Hxy _ IH]; cbn [List.app map_outcome].
  - now rewrite Hbad.
  - now rewrite Hxy, bind_Return, IH.
Qed.

(** ** The batch runner *)

(** One result for each input, in the order of the inputs, each the result
    of the orchestrator on that input alone. *)
Lemma convertMultipleJsonToXml_each (JSON_parse : string -> outcome value)
      (jsonResponses : list value) :
  exists results : list ConversionResult,
    convertMultipleJsonToXml JSON_parse jsonResponses = Return results
    /\ Forall2 (fun jsonResponse r => convertJsonToXml JSON_parse jsonResponse = Return r)
               jsonResponses results.
Proof.
  unfold convertMultipleJsonToXml.
  induction jsonResponses as [|j rest [results [E H]]].
  - exists []. split; [reflexivity | constructor].
  - destruct (convertJsonToXml_returns JSON_parse j) as [r [Hr _]].
    exists (r :: results). cbn [map_outcome]. rewrite Hr, bind_Return, E.
    split; [reflexivity | now constructor].
Qed.

(** * The claims *)

(** C1.  [convertJsonToXml] returns a result on every input, text or value:
    no exception leaves it.  The dispatcher throws on an invocation whose
    [tool] is not one of the seven known tags, whether the tag is a string,
    another value, or absent: it throws the error [Unknown tool type:]
    followed by the string conversion of the tag ([undefined] for an absent
    tag), or what that conversion throws.  The orchestrator catches the
    throw, from the invocation of a [single_tool] response and from the
    first such invocation of a [multiple_tools] response, and returns a
    result with [success] false whose message is [Conversion error:]
    followed by the message of the throw. *)
Theorem convertJsonToXml_catches :
  (forall (JSON_parse : string -> outcome value) (jsonResponse : value),
      exists r : ConversionResult, convertJsonToXml JSON_parse jsonResponse = Return r)
  /\ (forall toolUse tag : value,
         get toolUse "tool" = Return tag ->
         known_tool tag = false ->
         (exists e : thrown, convertSingleToolToXml toolUse = Throw e)
         /\ convertSingleToolToXml toolUse
            = match ToString tag with
              | Return name => Throw (Error ("Unknown tool type: " ++ name))
              | Throw e => Throw e
              end)
  /\ (forall (toolUse : value) (name : string),
         get toolUse "tool" = Return (VStr name) ->
         known_tool (VStr name) = false ->
         convertSingleToolToXml toolUse = Throw (Error ("Unknown tool type: " ++ name)))
  /\ (forall (JSON_parse : string -> outcome value)
             (jsonResponse response single_tool tool_use tag : value),
         presents JSON_parse jsonResponse response ->
         get response "response_type" = Return (VStr "single_tool") ->
         get response "single_tool" = Return single_tool ->
         get single_tool "tool_use" = Return tool_use ->
         truthy tool_use = true ->
         get tool_use "tool" = Return tag ->
         known_tool tag = false ->
         convertJsonToXml JSON_parse jsonResponse
         = Return {| success := false; xml := VUndefined;
                     error := VStr ("Conversion error: "
                                    ++ match ToString tag with
                                       | Return name => "Unknown tool type: " ++ name
                                       | Throw e => message_or_unknown e
                                       end);
                     reasoning := VUndefined; thinking := VUndefined |})
  /\ (forall (JSON_parse : string -> outcome value)
             (jsonResponse response multiple_tools : value)
             (before : list value) (fragments : list string)
             (tool_use : value) (after : list value) (tag : value),
         presents JSON_parse jsonResponse response ->
         get response "response_type" = Return (VStr "multiple_tools") ->
         get response "multiple_tools" = Return multiple_tools ->
         get multiple_tools "tools" = Return (VArr (before ++ tool_use :: after)%list) ->
         Forall2 (fun tool fragment => convertSingleToolToXml tool = Return fragment)
                 before fragments ->
         get tool_use "tool" = Return tag ->
         known_tool tag = false ->
         convertJsonToXml JSON_parse jsonResponse
         = Return {| success := false; xml := VUndefined;
                     error := VStr ("Conversion error: "
                                    ++ match ToString tag with
                                       | Return name => "Unknown tool type: " ++ name
                                       | Throw e => message_or_unknown e
                                       end);
                     reasoning := VUndefined; thinking := VUndefined |})
  /\ (forall tool_use : value,
         truthy tool_use = true ->
         exists tag : value, get tool_use "tool" = Return tag).
Proof.
  assert (Hthrows : forall toolUse tag,
             get toolUse "tool" = Return tag -> known_tool tag = false ->
             convertSingleToolToXml toolUse
             = Throw match ToString tag with
                     | Return name => Error ("Unknown tool type: " ++ name)
                     | Throw e => e
                     end).
  { intros toolUse tag Hg Hk. rewrite (convertSingleToolToXml_unknown _ _ Hg Hk).
    destruct (ToString tag); reflexivity. }
  split; [|split; [|split; [|split; [|split]]]].
  - intros JSON_parse jsonResponse.
    destruct (convertJsonToXml_returns JSON_parse jsonResponse) as [r [Hr _]].
    now exists r.
  - intros toolUse tag Hg Hk. rewrite (Hthrows _ _ Hg Hk). split.
    + eexists. reflexivity.
    + destruct (ToString tag); reflexivity.
  - intros toolUse name Hg Hk.
    now rewrite (convertSingleToolToXml_unknown _ _ Hg Hk).
  - intros JSON_parse jsonResponse response single_tool tool_use tag
           Hp Ht Hs Hu Htruthy Hg Hk.
    destruct (convertJsonToXml_single_tool _ _ _ _ _ Hp Ht Hs Hu Htruthy)
      as [reasoning0 [thinking0 [_ ->]]].
    rewrite (Hthrows _ _ Hg Hk). destruct (ToString tag); reflexivity.
  - intros JSON_parse jsonResponse response multiple_tools before fragments
           tool_use after tag Hp Ht Hs Hu Hbefore Hg Hk.
    assert (Hne : (before ++ tool_use :: after)%list <> []) by now destruct before.
    destruct (convertJsonToXml_multiple_tools _ _ _ _ _ Hp Ht Hs Hu Hne)
      as [reasoning0 [thinking0 [_ ->]]].
    unfold convertMultipleToolsToXml. cbn [tools_map].
    rewrite (map_outcome_first_throw (fun tool => convertSingleToolToXml tool)
               before fragments tool_use after _ Hbefore (Hthrows _ _ Hg Hk)).
    cbn [bind]. destruct (ToString tag); reflexivity.
  - intros tool_use Htruthy.
    destruct tool_use; try discriminate Htruthy; eexists; reflexivity.
Qed.

Lemma convertJsonToXml_catches_witness :
  convertJsonToXml sample_parse (single_tool_response sample_unknown_tool)
  = Return {| success := false; xml := VUndefined;
              error := VStr "Conversion error: Unknown tool type: execute_command";
              reasoning := VUndefined; thinking := VUndefined |}
  /\ convertJsonToXml sample_parse (single_tool_response (VObj [("path", VStr "x")]))
     = Return {| success := false; xml := VUndefined;
                 error := VStr "Conversion error: Unknown tool type: undefined";
                 reasoning := VUndefined; thinking := VUndefined |}.
Proof.
  split.
  - exact (proj1 (proj2 (proj2 (proj2 convertJsonToXml_catches)))
             sample_parse (single_tool_response sample_unknown_tool)
             (single_tool_response sample_unknown_tool)
             (VObj [("tool_use", sample_unknown_tool)]) sample_unknown_tool
             (VStr "execute_command")
             eq_refl eq_refl eq_refl eq_refl eq_refl eq_refl eq_refl).
  - exact (proj1 (proj2 (proj2 (proj2 convertJsonToXml_catches)))
             sample_parse (single_tool_response (VObj [("path", VStr "x")]))
             (single_tool_response (VObj [("path", VStr "x")]))
             (VObj [("tool_use", VObj [("path", VStr "x")])]) (VObj [("path", VStr "x")])
             VUndefined
             eq_refl eq_refl eq_refl eq_refl eq_refl eq_refl eq_refl).
Defined.

(** C2.  [escapeXml] is the five substitutions, the ampersand first, then
    less-than, greater-than, the double quote and the apostrophe.  It
    follows that each code unit of the input is rewritten on its own; that
    the output holds no less-than, greater-than, double quote or apostrophe;
    that wherever the output holds an ampersand one of the five entities
    starts there; and that each entity occurs in the output as many times as
    its character occurs in the input. *)
Theorem escapeXml_substitutions (s : string) :
  escapeXml s
  = replace_all "'" "&#39;"
      (replace_all dquote "&quot;"
         (replace_all ">" "&gt;"
            (replace_all "<" "&lt;"
               (replace_all "&" "&amp;" s))))
  /\ escapeXml s = escape_each s
  /\ count_char "<" (escapeXml s) = 0
  /\ count_char ">" (escapeXml s) = 0
  /\ count_char dquote (escapeXml s) = 0
  /\ count_char "'" (escapeXml s) = 0
  /\ (forall before after : string,
         escapeXml s = before ++ String "&" after ->
         entity_at (String "&" after) = true)
  /\ occurrences "&amp;" (escapeXml s) = count_char "&" s
  /\ occurrences "&lt;" (escapeXml s) = count_char "<" s
  /\ occurrences "&gt;" (escapeXml s) = count_char ">" s
  /\ occurrences "&quot;" (escapeXml s) = count_char dquote s
  /\ occurrences "&#39;" (escapeXml s) = count_char "'" s.
Proof.
  split; [reflexivity|].
  rewrite escapeXml_each.
  split; [reflexivity|].
  repeat split.
  - apply count_char_escape_each; tauto.
  - apply count_char_escape_each; tauto.
  - apply count_char_escape_each; tauto.
  - apply count_char_escape_each; tauto.
  - intros before after H.
    pose proof (every_suffix_escape_each s) as Hs. rewrite H in Hs.
    apply every_suffix_at in Hs. exact Hs.
  - apply occurrences_escape_each; tauto.
  - apply occurrences_escape_each; tauto.
  - apply occurrences_escape_each; tauto.
  - apply occurrences_escape_each; tauto.
  - apply occurrences_escape_each; tauto.
Qed.

(** C3, as amended.  The [read_file] encoder, reached through the
    dispatcher by the tag [read_file], wraps its output in [<read_file>] and
    [<args>], takes an [args.file] that is not an array as the one entry of
    a sequence, and writes one [<file>] block for each entry, in the order
    of the input: N entries give N blocks.  Each block holds [<path>] with
    the escaped path and, when the entry has a [line_range] that is not the
    empty string, [<line_range>] with the escaped range; an entry without a
    range, or with the empty string for one, has no [<line_range>] line. *)
Theorem convertReadFileToXml_blocks (toolUse args file : value) (refs : list FileRef) :
  get toolUse "args" = Return args ->
  get args "file" = Return file ->
  Forall2 reads_as_FileRef (file_entries file) refs ->
  convertReadFileToXml toolUse
  = Return ("<read_file>" ++ nl ++ "<args>" ++ nl
            ++ append_all (map (file_block_with line_range_line) refs)
            ++ "</args>" ++ nl ++ "</read_file>")
  /\ (get toolUse "tool" = Return (VStr "read_file") ->
      convertSingleToolToXml toolUse = convertReadFileToXml toolUse)
  /\ occurrences "<file>"
       ("<read_file>" ++ nl ++ "<args>" ++ nl
        ++ append_all (map (file_block_with line_range_line) refs)
        ++ "</args>" ++ nl ++ "</read_file>")
     = List.length refs
  /\ (isArray file = false -> exists f : FileRef, reads_as_FileRef file f /\ refs = [f])
  /\ (forall f : FileRef,
         file_block_with line_range_line f
         = "  <file>" ++ nl
           ++ "    <path>" ++ escapeXml f.(ref_path) ++ "</path>" ++ nl
           ++ match f.(ref_line_range) with
              | None => EmptyString
              | Some r =>
                  if String.eqb r EmptyString then EmptyString
                  else "    <line_range>" ++ escapeXml r ++ "</line_range>" ++ nl
              end
           ++ "  </file>" ++ nl).
Proof.
  intros Ha Hf Hrefs. split; [|split; [|split; [|split]]].
  - exact (convertReadFileToXml_text _ _ _ _ Ha Hf Hrefs).
  - intros Ht. now rewrite (convertSingleToolToXml_dispatch _ _ Ht).
  - exact (occurrences_read_file_text refs).
  - intros Hsingle.
    assert (He : file_entries file = [file]) by (destruct file; try reflexivity; discriminate).
    rewrite He in Hrefs. inversion Hrefs as [|? f ? refs' Hf1 Hrest]; subst.
    inversion Hrest; subst. exists f. now split.
  - intros f. reflexivity.
Qed.

Lemma convertReadFileToXml_blocks_witness :
  convertReadFileToXml sample_read_file
  = Return ("<read_file>" ++ nl ++ "<args>" ++ nl
            ++ "  <file>" ++ nl ++ "    <path>src/file1.ts</path>" ++ nl
            ++ "  </file>" ++ nl
            ++ "  <file>" ++ nl ++ "    <path>src/file2.ts</path>" ++ nl
            ++ "    <line_range>10-20</line_range>" ++ nl
            ++ "  </file>" ++ nl
            ++ "</args>" ++ nl ++ "</read_file>").
Proof.
  refine (proj1 (convertReadFileToXml_blocks sample_read_file
                   (VObj [("file", VArr [VObj [("path", VStr "src/file1.ts")];
                                         VObj [("path", VStr "src/file2.ts");
                                               ("line_range", VStr "10-20")]])])
                   (VArr [VObj [("path", VStr "src/file1.ts")];
                          VObj [("path", VStr "src/file2.ts");
                                ("line_range", VStr "10-20")]])
                   [ {| ref_path := "src/file1.ts"; ref_line_range := None |};
                     {| ref_path := "src/file2.ts"; ref_line_range := Some "10-20" |} ]
                   _ _ _)).
  - reflexivity.
  - reflexivity.
  - repeat constructor.
Defined.

(** The input on which C3 fails as it was stated: a [line_range] that is
    present and empty.  The encoder writes the block without a
    [<line_range>] line, not the block that writes every present range. *)
Lemma convertReadFileToXml_empty_line_range :
  reads_as_FileRef (VObj [("path", VStr "a"); ("line_range", VStr EmptyString)])
                   {| ref_path := "a"; ref_line_range := Some EmptyString |}
  /\ convertReadFileToXml sample_read_file_empty_range
     = Return ("<read_file>" ++ nl ++ "<args>" ++ nl
               ++ "  <file>" ++ nl ++ "    <path>a</path>" ++ nl ++ "  </file>" ++ nl
               ++ "</args>" ++ nl ++ "</read_file>")
  /\ read_file_text_with line_range_line_if_present
       [ {| ref_path := "a"; ref_line_range := Some EmptyString |} ]
     = "<read_file>" ++ nl ++ "<args>" ++ nl
       ++ "  <file>" ++ nl ++ "    <path>a</path>" ++ nl
       ++ "    <line_range></line_range>" ++ nl ++ "  </file>" ++ nl
       ++ "</args>" ++ nl ++ "</read_file>"
  /\ convertReadFileToXml sample_read_file_empty_range
     <> Return (read_file_text_with line_range_line_if_present
                  [ {| ref_path := "a"; ref_line_range := Some EmptyString |} ])
  /\ includes ("<read_file>" ++ nl ++ "<args>" ++ nl
               ++ "  <file>" ++ nl ++ "    <path>a</path>" ++ nl ++ "  </file>" ++ nl
               ++ "</args>" ++ nl ++ "</read_file>") "<line_range>" = false.
Proof.
  split; [split; reflexivity|]. split; [reflexivity|]. split; [reflexivity|].
  split; [discriminate | reflexivity].
Qed.
(** C4.  A response whose [response_type] is [text_only] and whose
    [text_response] is a string, given as a value or as the text that parses
    to it, converts with success, and [xml] is that string as it stands:
    nothing is escaped and nothing is wrapped around it.  The result carries
    the [thinking] of the response and nothing else. *)
Theorem convertJsonToXml_text_only
        (JSON_parse : string -> outcome value)
        (jsonResponse response : value) (text : string) :
  presents JSON_parse jsonResponse response ->
  get response "response_type" = Return (VStr "text_only") ->
  get response "text_response" = Return (VStr text) ->
  exists thinking0 : value,
    get response "thinking" = Return thinking0
    /\ convertJsonToXml JSON_parse jsonResponse
       = Return {| success := true; xml := VStr text; error := VUndefined;
                   reasoning := VUndefined; thinking := thinking0 |}.
Proof.
  intros Hp Ht Hx.
  destruct (response_type_object _ _ Ht) as [properties ->].
  rewrite (convertJsonToXml_presents _ _ _ Hp).
  destruct (convert_parsed_object properties) as [reasoning0 ->]. cbv zeta.
  rewrite Ht, bind_Return. cbn [is_string String.eqb Ascii.eqb Bool.eqb].
  rewrite Hx, bind_Return. cbn [try_catch thinking].
  exists (own_property "thinking" properties). split; [reflexivity|].
  do 2 f_equal. unfold or_else. cbn [truthy].
  destruct (String.eqb_spec text EmptyString) as [->|_]; reflexivity.
Qed.

Lemma convertJsonToXml_text_only_witness :
  convertJsonToXml sample_parse (VStr sample_text_only_json)
  = Return {| success := true; xml := VStr "Hello from JSON string";
              error := VUndefined; reasoning := VUndefined; thinking := VUndefined |}.
Proof.
  destruct (convertJsonToXml_text_only sample_parse (VStr sample_text_only_json)
              sample_text_only "Hello from JSON string"
              eq_refl eq_refl eq_refl) as [thinking0 [Hthinking Hresult]].
  injection Hthinking as <-. exact Hresult.
Defined.


(** C5.  On a sequence of invocations that is not empty and whose
    invocations each encode, the multiple-tools encoder gives the fragments
    of the invocations, in the order of the input, with two newline
    characters between each two consecutive fragments; for two invocations
    that is the first fragment, two newlines, the second fragment.  A
    [multiple_tools] response with these [tools] converts with success to
    that text. *)
Theorem convertMultipleToolsToXml_join (tools : list value) (fragments : list string) :
  tools <> [] ->
  Forall2 (fun tool fragment => convertSingleToolToXml tool = Return fragment)
          tools fragments ->
  convertMultipleToolsToXml (VArr tools)
  = Return (joined_with (String "010" (String "010" EmptyString)) fragments)
  /\ (forall e1 e2 : string,
         fragments = [e1; e2] ->
         convertMultipleToolsToXml (VArr tools)
         = Return (e1 ++ String "010" (String "010" EmptyString) ++ e2))
  /\ (forall (JSON_parse : string -> outcome value)
             (jsonResponse response multiple_tools : value),
         presents JSON_parse jsonResponse response ->
         get response "response_type" = Return (VStr "multiple_tools") ->
         get response "multiple_tools" = Return multiple_tools ->
         get multiple_tools "tools" = Return (VArr tools) ->
         exists reasoning0 thinking0 : value,
           convertJsonToXml JSON_parse jsonResponse
           = Return {| success := true;
                       xml := VStr (joined_with (String "010" (String "010" EmptyString))
                                      fragments);
                       error := VUndefined;
                       reasoning := reasoning0; thinking := thinking0 |}).
Proof.
  intros Hne H.
  assert (E : convertMultipleToolsToXml (VArr tools)
              = Return (joined_with (String "010" (String "010" EmptyString)) fragments)).
  { unfold convertMultipleToolsToXml. cbn [tools_map].
    rewrite (map_outcome_Forall2 (fun tool => convertSingleToolToXml tool) _ _ H).
    rewrite bind_Return, join_joined_with. reflexivity. }
  split; [exact E|]. split.
  - intros e1 e2 ->. exact E.
  - intros JSON_parse jsonResponse response multiple_tools Hp Ht Hs Hu.
    destruct (convertJsonToXml_multiple_tools _ _ _ _ _ Hp Ht Hs Hu Hne)
      as [reasoning0 [thinking0 [_ Hr]]].
    exists reasoning0, thinking0. now rewrite Hr, E.
Qed.

Lemma convertMultipleToolsToXml_join_witness :
  convertMultipleToolsToXml (VArr sample_tools)
  = Return ("<search_files>" ++ nl ++ "<path>src</path>" ++ nl
            ++ "<regex>TODO</regex>" ++ nl ++ "</search_files>"
            ++ nl ++ nl
            ++ "<list_files>" ++ nl ++ "<path>src</path>" ++ nl
            ++ "<recursive>false</recursive>" ++ nl ++ "</list_files>").
Proof.
  refine (proj1 (convertMultipleToolsToXml_join sample_tools
                   ["<search_files>" ++ nl ++ "<path>src</path>" ++ nl
                    ++ "<regex>TODO</regex>" ++ nl ++ "</search_files>";
                    "<list_files>" ++ nl ++ "<path>src</path>" ++ nl
                    ++ "<recursive>false</recursive>" ++ nl ++ "</list_files>"]
                   _ _)).
  - discriminate.
  - repeat constructor.
Defined.
(** C6, as amended.  On every input the validator returns a result that is
    invalid exactly when its list of errors is not empty.  A [text_only]
    response is valid with no error when its [text_response] is truthy (for
    a string: not empty), and is reported when its [text_response] is absent
    or falsy.  A [single_tool] response with a truthy [single_tool] that
    holds a truthy [tool_use], and a [multiple_tools] response with a truthy
    [multiple_tools] whose [tools] is an array that is not empty, are valid
    with no error. *)
Theorem validateJsonStructure_shallow
        (JSON_parse : string -> outcome value) (jsonResponse : value) :
  (exists result : validation,
      validateJsonStructure JSON_parse jsonResponse = Return result
      /\ (result.(valid) = false <-> result.(errors) <> []))
  /\ (forall response text_response : value,
         presents JSON_parse jsonResponse response ->
         get response "response_type" = Return (VStr "text_only") ->
         get response "text_response" = Return text_response ->
         validateJsonStructure JSON_parse jsonResponse
         = Return (if truthy text_response
                   then {| valid := true; errors := [] |}
                   else {| valid := false;
                           errors := ["text_response field is required for text_only response_type"] |}))
  /\ (forall response single_tool tool_use : value,
         presents JSON_parse jsonResponse response ->
         get response "response_type" = Return (VStr "single_tool") ->
         get response "single_tool" = Return single_tool ->
         truthy single_tool = true ->
         get single_tool "tool_use" = Return tool_use ->
         truthy tool_use = true ->
         validateJsonStructure JSON_parse jsonResponse
         = Return {| valid := true; errors := [] |})
  /\ (forall (response multiple_tools tool : value) (tools : list value),
         presents JSON_parse jsonResponse response ->
         get response "response_type" = Return (VStr "multiple_tools") ->
         get response "multiple_tools" = Return multiple_tools ->
         truthy multiple_tools = true ->
         get multiple_tools "tools" = Return (VArr (tool :: tools)) ->
         validateJsonStructure JSON_parse jsonResponse
         = Return {| valid := true; errors := [] |}).
Proof.
  split; [|split; [|split]].
  - exact (validateJsonStructure_consistent JSON_parse jsonResponse).
  - intros response text_response Hp Ht Hx. exact (validate_text_only _ _ _ _ Hp Ht Hx).
  - intros response single_tool tool_use Hp Ht Hs Hst Hu Hut.
    rewrite (validate_single_tool _ _ _ _ _ Hp Ht Hs Hst Hu), Hut. reflexivity.
  - intros response multiple_tools tool tools Hp Ht Hs Hst Hu.
    exact (validate_multiple_tools _ _ _ _ _ Hp Ht Hs Hst Hu).
Qed.

Lemma validateJsonStructure_shallow_witness :
  validateJsonStructure sample_parse (VStr sample_text_only_json)
  = Return {| valid := true; errors := [] |}.
Proof.
  exact (proj1 (proj2 (validateJsonStructure_shallow sample_parse
                         (VStr sample_text_only_json)))
           sample_text_only (VStr "Hello from JSON string") eq_refl eq_refl eq_refl).
Defined.

(** The input on which C6 fails as it was stated: a [text_only] response
    whose [text_response] is present and is the empty string.  The validator
    reports it. *)
Lemma validateJsonStructure_empty_text :
  get sample_empty_text "response_type" = Return (VStr "text_only")
  /\ get sample_empty_text "text_response" = Return (VStr EmptyString)
  /\ validateJsonStructure sample_parse sample_empty_text
     = Return {| valid := false;
                 errors := ["text_response field is required for text_only response_type"] |}
  /\ ~ (forall (JSON_parse : string -> outcome value) (response text_response : value),
           get response "response_type" = Return (VStr "text_only") ->
           get response "text_response" = Return text_response ->
           text_response <> VUndefined ->
           validateJsonStructure JSON_parse response
           = Return {| valid := true; errors := [] |}).
Proof.
  split; [reflexivity|]. split; [reflexivity|]. split; [reflexivity|].
  intros H.
  specialize (H sample_parse sample_empty_text (VStr EmptyString) eq_refl eq_refl).
  assert (Hd : VStr EmptyString <> VUndefined) by discriminate.
  specialize (H Hd). discriminate H.
Qed.

(** C7.  The [list_files] encoder, reached through the dispatcher by the tag
    [list_files], writes [<path>] with the escaped path, and writes
    [<recursive>] exactly when the field is set, [false] included, with the
    bare literal [true] or [false] inside.  The response
    [{ response_type: "single_tool", single_tool: { tool_use: { tool:
    "list_files", path: "src", recursive: true } } }] converts with success
    to a text that includes [<list_files>], [<path>src</path>] and
    [<recursive>true</recursive>]. *)
Theorem convertListFilesToXml_recursive
        (toolUse : value) (path : string) (recursive : option bool) :
  get toolUse "path" = Return (VStr path) ->
  get toolUse "recursive" = Return (optional_bool recursive) ->
  convertListFilesToXml toolUse
  = Return ("<list_files>" ++ nl
            ++ "<path>" ++ escapeXml path ++ "</path>" ++ nl
            ++ match recursive with
               | Some true => "<recursive>true</recursive>" ++ nl
               | Some false => "<recursive>false</recursive>" ++ nl
               | None => EmptyString
               end
            ++ "</list_files>")
  /\ (get toolUse "tool" = Return (VStr "list_files") ->
      convertSingleToolToXml toolUse = convertListFilesToXml toolUse)
  /\ (includes (list_files_text path recursive) "<recursive>" = true
      <-> recursive <> None)
  /\ (forall JSON_parse : string -> outcome value,
         exists text : string,
           convertJsonToXml JSON_parse (single_tool_response sample_list_files)
           = Return {| success := true; xml := VStr text; error := VUndefined;
                       reasoning := VUndefined; thinking := VUndefined |}
           /\ text = "<list_files>" ++ nl ++ "<path>src</path>" ++ nl
                     ++ "<recursive>true</recursive>" ++ nl ++ "</list_files>"
           /\ includes text "<list_files>" = true
           /\ includes text "<path>src</path>" = true
           /\ includes text "<recursive>true</recursive>" = true).
Proof.
  intros Hp Hr. split; [|split; [|split]].
  - exact (convertListFilesToXml_text _ _ _ Hp Hr).
  - intros Ht. now rewrite (convertSingleToolToXml_dispatch _ _ Ht).
  - unfold includes. rewrite occurrences_recursive_list_files_text.
    destruct recursive; simpl; split; congruence.
  - intros JSON_parse. eexists. split; [reflexivity|].
    repeat split; reflexivity.
Qed.

Lemma convertListFilesToXml_recursive_witness :
  convertListFilesToXml
    (VObj [("tool", VStr "list_files"); ("path", VStr "a&b"); ("recursive", VBool false)])
  = Return ("<list_files>" ++ nl ++ "<path>a&amp;b</path>" ++ nl
            ++ "<recursive>false</recursive>" ++ nl ++ "</list_files>").
Proof.
  refine (proj1 (convertListFilesToXml_recursive
                   (VObj [("tool", VStr "list_files"); ("path", VStr "a&b");
                          ("recursive", VBool false)])
                   "a&b" (Some false) _ _)); reflexivity.
Defined.

(** C8.  [escapeXml] is not idempotent.  A second application escapes the
    ampersands the first one produced: on an input that holds a markup
    character the two results differ (a less-than becomes [&lt;] and then
    [&amp;lt;]); the two results agree only on inputs without markup
    characters, which the function leaves as they are. *)
Theorem escapeXml_not_idempotent :
  ~ (forall s : string, escapeXml (escapeXml s) = escapeXml s)
  /\ escapeXml "<" = "&lt;"
  /\ escapeXml (escapeXml "<") = "&amp;lt;"
  /\ (forall s : string,
         escapeXml (escapeXml s) <> escapeXml s <-> has_markup s = true).
Proof.
  assert (Hdiff : forall s, has_markup s = true ->
                            escapeXml (escapeXml s) <> escapeXml s).
  { intros s Hs E. rewrite !escapeXml_each in E.
    apply has_markup_count in Hs.
    pose proof (count_ampersand_escape_each s) as Ha.
    pose proof (length_escape_each (escape_each s)) as Hl.
    rewrite E in Hl. unfold markup_count in Hl at 1. rewrite Ha in Hl. lia. }
  split; [|split; [reflexivity|split; [reflexivity|]]].
  - intros H. exact (Hdiff "<" eq_refl (H "<")).
  - intros s. split; [|apply Hdiff].
    intros Hne. destruct (has_markup s) eqn:Hs; [reflexivity|].
    exfalso. apply Hne.
    assert (Hz : markup_count s = 0).
    { destruct (Nat.eq_dec (markup_count s) 0) as [Hz|Hz]; [exact Hz|].
      assert (Hm : has_markup s = true) by (apply has_markup_count; lia).
      congruence. }
    rewrite !escapeXml_each, (escape_each_plain s Hz), (escape_each_plain s Hz).
    reflexivity.
Qed.

(** C9.  Every call of [convertJsonToXml] returns a result whose [xml] is
    defined if and only if [success] is true; a result with [success] false
    carries an error message and carries no [xml], no [thinking] and no
    [reasoning]. *)
Theorem convertJsonToXml_result_invariant
        (JSON_parse : string -> outcome value) (jsonResponse : value) :
  exists r : ConversionResult,
    convertJsonToXml JSON_parse jsonResponse = Return r
    /\ (r.(xml) <> VUndefined <-> r.(success) = true)
    /\ (r.(success) = false ->
        (exists message : string, r.(error) = VStr message)
        /\ r.(xml) = VUndefined
        /\ r.(thinking) = VUndefined
        /\ r.(reasoning) = VUndefined).
Proof.
  destruct (convertJsonToXml_returns JSON_parse jsonResponse) as [r [Hr [Hxml Hfail]]].
  exists r. split; [exact Hr|]. split; [exact Hxml | exact Hfail].
Qed.

(** C10.  A [text_only] response whose [text_response] is absent, or is any
    falsy value, converts with success to the empty string, and the
    validator rejects the same response. *)
Theorem text_only_without_text
        (JSON_parse : string -> outcome value)
        (jsonResponse response text_response : value) :
  presents JSON_parse jsonResponse response ->
  get response "response_type" = Return (VStr "text_only") ->
  get response "text_response" = Return text_response ->
  truthy text_response = false ->
  (exists thinking0 : value,
      get response "thinking" = Return thinking0
      /\ convertJsonToXml JSON_parse jsonResponse
         = Return {| success := true; xml := VStr EmptyString; error := VUndefined;
                     reasoning := VUndefined; thinking := thinking0 |})
  /\ validateJsonStructure JSON_parse jsonResponse
     = Return {| valid := false;
                 errors := ["text_response field is required for text_only response_type"] |}.
Proof.
  intros Hp Ht Hx Hfalsy. split.
  - destruct (response_type_object _ _ Ht) as [properties ->].
    rewrite (convertJsonToXml_presents _ _ _ Hp).
    destruct (convert_parsed_object properties) as [reasoning0 ->]. cbv zeta.
    rewrite Ht, bind_Return. cbn [is_string String.eqb Ascii.eqb Bool.eqb].
    rewrite Hx, bind_Return. cbn [try_catch thinking].
    exists (own_property "thinking" properties). split; [reflexivity|].
    unfold or_else. now rewrite Hfalsy.
  - rewrite (validate_text_only _ _ _ _ Hp Ht Hx), Hfalsy. reflexivity.
Qed.

Lemma text_only_without_text_witness :
  convertJsonToXml sample_parse sample_no_text
  = Return {| success := true; xml := VStr EmptyString; error := VUndefined;
              reasoning := VUndefined; thinking := VUndefined |}
  /\ validateJsonStructure sample_parse sample_no_text
     = Return {| valid := false;
                 errors := ["text_response field is required for text_only response_type"] |}.
Proof.
  destruct (text_only_without_text sample_parse sample_no_text sample_no_text VUndefined
              eq_refl eq_refl eq_refl eq_refl) as [[thinking0 [Hthinking Hresult]] Hvalid].
  injection Hthinking as <-. split; [exact Hresult | exact Hvalid].
Defined.

(** * Further properties of the code *)

(** ** The escaper *)

Lemma escape_char_not_empty (a : ascii) (t : string) :
  escape_char a ++ t <> EmptyString.
Proof. markup_case a; try discriminate. now rewrite escape_char_plain by assumption. Qed.

Lemma escape_each_injective (s t : string) :
  escape_each s = escape_each t -> s = t.
Proof.
  revert t. induction s as [|a s IH]; intros [|b t] H.
  - reflexivity.
  - symmetry in H. now apply escape_char_not_empty in H.
  - now apply escape_char_not_empty in H.
  - cbn [escape_each] in H.
    markup_case a; markup_case b;
      try (cbn in H; first [discriminate H | injection H as H; now rewrite (IH t H)]).
    all: try (rewrite (escape_char_plain b) in H by assumption; cbn in H;
              injection H as Hb _; subst b; discriminate).
    all: try (rewrite (escape_char_plain a) in H by assumption; cbn in H;
              injection H as Ha _; subst a; discriminate).
    rewrite (escape_char_plain a), (escape_char_plain b) in H by assumption.
    cbn in H. injection H as -> H. now rewrite (IH t H).
Qed.

(** X1.  [escapeXml] loses nothing: two texts have the same escaped form
    only when they are the same text. *)
Theorem escapeXml_injective (s t : string) :
  escapeXml s = escapeXml t <-> s = t.
Proof.
  split; [|now intros ->].
  rewrite !escapeXml_each. apply escape_each_injective.
Qed.

(** X2.  [escapeXml] works piece by piece: the escaped form of a
    concatenation is the concatenation of the escaped forms, and the empty
    text stays empty. *)
Theorem escapeXml_concatenation (s t : string) :
  escapeXml (s ++ t) = escapeXml s ++ escapeXml t
  /\ escapeXml EmptyString = EmptyString.
Proof. split; [apply escapeXml_append | reflexivity]. Qed.

Lemma length_escape_each_exact (s : string) :
  String.length (escape_each s)
  = String.length s + 4 * count_char "&" s + 3 * count_char "<" s
    + 3 * count_char ">" s + 5 * count_char dquote s + 4 * count_char "'" s.
Proof.
  induction s as [|a s IH]; [reflexivity|].
  cbn [escape_each]. rewrite length_append, IH.
  markup_case a; try (cbn; lia).
  rewrite escape_char_plain by assumption. cbn [count_char String.length].
  rewrite E1, E2, E3, E4, E5. lia.
Qed.

Lemma count_char_le_length (c : ascii) (s : string) : count_char c s <= String.length s.
Proof.
  induction s as [|a s IH]; [apply Nat.le_refl|].
  cbn [count_char String.length]. destruct (Ascii.eqb a c); lia.
Qed.

Lemma markup_count_le_length (s : string) : markup_count s <= String.length s.
Proof.
  unfold markup_count. induction s as [|a s IH]; [apply Nat.le_refl|].
  cbn [count_char String.length].
  markup_case a; try (cbn; lia).
  rewrite E1, E2, E3, E4, E5. lia.
Qed.

(** X3.  The escaped form is the text lengthened by four code units for
    each ampersand, three for each less-than and greater-than, five for each
    double quote and four for each apostrophe; it is never shorter than the
    text and never longer than six times the text. *)
Theorem escapeXml_length (s : string) :
  String.length (escapeXml s)
  = String.length s + 4 * count_char "&" s + 3 * count_char "<" s
    + 3 * count_char ">" s + 5 * count_char dquote s + 4 * count_char "'" s
  /\ String.length s <= String.length (escapeXml s)
  /\ String.length (escapeXml s) <= 6 * String.length s.
Proof.
  rewrite escapeXml_each, length_escape_each_exact.
  pose proof (markup_count_le_length s) as H. unfold markup_count in H.
  repeat split; lia.
Qed.

(** X4.  [escapeXml] leaves a text as it is exactly when the text holds none
    of the five markup characters. *)
Theorem escapeXml_unchanged (s : string) :
  escapeXml s = s <-> has_markup s = false.
Proof.
  rewrite escapeXml_each. split.
  - intros H. destruct (has_markup s) eqn:Hm; [|reflexivity].
    apply has_markup_count in Hm.
    pose proof (length_escape_each s) as Hl. rewrite H in Hl. lia.
  - intros Hm. apply escape_each_plain.
    destruct (Nat.eq_dec (markup_count s) 0) as [Hz|Hz]; [exact Hz|].
    assert (Ht : has_markup s = true) by (apply has_markup_count; lia).
    congruence.
Qed.

(** ** The other encoders *)

Lemma count_gt_escapeXml (s : string) : count_char ">" (escapeXml s) = 0.
Proof. rewrite escapeXml_each. apply count_char_escape_each. tauto. Qed.

(** Counting the occurrences of a pattern through a text made of template
    pieces and of pieces without the first character of the pattern. *)
Ltac through_template :=
  unfold nl;
  rewrite ?append_assoc;
  repeat (cbn [append occurrences starts_with Ascii.eqb Bool.eqb andb Nat.add];
          try rewrite occurrences_no_head
            by first [apply count_lt_escapeXml | assumption]).

Lemma convertSearchFilesToXml_returns (toolUse : value) (path regex : string)
      (file_pattern : option string) :
  get toolUse "path" = Return (VStr path) ->
  get toolUse "regex" = Return (VStr regex) ->
  get toolUse "file_pattern" = Return (optional_string file_pattern) ->
  convertSearchFilesToXml toolUse = Return (search_files_text path regex file_pattern).
Proof.
  intros Hp Hr Hf. unfold convertSearchFilesToXml, search_files_text. cbv zeta.
  rewrite Hp, Hr, Hf. cbn [bind escapeXml_any].
  destruct file_pattern as [p|]; cbn [optional_string truthy file_pattern_line].
  - destruct (String.eqb p EmptyString); cbn [negb bind escapeXml_any];
      rewrite !append_assoc; reflexivity.
  - cbn [bind]. rewrite !append_assoc. reflexivity.
Qed.

(** X5.  The [search_files] encoder writes [<path>] and [<regex>] with the
    escaped values and writes [<file_pattern>] with the escaped pattern when
    the pattern is present and not the empty string.  Whatever the values
    hold, each of the tags [<path>], [<regex>] and [</search_files>] occurs
    once in the text: a value cannot forge a tag. *)
Theorem convertSearchFilesToXml_text (toolUse : value) (path regex : string)
        (file_pattern : option string) :
  get toolUse "path" = Return (VStr path) ->
  get toolUse "regex" = Return (VStr regex) ->
  get toolUse "file_pattern" = Return (optional_string file_pattern) ->
  convertSearchFilesToXml toolUse = Return (search_files_text path regex file_pattern)
  /\ occurrences "<path>" (search_files_text path regex file_pattern) = 1
  /\ occurrences "<regex>" (search_files_text path regex file_pattern) = 1
  /\ occurrences "</search_files>" (search_files_text path regex file_pattern) = 1
  /\ occurrences "<file_pattern>" (search_files_text path regex file_pattern)
     = match file_pattern with
       | None => 0
       | Some p => if String.eqb p EmptyString then 0 else 1
       end.
Proof.
  intros Hp Hr Hf. split; [exact (convertSearchFilesToXml_returns _ _ _ _ Hp Hr Hf)|].
  unfold search_files_text, file_pattern_line.
  destruct file_pattern as [p|]; [destruct (String.eqb p EmptyString)|];
    repeat split; through_template; reflexivity.
Qed.

Lemma convertSearchFilesToXml_text_witness :
  convertSearchFilesToXml sample_search_files
  = Return ("<search_files>" ++ nl ++ "<path>src</path>" ++ nl
            ++ "<regex>\bfunction\b</regex>" ++ nl
            ++ "<file_pattern>*.ts</file_pattern>" ++ nl ++ "</search_files>").
Proof.
  exact (proj1 (convertSearchFilesToXml_text sample_search_files "src" "\bfunction\b"
                  (Some "*.ts") eq_refl eq_refl eq_refl)).
Defined.

Lemma convertWriteToFileToXml_returns (toolUse : value) (path content : string)
      (line_count : value) (literal : string) :
  get toolUse "path" = Return (VStr path) ->
  get toolUse "content" = Return (VStr content) ->
  get toolUse "line_count" = Return line_count ->
  ToString line_count = Return literal ->
  convertWriteToFileToXml toolUse = Return (write_to_file_text path content literal).
Proof.
  intros Hp Hc Hl Hs. unfold convertWriteToFileToXml, write_to_file_text. cbv zeta.
  rewrite Hp, Hc, Hl. cbn [bind escapeXml_any]. rewrite Hs. cbn [bind].
  rewrite !append_assoc. reflexivity.
Qed.

(** X6.  The [write_to_file] encoder writes [<path>] with the escaped path,
    the escaped content on lines of its own between [<content>] and
    [</content>], and [<line_count>] with the string conversion of the
    field, unescaped; a response without [line_count] is encoded all the
    same, with [undefined] for the count.  When the count holds no
    less-than sign, as a number does not, the content cannot close its own
    block: [<content>] and [</content>] each occur once. *)
Theorem convertWriteToFileToXml_text (toolUse : value) (path content : string)
        (line_count : value) (literal : string) :
  get toolUse "path" = Return (VStr path) ->
  get toolUse "content" = Return (VStr content) ->
  get toolUse "line_count" = Return line_count ->
  ToString line_count = Return literal ->
  convertWriteToFileToXml toolUse
  = Return ("<write_to_file>" ++ nl
            ++ "<path>" ++ escapeXml path ++ "</path>" ++ nl
            ++ "<content>" ++ nl ++ escapeXml content ++ nl ++ "</content>" ++ nl
            ++ "<line_count>" ++ literal ++ "</line_count>" ++ nl
            ++ "</write_to_file>")
  /\ (line_count = VUndefined -> literal = "undefined")
  /\ (count_char "<" literal = 0 ->
      occurrences "<content>" (write_to_file_text path content literal) = 1
      /\ occurrences "</content>" (write_to_file_text path content literal) = 1
      /\ occurrences "</write_to_file>" (write_to_file_text path content literal) = 1).
Proof.
  intros Hp Hc Hl Hs. split; [exact (convertWriteToFileToXml_returns _ _ _ _ _ Hp Hc Hl Hs)|].
  split.
  - intros ->. cbn in Hs. now injection Hs as <-.
  - intros Hlit. unfold write_to_file_text.
    repeat split; through_template; reflexivity.
Qed.

Lemma convertWriteToFileToXml_text_witness :
  convertWriteToFileToXml sample_write_to_file
  = Return ("<write_to_file>" ++ nl ++ "<path>test.ts</path>" ++ nl
            ++ "<content>" ++ nl ++ "&lt;x&gt; &amp; &quot;y&quot;" ++ nl
            ++ "</content>" ++ nl
            ++ "<line_count>1</line_count>" ++ nl ++ "</write_to_file>").
Proof.
  exact (proj1 (convertWriteToFileToXml_text sample_write_to_file "test.ts"
                  ("<x> & " ++ quoted "y") (VNum "1") "1"
                  eq_refl eq_refl eq_refl eq_refl)).
Defined.

Lemma convertApplyDiffToXml_returns (toolUse : value) (path diff : string) :
  get toolUse "path" = Return (VStr path) ->
  get toolUse "diff" = Return (VStr diff) ->
  convertApplyDiffToXml toolUse = Return (apply_diff_text path diff).
Proof.
  intros Hp Hd. unfold convertApplyDiffToXml, apply_diff_text. cbv zeta.
  rewrite Hp, Hd. cbn [bind escapeXml_any]. rewrite !append_assoc. reflexivity.
Qed.

(** X7.  The [apply_diff] encoder writes [<path>] with the escaped path and
    the escaped diff on lines of its own between [<diff>] and [</diff>].
    The diff cannot close its own block, even when it holds the text
    [</diff>]: [<diff>], [</diff>] and [</apply_diff>] each occur once. *)
Theorem convertApplyDiffToXml_text (toolUse : value) (path diff : string) :
  get toolUse "path" = Return (VStr path) ->
  get toolUse "diff" = Return (VStr diff) ->
  convertApplyDiffToXml toolUse
  = Return ("<apply_diff>" ++ nl
            ++ "<path>" ++ escapeXml path ++ "</path>" ++ nl
            ++ "<diff>" ++ nl ++ escapeXml diff ++ nl ++ "</diff>" ++ nl
            ++ "</apply_diff>")
  /\ occurrences "<diff>" (apply_diff_text path diff) = 1
  /\ occurrences "</diff>" (apply_diff_text path diff) = 1
  /\ occurrences "</apply_diff>" (apply_diff_text path diff) = 1.
Proof.
  intros Hp Hd. split; [exact (convertApplyDiffToXml_returns _ _ _ Hp Hd)|].
  unfold apply_diff_text. repeat split; through_template; reflexivity.
Qed.

Lemma convertApplyDiffToXml_text_witness :
  convertApplyDiffToXml sample_apply_diff
  = Return ("<apply_diff>" ++ nl ++ "<path>src/app.ts</path>" ++ nl
            ++ "<diff>" ++ nl ++ "&lt;/diff&gt;" ++ nl ++ "</diff>" ++ nl
            ++ "</apply_diff>").
Proof.
  exact (proj1 (convertApplyDiffToXml_text sample_apply_diff "src/app.ts" "</diff>"
                  eq_refl eq_refl)).
Defined.

(** X8.  The [list_code_definition_names] and [fetch_instructions] encoders
    write one element, [<path>] or [<task>], with the escaped value, between
    the tags of the tool; the closing tag of the tool occurs once whatever
    the value holds. *)
Theorem convertOneFieldToolsToXml_text :
  (forall (toolUse : value) (path : string),
      get toolUse "path" = Return (VStr path) ->
      convertListCodeDefinitionNamesToXml toolUse
      = Return ("<list_code_definition_names>" ++ nl
                ++ "<path>" ++ escapeXml path ++ "</path>" ++ nl
                ++ "</list_code_definition_names>")
      /\ occurrences "</list_code_definition_names>"
           (list_code_definition_names_text path) = 1)
  /\ (forall (toolUse : value) (task : string),
         get toolUse "task" = Return (VStr task) ->
         convertFetchInstructionsToXml toolUse
         = Return ("<fetch_instructions>" ++ nl
                   ++ "<task>" ++ escapeXml task ++ "</task>" ++ nl
                   ++ "</fetch_instructions>")
         /\ occurrences "</fetch_instructions>" (fetch_instructions_text task) = 1).
Proof.
  split.
  - intros toolUse path Hp. split.
    + unfold convertListCodeDefinitionNamesToXml. cbv zeta.
      rewrite Hp. cbn [bind escapeXml_any]. rewrite !append_assoc. reflexivity.
    + unfold list_code_definition_names_text. through_template. reflexivity.
  - intros toolUse task Ht. split.
    + unfold convertFetchInstructionsToXml. cbv zeta.
      rewrite Ht. cbn [bind escapeXml_any]. rewrite !append_assoc. reflexivity.
    + unfold fetch_instructions_text. through_template. reflexivity.
Qed.

Lemma convertOneFieldToolsToXml_text_witness :
  convertListCodeDefinitionNamesToXml sample_list_code_definition_names
  = Return ("<list_code_definition_names>" ++ nl ++ "<path>src</path>" ++ nl
            ++ "</list_code_definition_names>")
  /\ convertFetchInstructionsToXml sample_fetch_instructions
     = Return ("<fetch_instructions>" ++ nl ++ "<task>create_mode</task>" ++ nl
               ++ "</fetch_instructions>").
Proof.
  split.
  - exact (proj1 (proj1 convertOneFieldToolsToXml_text
                    sample_list_code_definition_names "src" eq_refl)).
  - exact (proj1 (proj2 convertOneFieldToolsToXml_text
                    sample_fetch_instructions "create_mode" eq_refl)).
Defined.

Lemma convertListFilesToXml_returns_literal (toolUse : value) (path : string)
      (recursive : value) (literal : string) :
  get toolUse "path" = Return (VStr path) ->
  get toolUse "recursive" = Return recursive ->
  recursive <> VUndefined ->
  ToString recursive = Return literal ->
  convertListFilesToXml toolUse
  = Return ("<list_files>" ++ nl
            ++ "<path>" ++ escapeXml path ++ "</path>" ++ nl
            ++ "<recursive>" ++ literal ++ "</recursive>" ++ nl
            ++ "</list_files>").
Proof.
  intros Hp Hr Hdefined Hs. unfold convertListFilesToXml. cbv zeta.
  rewrite Hp, Hr. cbn [bind escapeXml_any].
  assert (Hu : is_undefined recursive = false)
    by (destruct recursive; try reflexivity; now elim Hdefined).
  rewrite Hu. cbn [negb bind]. rewrite Hs. cbn [bind].
  rewrite !append_assoc. reflexivity.
Qed.

(** X9.  The [list_files] encoder writes any [recursive] that is not
    [undefined], boolean or not, as its string conversion and does not
    escape it: [null] is written as [null], and a string is written as it
    stands, markup included. *)
Theorem convertListFilesToXml_unescaped (toolUse : value) (path : string)
        (recursive : value) (literal : string) :
  get toolUse "path" = Return (VStr path) ->
  get toolUse "recursive" = Return recursive ->
  recursive <> VUndefined ->
  ToString recursive = Return literal ->
  convertListFilesToXml toolUse
  = Return ("<list_files>" ++ nl
            ++ "<path>" ++ escapeXml path ++ "</path>" ++ nl
            ++ "<recursive>" ++ literal ++ "</recursive>" ++ nl
            ++ "</list_files>")
  /\ (recursive = VNull -> literal = "null")
  /\ (forall s : string, recursive = VStr s -> literal = s).
Proof.
  intros Hp Hr Hdefined Hs. split; [|split].
  - exact (convertListFilesToXml_returns_literal _ _ _ _ Hp Hr Hdefined Hs).
  - intros ->. cbn in Hs. now injection Hs as <-.
  - intros s ->. cbn in Hs. now injection Hs as <-.
Qed.

Lemma convertListFilesToXml_unescaped_witness :
  convertListFilesToXml
    (VObj [("tool", VStr "list_files"); ("path", VStr "src");
           ("recursive", VStr "</list_files>")])
  = Return ("<list_files>" ++ nl ++ "<path>src</path>" ++ nl
            ++ "<recursive></list_files></recursive>" ++ nl ++ "</list_files>").
Proof.
  refine (proj1 (convertListFilesToXml_unescaped
                   (VObj [("tool", VStr "list_files"); ("path", VStr "src");
                          ("recursive", VStr "</list_files>")])
                   "src" (VStr "</list_files>") "</list_files>" eq_refl eq_refl _ eq_refl)).
  discriminate.
Defined.

(** ** The orchestrator: failures that are not thrown, and side channels *)

Lemma get_returns_object (response : value) (k : string) :
  truthy response = true -> typeof_object response = true ->
  get response k = Return (read response k).
Proof. unfold read. destruct response; try discriminate; reflexivity. Qed.

(** The reads before the branch on [response_type] never throw on an object
    or an array, and assemble the side channels. *)
Lemma convert_parsed_prefix (response : value) :
  truthy response = true -> typeof_object response = true ->
  convert_parsed response
  = (let result :=
       {| success := true; xml := VUndefined; error := VUndefined;
          reasoning := reasoning_of response;
          thinking := read response "thinking" |} in
     response_type <- get response "response_type" ;;
     if is_string response_type "text_only" then
       text_response <- get response "text_response" ;;
       Return {| success := true;
                 xml := or_else text_response (VStr EmptyString);
                 error := VUndefined;
                 reasoning := VUndefined;
                 thinking := result.(thinking) |}
     else if is_string response_type "single_tool" then
       single_tool <- get response "single_tool" ;;
       tool_use <- get_optional single_tool "tool_use" ;;
       if negb (truthy tool_use)
       then Return (failure "Single tool response missing tool_use")
       else
         single_tool <- get response "single_tool" ;;
         tool_use <- get single_tool "tool_use" ;;
         fragment <- convertSingleToolToXml tool_use ;;
         Return (set_xml result (VStr fragment))
     else if is_string response_type "multiple_tools" then
       multiple_tools <- get response "multiple_tools" ;;
       tools <- get_optional multiple_tools "tools" ;;
       if negb (truthy tools)
       then Return (failure "Multiple tools response missing tools array")
       else
         multiple_tools <- get response "multiple_tools" ;;
         tools <- get multiple_tools "tools" ;;
         length <- get tools "length" ;;
         if is_zero length
         then Return (failure "Multiple tools response missing tools array")
         else
           multiple_tools <- get response "multiple_tools" ;;
           tools <- get multiple_tools "tools" ;;
           fragments <- convertMultipleToolsToXml tools ;;
           Return (set_xml result (VStr fragments))
     else
       response_type <- get response "response_type" ;;
       name <- ToString response_type ;;
       Return (failure ("Unknown response_type: " ++ name))).
Proof.
  intros Ht Ho. unfold convert_parsed. rewrite Ht, Ho. cbn [negb orb]. cbv zeta.
  rewrite (get_returns_object response "thinking" Ht Ho), bind_Return.
  rewrite (get_returns_object response "single_tool" Ht Ho), bind_Return.
  unfold reasoning_of, read_optional, or_else.
  destruct (get_optional_returns (read response "single_tool") "reasoning") as [r1 ->].
  rewrite bind_Return.
  destruct (truthy r1).
  - rewrite bind_Return. reflexivity.
  - rewrite (get_returns_object response "multiple_tools" Ht Ho), bind_Return.
    destruct (get_optional_returns (read response "multiple_tools") "reasoning") as [r2 ->].
    rewrite bind_Return. reflexivity.
Qed.

Lemma presents_not_text (JSON_parse : string -> outcome value)
      (jsonResponse response : value) :
  presents JSON_parse jsonResponse response ->
  convertJsonToXml JSON_parse jsonResponse
  = match convert_parsed response with
    | Return r => Return r
    | Throw e => Return (failure ("Conversion error: " ++ message_or_unknown e))
    end.
Proof. intros Hp. now rewrite (convertJsonToXml_presents _ _ _ Hp). Qed.

(** X10.  An input that is not an object or an array, given as a value or
    as text that parses to one ([undefined], [null], a boolean, a number, a
    string), gives the failure [Invalid input: expected object or JSON
    string]; a text that does not parse gives the failure [Failed to parse
    JSON string:] with the message of the parser. *)
Theorem convertJsonToXml_invalid_input
        (JSON_parse : string -> outcome value) (jsonResponse : value) :
  (forall response : value,
      presents JSON_parse jsonResponse response ->
      truthy response = false \/ typeof_object response = false ->
      convertJsonToXml JSON_parse jsonResponse
      = Return {| success := false; xml := VUndefined;
                  error := VStr "Invalid input: expected object or JSON string";
                  reasoning := VUndefined; thinking := VUndefined |})
  /\ (forall (text : string) (e : thrown),
         jsonResponse = VStr text ->
         JSON_parse text = Throw e ->
         convertJsonToXml JSON_parse jsonResponse
         = Return {| success := false; xml := VUndefined;
                     error := VStr ("Failed to parse JSON string: " ++ message_or_unknown e);
                     reasoning := VUndefined; thinking := VUndefined |}).
Proof.
  split.
  - intros response Hp H. rewrite (presents_not_text _ _ _ Hp).
    unfold convert_parsed.
    destruct H as [-> | ->]; [reflexivity|]. now rewrite orb_true_r.
  - intros text e -> He. unfold convertJsonToXml. now rewrite He.
Qed.

Lemma convertJsonToXml_invalid_input_witness :
  convertJsonToXml sample_parse (VNum "42")
  = Return {| success := false; xml := VUndefined;
              error := VStr "Invalid input: expected object or JSON string";
              reasoning := VUndefined; thinking := VUndefined |}
  /\ convertJsonToXml sample_parse (VStr "invalid json")
     = Return {| success := false; xml := VUndefined;
                 error := VStr "Failed to parse JSON string: Unexpected token";
                 reasoning := VUndefined; thinking := VUndefined |}.
Proof.
  split.
  - exact (proj1 (convertJsonToXml_invalid_input sample_parse (VNum "42"))
             (VNum "42") eq_refl (or_intror eq_refl)).
  - exact (proj2 (convertJsonToXml_invalid_input sample_parse (VStr "invalid json"))
             "invalid json" (ErrorObject "SyntaxError" "Unexpected token")
             eq_refl eq_refl).
Defined.

Lemma known_response_type_false (v : value) :
  known_response_type v = false ->
  is_string v "text_only" = false /\ is_string v "single_tool" = false
  /\ is_string v "multiple_tools" = false.
Proof. unfold known_response_type. rewrite !orb_false_iff. tauto. Qed.

(** X11.  An object or an array whose [response_type] is not one of the
    three known strings gives the failure [Unknown response_type:] followed
    by the string conversion of the field: [undefined] when the field is
    absent, as it is on every array.  When the conversion of the field to a
    string throws, the failure is a [Conversion error:] with the message of
    the throw. *)
Theorem convertJsonToXml_unknown_response_type
        (JSON_parse : string -> outcome value) (jsonResponse response response_type : value) :
  presents JSON_parse jsonResponse response ->
  truthy response = true ->
  typeof_object response = true ->
  get response "response_type" = Return response_type ->
  known_response_type response_type = false ->
  (forall name : string,
      ToString response_type = Return name ->
      convertJsonToXml JSON_parse jsonResponse
      = Return {| success := false; xml := VUndefined;
                  error := VStr ("Unknown response_type: " ++ name);
                  reasoning := VUndefined; thinking := VUndefined |})
  /\ (forall e : thrown,
         ToString response_type = Throw e ->
         convertJsonToXml JSON_parse jsonResponse
         = Return {| success := false; xml := VUndefined;
                     error := VStr ("Conversion error: " ++ message_or_unknown e);
                     reasoning := VUndefined; thinking := VUndefined |})
  /\ (forall elements : list value,
         response = VArr elements -> ToString response_type = Return "undefined").
Proof.
  intros Hp Ht Ho Hr Hk.
  apply known_response_type_false in Hk as (H1 & H2 & H3).
  assert (E : convert_parsed response
              = (name <- ToString response_type ;;
                 Return (failure ("Unknown response_type: " ++ name)))).
  { rewrite (convert_parsed_prefix response Ht Ho). cbv zeta.
    rewrite Hr. cbn [bind]. now rewrite H1, H2, H3. }
  rewrite (presents_not_text _ _ _ Hp), E.
  split; [|split].
  - intros name ->. reflexivity.
  - intros e ->. reflexivity.
  - intros elements ->. cbn in Hr. injection Hr as <-. reflexivity.
Qed.

Lemma convertJsonToXml_unknown_response_type_witness :
  convertJsonToXml sample_parse (VObj [("response_type", VStr "unknown_type")])
  = Return {| success := false; xml := VUndefined;
              error := VStr "Unknown response_type: unknown_type";
              reasoning := VUndefined; thinking := VUndefined |}.
Proof.
  exact (proj1 (convertJsonToXml_unknown_response_type sample_parse
                  (VObj [("response_type", VStr "unknown_type")])
                  (VObj [("response_type", VStr "unknown_type")])
                  (VStr "unknown_type") eq_refl eq_refl eq_refl eq_refl eq_refl)
           "unknown_type" eq_refl).
Defined.

(** X12.  A [single_tool] response whose [single_tool] is absent or [null],
    or whose [tool_use] is absent or falsy, gives the failure [Single tool
    response missing tool_use]; no encoder runs. *)
Theorem convertJsonToXml_missing_tool_use
        (JSON_parse : string -> outcome value)
        (jsonResponse response single_tool tool_use : value) :
  presents JSON_parse jsonResponse response ->
  get response "response_type" = Return (VStr "single_tool") ->
  get response "single_tool" = Return single_tool ->
  get_optional single_tool "tool_use" = Return tool_use ->
  truthy tool_use = false ->
  convertJsonToXml JSON_parse jsonResponse
  = Return {| success := false; xml := VUndefined;
              error := VStr "Single tool response missing tool_use";
              reasoning := VUndefined; thinking := VUndefined |}.
Proof.
  intros Hp Hr Hs Hu Hfalsy.
  destruct (response_type_object _ _ Hr) as [properties ->].
  rewrite (presents_not_text _ _ _ Hp), (convert_parsed_prefix (VObj properties) eq_refl eq_refl).
  cbv zeta. rewrite Hr. cbn [bind is_string String.eqb Ascii.eqb Bool.eqb].
  rewrite Hs. cbn [bind]. rewrite Hu. cbn [bind]. now rewrite Hfalsy.
Qed.

Lemma convertJsonToXml_missing_tool_use_witness :
  convertJsonToXml sample_parse
    (VObj [("response_type", VStr "single_tool"); ("single_tool", VObj [])])
  = Return {| success := false; xml := VUndefined;
              error := VStr "Single tool response missing tool_use";
              reasoning := VUndefined; thinking := VUndefined |}.
Proof.
  exact (convertJsonToXml_missing_tool_use sample_parse
           (VObj [("response_type", VStr "single_tool"); ("single_tool", VObj [])])
           (VObj [("response_type", VStr "single_tool"); ("single_tool", VObj [])])
           (VObj []) VUndefined eq_refl eq_refl eq_refl eq_refl eq_refl).
Defined.

Lemma get_optional_truthy (o : value) (k : string) (v : value) :
  get_optional o k = Return v -> truthy v = true -> get o k = Return v.
Proof.
  destruct o; cbn; intros H Hv; try exact H; injection H as <-; discriminate.
Qed.

(** X13.  A [multiple_tools] response whose [multiple_tools] is absent or
    [null], whose [tools] is absent or falsy, or whose [tools] has a
    [length] of zero, as the empty array has, gives the failure [Multiple
    tools response missing tools array]; no encoder runs. *)
Theorem convertJsonToXml_missing_tools
        (JSON_parse : string -> outcome value)
        (jsonResponse response multiple_tools tools : value) :
  presents JSON_parse jsonResponse response ->
  get response "response_type" = Return (VStr "multiple_tools") ->
  get response "multiple_tools" = Return multiple_tools ->
  get_optional multiple_tools "tools" = Return tools ->
  truthy tools = false
  \/ (exists length : value, get tools "length" = Return length /\ is_zero length = true) ->
  convertJsonToXml JSON_parse jsonResponse
  = Return {| success := false; xml := VUndefined;
              error := VStr "Multiple tools response missing tools array";
              reasoning := VUndefined; thinking := VUndefined |}.
Proof.
  intros Hp Hr Hs Hu H.
  destruct (response_type_object _ _ Hr) as [properties ->].
  rewrite (presents_not_text _ _ _ Hp), (convert_parsed_prefix (VObj properties) eq_refl eq_refl).
  cbv zeta. rewrite Hr. cbn [bind is_string String.eqb Ascii.eqb Bool.eqb].
  rewrite Hs. cbn [bind]. rewrite Hu. cbn [bind].
  destruct (truthy tools) eqn:Htools; [|reflexivity].
  destruct H as [H | [length [Hl Hz]]]; [discriminate|].
  cbn [negb]. rewrite (get_optional_truthy _ _ _ Hu Htools). cbn [bind].
  rewrite Hl. cbn [bind]. now rewrite Hz.
Qed.

Lemma convertJsonToXml_missing_tools_witness :
  convertJsonToXml sample_parse (multiple_tools_response (VArr []))
  = Return {| success := false; xml := VUndefined;
              error := VStr "Multiple tools response missing tools array";
              reasoning := VUndefined; thinking := VUndefined |}.
Proof.
  exact (convertJsonToXml_missing_tools sample_parse
           (multiple_tools_response (VArr []))
           (multiple_tools_response (VArr []))
           (VObj [("tools", VArr [])]) (VArr [])
           eq_refl eq_refl eq_refl eq_refl
           (or_intror (ex_intro _ (VNum "0") (conj eq_refl eq_refl)))).
Defined.

Lemma get_truthy_object (o : value) (k : string) (v : value) :
  String.eqb k "length" = false ->
  get o k = Return v -> truthy v = true ->
  exists properties, o = VObj properties.
Proof.
  intros Hk. destruct o; cbn; rewrite ?Hk; intros H Hv;
    try discriminate; try (injection H as <-; discriminate).
  now eexists.
Qed.

Lemma tools_map_not_array (tools : value) (f : value -> outcome string) :
  truthy tools = true -> isArray tools = false ->
  tools_map tools f = Throw (TypeError "tools.map is not a function").
Proof. destruct tools; cbn; intros; try discriminate; reflexivity. Qed.

Lemma get_returns_truthy (o : value) (k : string) :
  truthy o = true -> exists v, get o k = Return v.
Proof. destruct o; cbn; intros; try discriminate; eexists; reflexivity. Qed.

(** X14.  A [multiple_tools] response whose [tools] is truthy and not an
    array (a string, a number, an object) never converts: the result is the
    failure [Multiple tools response missing tools array], when the value
    has a [length] of zero, or the failure [Conversion error: tools.map is
    not a function].  The validator reports the same response with [tools
    field must be an array in multiple_tools]. *)
Theorem convertJsonToXml_tools_not_array
        (JSON_parse : string -> outcome value)
        (jsonResponse response multiple_tools tools : value) :
  presents JSON_parse jsonResponse response ->
  get response "response_type" = Return (VStr "multiple_tools") ->
  get response "multiple_tools" = Return multiple_tools ->
  get multiple_tools "tools" = Return tools ->
  truthy tools = true ->
  isArray tools = false ->
  (exists message : string,
      convertJsonToXml JSON_parse jsonResponse
      = Return {| success := false; xml := VUndefined; error := VStr message;
                  reasoning := VUndefined; thinking := VUndefined |}
      /\ (message = "Multiple tools response missing tools array"
          \/ message = "Conversion error: tools.map is not a function"))
  /\ validateJsonStructure JSON_parse jsonResponse
     = Return {| valid := false;
                 errors := ["tools field must be an array in multiple_tools"] |}.
Proof.
  intros Hp Hr Hs Hu Htruthy Harray.
  destruct (response_type_object _ _ Hr) as [properties ->].
  split.
  - rewrite (presents_not_text _ _ _ Hp),
      (convert_parsed_prefix (VObj properties) eq_refl eq_refl).
    cbv zeta. rewrite Hr. cbn [bind is_string String.eqb Ascii.eqb Bool.eqb].
    rewrite Hs. cbn [bind]. rewrite (get_optional_get _ _ _ Hu). cbn [bind].
    rewrite Htruthy. cbn [negb]. rewrite Hu. cbn [bind].
    destruct (get_returns_truthy tools "length" Htruthy) as [length ->]. cbn [bind].
    destruct (is_zero length).
    + eexists. split; [reflexivity | now left].
    + unfold convertMultipleToolsToXml.
      rewrite (tools_map_not_array _ _ Htruthy Harray). cbn [bind].
      eexists. split; [reflexivity | now right].
  - destruct (get_truthy_object multiple_tools "tools" tools eq_refl Hu Htruthy)
      as [fields ->].
    rewrite (validateJsonStructure_presents _ _ _ Hp).
    apply get_object in Hr. apply get_object in Hs.
    unfold validate_parsed, and_then, lift, push, pure.
    cbn [truthy typeof_object negb orb get]. rewrite Hr, Hs.
    apply get_object in Hu. cbn. rewrite Hu, Harray. reflexivity.
Qed.

Lemma convertJsonToXml_tools_not_array_witness :
  convertJsonToXml sample_parse (multiple_tools_response (VStr "list_files"))
  = Return {| success := false; xml := VUndefined;
              error := VStr "Conversion error: tools.map is not a function";
              reasoning := VUndefined; thinking := VUndefined |}
  /\ validateJsonStructure sample_parse (multiple_tools_response (VStr "list_files"))
     = Return {| valid := false;
                 errors := ["tools field must be an array in multiple_tools"] |}.
Proof.
  destruct (convertJsonToXml_tools_not_array sample_parse
              (multiple_tools_response (VStr "list_files"))
              (multiple_tools_response (VStr "list_files"))
              (VObj [("tools", VStr "list_files")]) (VStr "list_files")
              eq_refl eq_refl eq_refl eq_refl eq_refl eq_refl) as [_ Hvalid].
  split; [reflexivity | exact Hvalid].
Defined.

(** X15.  A text is converted and validated as the value it parses to, when
    that value is not itself a string; a text that parses to a string is an
    invalid input for the orchestrator and not an object for the validator:
    the string is not parsed again. *)
Theorem text_as_parsed_value
        (JSON_parse : string -> outcome value) (text : string) (parsed : value) :
  JSON_parse text = Return parsed ->
  ((forall s : string, parsed <> VStr s) ->
   convertJsonToXml JSON_parse (VStr text) = convertJsonToXml JSON_parse parsed
   /\ validateJsonStructure JSON_parse (VStr text)
      = validateJsonStructure JSON_parse parsed)
  /\ (forall s : string,
         parsed = VStr s ->
         convertJsonToXml JSON_parse (VStr text)
         = Return {| success := false; xml := VUndefined;
                     error := VStr "Invalid input: expected object or JSON string";
                     reasoning := VUndefined; thinking := VUndefined |}
         /\ validateJsonStructure JSON_parse (VStr text)
            = Return {| valid := false; errors := ["Response must be an object"] |}).
Proof.
  intros Hparse. split.
  - intros Hnot.
    unfold convertJsonToXml, validateJsonStructure, validate_try, and_then, lift.
    rewrite Hparse.
    destruct parsed; try (split; reflexivity). now elim (Hnot s).
  - intros s ->.
    unfold convertJsonToXml, validateJsonStructure, validate_try, and_then, lift.
    rewrite Hparse. unfold convert_parsed, validate_parsed, and_then, push.
    cbn [typeof_object negb]. rewrite orb_true_r. split; reflexivity.
Qed.

Lemma text_as_parsed_value_witness :
  convertJsonToXml sample_parse (VStr sample_text_only_json)
  = convertJsonToXml sample_parse sample_text_only
  /\ validateJsonStructure sample_parse (VStr sample_text_only_json)
     = validateJsonStructure sample_parse sample_text_only.
Proof.
  refine (proj1 (text_as_parsed_value sample_parse sample_text_only_json
                   sample_text_only eq_refl) _).
  intros s. discriminate.
Defined.

(** Only an object is encoded: every other value has no [tool] tag. *)
Lemma convertSingleToolToXml_returns_object (toolUse : value) (fragment : string) :
  convertSingleToolToXml toolUse = Return fragment ->
  exists properties, toolUse = VObj properties.
Proof.
  destruct toolUse; try (cbn; discriminate); intros _; now eexists.
Qed.

(** X16.  A [single_tool] response whose invocation encodes converts with
    success to the fragment of the invocation; the result carries the
    [thinking] of the response, and for [reasoning] the [reasoning] of
    [single_tool] when that is truthy and the [reasoning] of
    [multiple_tools] otherwise. *)
Theorem convertJsonToXml_side_channels
        (JSON_parse : string -> outcome value)
        (jsonResponse response single_tool tool_use : value) (fragment : string) :
  presents JSON_parse jsonResponse response ->
  get response "response_type" = Return (VStr "single_tool") ->
  get response "single_tool" = Return single_tool ->
  get single_tool "tool_use" = Return tool_use ->
  convertSingleToolToXml tool_use = Return fragment ->
  convertJsonToXml JSON_parse jsonResponse
  = Return {| success := true; xml := VStr fragment; error := VUndefined;
              reasoning := reasoning_of response;
              thinking := read response "thinking" |}
  /\ (forall r : value,
         get single_tool "reasoning" = Return r ->
         reasoning_of response
         = if truthy r then r
           else read_optional (read response "multiple_tools") "reasoning").
Proof.
  intros Hp Hr Hs Hu He.
  destruct (response_type_object _ _ Hr) as [properties ->].
  destruct (convertSingleToolToXml_returns_object _ _ He) as [fields ->].
  split.
  - rewrite (presents_not_text _ _ _ Hp),
      (convert_parsed_prefix (VObj properties) eq_refl eq_refl).
    cbv zeta. rewrite Hr. cbn [bind is_string String.eqb Ascii.eqb Bool.eqb].
    rewrite Hs. cbn [bind]. rewrite (get_optional_get _ _ _ Hu). cbn [bind truthy negb].
    rewrite Hu. cbn [bind]. rewrite He. reflexivity.
  - intros r Hreasoning.
    assert (E1 : read (VObj properties) "single_tool" = single_tool)
      by (unfold read; now rewrite Hs).
    assert (E2 : read_optional single_tool "reasoning" = r)
      by (unfold read_optional; now rewrite (get_optional_get _ _ _ Hreasoning)).
    unfold reasoning_of, or_else. now rewrite E1, E2.
Qed.

Lemma convertJsonToXml_side_channels_witness :
  convertJsonToXml sample_parse sample_with_side_channels
  = Return {| success := true;
              xml := VStr ("<list_files>" ++ nl ++ "<path>src</path>" ++ nl
                           ++ "<recursive>true</recursive>" ++ nl ++ "</list_files>");
              error := VUndefined;
              reasoning := VStr "Need to list the sources";
              thinking := VStr "I need to analyze this file first" |}.
Proof.
  exact (proj1 (convertJsonToXml_side_channels sample_parse
                  sample_with_side_channels sample_with_side_channels
                  (VObj [("tool_use", sample_list_files);
                         ("reasoning", VStr "Need to list the sources")])
                  sample_list_files
                  ("<list_files>" ++ nl ++ "<path>src</path>" ++ nl
                   ++ "<recursive>true</recursive>" ++ nl ++ "</list_files>")
                  eq_refl eq_refl eq_refl eq_refl eq_refl)).
Defined.

(** X17.  A [multiple_tools] response converts all or nothing.  When every
    invocation encodes, the result is a success with the joined fragments
    and the side channels of the response.  When an invocation throws, the
    result is the failure [Conversion error:] with the message of the first
    invocation that throws, and carries no text of the invocations encoded
    before it. *)
Theorem convertJsonToXml_all_or_nothing
        (JSON_parse : string -> outcome value)
        (jsonResponse response multiple_tools : value) (tools : list value) :
  presents JSON_parse jsonResponse response ->
  get response "response_type" = Return (VStr "multiple_tools") ->
  get response "multiple_tools" = Return multiple_tools ->
  get multiple_tools "tools" = Return (VArr tools) ->
  tools <> [] ->
  (forall fragments : list string,
      Forall2 (fun tool fragment => convertSingleToolToXml tool = Return fragment)
              tools fragments ->
      convertJsonToXml JSON_parse jsonResponse
      = Return {| success := true;
                  xml := VStr (joined_with (nl ++ nl) fragments);
                  error := VUndefined;
                  reasoning := reasoning_of response;
                  thinking := read response "thinking" |})
  /\ (forall (before : list value) (fragments : list string)
             (tool : value) (after : list value) (e : thrown),
         tools = (before ++ tool :: after)%list ->
         Forall2 (fun tool fragment => convertSingleToolToXml tool = Return fragment)
                 before fragments ->
         convertSingleToolToXml tool = Throw e ->
         convertJsonToXml JSON_parse jsonResponse
         = Return {| success := false; xml := VUndefined;
                     error := VStr ("Conversion error: " ++ message_or_unknown e);
                     reasoning := VUndefined; thinking := VUndefined |}).
Proof.
  intros Hp Hr Hs Hu Hne.
  destruct (response_type_object _ _ Hr) as [properties ->].
  assert (E : convertJsonToXml JSON_parse jsonResponse
              = match convertMultipleToolsToXml (VArr tools) with
                | Return fragments =>
                    Return {| success := true; xml := VStr fragments;
                              error := VUndefined;
                              reasoning := reasoning_of (VObj properties);
                              thinking := read (VObj properties) "thinking" |}
                | Throw e =>
                    Return (failure ("Conversion error: " ++ message_or_unknown e))
                end).
  { rewrite (presents_not_text _ _ _ Hp),
      (convert_parsed_prefix (VObj properties) eq_refl eq_refl).
    cbv zeta. rewrite Hr. cbn [bind is_string String.eqb Ascii.eqb Bool.eqb].
    rewrite Hs. cbn [bind]. rewrite (get_optional_get _ _ _ Hu). cbn [bind truthy negb].
    rewrite Hu. cbn [bind].
    destruct (array_length_not_zero_nonempty tools Hne) as [v [Hv Hz]].
    rewrite Hv. cbn [bind]. rewrite Hz.
    destruct (convertMultipleToolsToXml (VArr tools)); reflexivity. }
  rewrite E. split.
  - intros fragments H. unfold convertMultipleToolsToXml. cbn [tools_map].
    rewrite (map_outcome_Forall2 (fun tool => convertSingleToolToXml tool) _ _ H).
    cbn [bind]. now rewrite join_joined_with.
  - intros before fragments tool after e -> Hbefore Hthrow.
    unfold convertMultipleToolsToXml. cbn [tools_map].
    now rewrite (map_outcome_first_throw (fun tool => convertSingleToolToXml tool)
                   before fragments tool after e Hbefore Hthrow).
Qed.

Lemma convertJsonToXml_all_or_nothing_witness :
  convertJsonToXml sample_parse
    (multiple_tools_response (VArr [sample_list_files; sample_search_without_regex]))
  = Return {| success := false; xml := VUndefined;
              error := VStr "Conversion error: Cannot read properties of undefined (reading 'replace')";
              reasoning := VUndefined; thinking := VUndefined |}.
Proof.
  refine (proj2 (convertJsonToXml_all_or_nothing sample_parse
                   (multiple_tools_response
                      (VArr [sample_list_files; sample_search_without_regex]))
                   (multiple_tools_response
                      (VArr [sample_list_files; sample_search_without_regex]))
                   (VObj [("tools", VArr [sample_list_files; sample_search_without_regex])])
                   [sample_list_files; sample_search_without_regex]
                   eq_refl eq_refl eq_refl eq_refl _)
            [sample_list_files]
            ["<list_files>" ++ nl ++ "<path>src</path>" ++ nl
             ++ "<recursive>true</recursive>" ++ nl ++ "</list_files>"]
            sample_search_without_regex []
            (TypeError "Cannot read properties of undefined (reading 'replace')")
            eq_refl _ eq_refl).
  - discriminate.
  - repeat constructor.
Defined.

(** ** The structural validator: what it reports *)

Lemma is_string_true (v : value) (literal : string) :
  is_string v literal = true -> v = VStr literal.
Proof.
  destruct v; cbn; try discriminate. intros H. apply String.eqb_eq in H. now subst.
Qed.

(** A value that the switch recognises passed the test on [response_type]:
    the two cannot both report. *)
Ltac recognised_and_reported :=
  exfalso;
  repeat match goal with
    | H : is_string ?v _ = true |- _ => apply is_string_true in H; subst v
    end;
  match goal with
  | H : negb _ = true |- _ => cbn in H; discriminate H
  | H : _ = false |- _ => cbn in H; discriminate H
  end.

Lemma validate_parsed_shape (response : value) (errors0 errors1 : list string)
      (o : outcome validation) :
  validate_parsed response errors0 = (errors1, o) ->
  (errors1 = errors0 \/ exists message, errors1 = List.app errors0 [message])
  /\ (forall e, o = Throw e -> errors1 = errors0)
  /\ (forall result, o = Return result -> result.(errors) = errors1).
Proof.
  unfold validate_parsed, and_then, lift, push, pure. intros H.
  checking_cases H; injection H as <- <-;
    (split; [|split]);
    try (intros ? [= <-]; reflexivity);
    try (intros ? [=]; reflexivity);
    try (intros ? [=]);
    try (now left);
    try (right; eexists; reflexivity);
    try recognised_and_reported.
Qed.

(** X18.  The validator reports at most one error on any input: a response
    that the switch on [response_type] examines has already passed the test
    on [response_type], and a throw leaves only its own entry. *)
Theorem validateJsonStructure_one_error
        (JSON_parse : string -> outcome value) (jsonResponse : value) :
  exists result : validation,
    validateJsonStructure JSON_parse jsonResponse = Return result
    /\ List.length result.(errors) <= 1
    /\ (result.(valid) = true <-> result.(errors) = []).
Proof.
  unfold validateJsonStructure, validate_try, and_then, lift.
  destruct (match jsonResponse with
            | VStr text => JSON_parse text
            | _ => Return jsonResponse
            end) as [response|e].
  - destruct (validate_parsed response []) as [errors1 [result|e]] eqn:E.
    + exists result. split; [reflexivity|].
      pose proof (validate_parsed_consistent _ _ _ _ E) as Hc.
      destruct (validate_parsed_shape _ _ _ _ E) as [Hshape [_ Herrors]].
      rewrite (Herrors result eq_refl).
      split.
      * destruct Hshape as [-> | [message ->]]; cbn; lia.
      * unfold consistent in Hc. rewrite (Herrors result eq_refl) in Hc.
        destruct (valid result), errors1 as [|message rest]; split; intros H;
          try reflexivity; try discriminate H.
        -- exfalso. assert (Hf : true = false) by (apply Hc; discriminate).
           discriminate Hf.
        -- exfalso. exact (proj1 Hc eq_refl eq_refl).
    + destruct (validate_parsed_shape _ _ _ _ E) as [_ [Hthrow _]].
      rewrite (Hthrow e eq_refl). eexists. split; [reflexivity|].
      cbn. split; [lia | split; discriminate].
  - eexists. split; [reflexivity|]. cbn. split; [lia | split; discriminate].
Qed.

Lemma validate_not_object (JSON_parse : string -> outcome value)
      (jsonResponse response : value) :
  presents JSON_parse jsonResponse response ->
  truthy response = false \/ typeof_object response = false ->
  validateJsonStructure JSON_parse jsonResponse
  = Return {| valid := false; errors := ["Response must be an object"] |}.
Proof.
  intros Hp H. rewrite (validateJsonStructure_presents _ _ _ Hp).
  unfold validate_parsed, and_then, push.
  destruct H as [-> | ->]; [reflexivity|]. now rewrite orb_true_r.
Qed.

Lemma falsy_unknown (v : value) : truthy v = false -> known_response_type v = false.
Proof.
  destruct v; try reflexivity. cbn. intros H.
  apply negb_false_iff, String.eqb_eq in H. now subst.
Qed.

(** The validator on an object or an array whose [response_type] is not
    one of the three known strings: the switch matches no case. *)
Lemma validate_parsed_unknown (response response_type : value) :
  truthy response = true -> typeof_object response = true ->
  get response "response_type" = Return response_type ->
  known_response_type response_type = false ->
  validate_parsed response []
  = if negb (truthy response_type)
    then (["Missing required field: response_type"],
          Return {| valid := false;
                    errors := ["Missing required field: response_type"] |})
    else match ToString response_type with
         | Return name =>
             (["Invalid response_type: " ++ name],
              Return {| valid := false; errors := ["Invalid response_type: " ++ name] |})
         | Throw e => ([], Throw e)
         end.
Proof.
  intros Ht Ho Hr Hk. unfold validate_parsed, and_then, lift, push, pure.
  rewrite Ht, Ho, Hr, Hk. cbn [negb orb].
  apply known_response_type_false in Hk as (H1 & H2 & H3).
  rewrite H1, H2, H3.
  destruct (truthy response_type); cbn [negb]; [|reflexivity].
  destruct (ToString response_type); reflexivity.
Qed.

(** X19.  The validator reports an input that is not an object or an array,
    given as a value or as the text of one, with the one error [Response
    must be an object], and reports a text that does not parse with the one
    error [JSON parsing error:] followed by the message of the parser. *)
Theorem validateJsonStructure_not_object
        (JSON_parse : string -> outcome value) (jsonResponse : value) :
  (forall response : value,
      presents JSON_parse jsonResponse response ->
      truthy response = false \/ typeof_object response = false ->
      validateJsonStructure JSON_parse jsonResponse
      = Return {| valid := false; errors := ["Response must be an object"] |})
  /\ (forall (text : string) (e : thrown),
         jsonResponse = VStr text ->
         JSON_parse text = Throw e ->
         validateJsonStructure JSON_parse jsonResponse
         = Return {| valid := false;
                     errors := ["JSON parsing error: " ++ message_or_unknown e] |}).
Proof.
  split.
  - intros response Hp H. exact (validate_not_object _ _ _ Hp H).
  - intros text e -> He.
    unfold validateJsonStructure, validate_try, and_then, lift. now rewrite He.
Qed.

Lemma validateJsonStructure_not_object_witness :
  validateJsonStructure sample_parse VNull
  = Return {| valid := false; errors := ["Response must be an object"] |}
  /\ validateJsonStructure sample_parse (VStr "invalid json")
     = Return {| valid := false; errors := ["JSON parsing error: Unexpected token"] |}.
Proof.
  split.
  - exact (proj1 (validateJsonStructure_not_object sample_parse VNull)
             VNull eq_refl (or_introl eq_refl)).
  - exact (proj2 (validateJsonStructure_not_object sample_parse (VStr "invalid json"))
             "invalid json" (ErrorObject "SyntaxError" "Unexpected token")
             eq_refl eq_refl).
Defined.

(** X20.  On an object or an array, the validator reports a
    [response_type] that is absent or falsy with [Missing required field:
    response_type], and one that is truthy and not one of the three known
    strings with [Invalid response_type:] followed by its string conversion.
    When that conversion throws, the one error is filed as a [JSON parsing
    error:] with the message of the throw. *)
Theorem validateJsonStructure_response_type
        (JSON_parse : string -> outcome value)
        (jsonResponse response response_type : value) :
  presents JSON_parse jsonResponse response ->
  truthy response = true ->
  typeof_object response = true ->
  get response "response_type" = Return response_type ->
  known_response_type response_type = false ->
  (truthy response_type = false ->
   validateJsonStructure JSON_parse jsonResponse
   = Return {| valid := false; errors := ["Missing required field: response_type"] |})
  /\ (forall name : string,
         truthy response_type = true ->
         ToString response_type = Return name ->
         validateJsonStructure JSON_parse jsonResponse
         = Return {| valid := false; errors := ["Invalid response_type: " ++ name] |})
  /\ (forall e : thrown,
         truthy response_type = true ->
         ToString response_type = Throw e ->
         validateJsonStructure JSON_parse jsonResponse
         = Return {| valid := false;
                     errors := ["JSON parsing error: " ++ message_or_unknown e] |}).
Proof.
  intros Hp Ht Ho Hr Hk.
  rewrite (validateJsonStructure_presents _ _ _ Hp),
    (validate_parsed_unknown _ _ Ht Ho Hr Hk).
  split; [|split].
  - intros ->. reflexivity.
  - intros name -> ->. reflexivity.
  - intros e -> ->. reflexivity.
Qed.

Lemma validateJsonStructure_response_type_witness :
  validateJsonStructure sample_parse (VObj [("response_type", VStr "invalid_type")])
  = Return {| valid := false; errors := ["Invalid response_type: invalid_type"] |}.
Proof.
  exact (proj1 (proj2 (validateJsonStructure_response_type sample_parse
                         (VObj [("response_type", VStr "invalid_type")])
                         (VObj [("response_type", VStr "invalid_type")])
                         (VStr "invalid_type") eq_refl eq_refl eq_refl eq_refl eq_refl))
           "invalid_type" eq_refl eq_refl).
Defined.

Lemma validate_single_tool_absent (JSON_parse : string -> outcome value)
      (jsonResponse response single_tool : value) :
  presents JSON_parse jsonResponse response ->
  get response "response_type" = Return (VStr "single_tool") ->
  get response "single_tool" = Return single_tool ->
  truthy single_tool = false ->
  validateJsonStructure JSON_parse jsonResponse
  = Return {| valid := false;
              errors := ["single_tool field is required for single_tool response_type"] |}.
Proof.
  intros Hp Ht Hs Hst.
  destruct (response_type_object _ _ Ht) as [properties ->].
  rewrite (validateJsonStructure_presents _ _ _ Hp).
  apply get_object in Ht. apply get_object in Hs.
  unfold validate_parsed, and_then, lift, push, pure.
  cbn [truthy typeof_object negb orb get]. rewrite Ht, Hs.
  cbn. rewrite Hst. reflexivity.
Qed.

Lemma validate_multiple_tools_absent (JSON_parse : string -> outcome value)
      (jsonResponse response multiple_tools : value) :
  presents JSON_parse jsonResponse response ->
  get response "response_type" = Return (VStr "multiple_tools") ->
  get response "multiple_tools" = Return multiple_tools ->
  truthy multiple_tools = false ->
  validateJsonStructure JSON_parse jsonResponse
  = Return {| valid := false;
              errors := ["multiple_tools field is required for multiple_tools response_type"] |}.
Proof.
  intros Hp Ht Hs Hst.
  destruct (response_type_object _ _ Ht) as [properties ->].
  rewrite (validateJsonStructure_presents _ _ _ Hp).
  apply get_object in Ht. apply get_object in Hs.
  unfold validate_parsed, and_then, lift, push, pure.
  cbn [truthy typeof_object negb orb get]. rewrite Ht, Hs.
  cbn. rewrite Hst. reflexivity.
Qed.

Lemma validate_tools_not_array (JSON_parse : string -> outcome value)
      (jsonResponse response multiple_tools tools : value) :
  presents JSON_parse jsonResponse response ->
  get response "response_type" = Return (VStr "multiple_tools") ->
  get response "multiple_tools" = Return multiple_tools ->
  truthy multiple_tools = true ->
  get multiple_tools "tools" = Return tools ->
  isArray tools = false ->
  validateJsonStructure JSON_parse jsonResponse
  = Return {| valid := false;
              errors := ["tools field must be an array in multiple_tools"] |}.
Proof.
  intros Hp Ht Hs Hst Hu Harray.
  destruct (response_type_object _ _ Ht) as [properties ->].
  rewrite (validateJsonStructure_presents _ _ _ Hp).
  apply get_object in Ht. apply get_object in Hs.
  unfold validate_parsed, and_then, lift, push, pure.
  cbn [truthy typeof_object negb orb get]. rewrite Ht, Hs.
  cbn. rewrite Hst. cbn. rewrite Hu, Harray. reflexivity.
Qed.

(** X21.  The field checks of the validator, each with its one error: a
    [single_tool] response with an absent or falsy [single_tool], or with a
    [tool_use] that is absent or falsy; a [multiple_tools] response with an
    absent or falsy [multiple_tools], with a [tools] that is not an array
    (absent included), or with the empty array for [tools]. *)
Theorem validateJsonStructure_field_checks
        (JSON_parse : string -> outcome value) (jsonResponse response : value) :
  presents JSON_parse jsonResponse response ->
  (forall single_tool : value,
      get response "response_type" = Return (VStr "single_tool") ->
      get response "single_tool" = Return single_tool ->
      truthy single_tool = false ->
      validateJsonStructure JSON_parse jsonResponse
      = Return {| valid := false;
                  errors := ["single_tool field is required for single_tool response_type"] |})
  /\ (forall single_tool tool_use : value,
         get response "response_type" = Return (VStr "single_tool") ->
         get response "single_tool" = Return single_tool ->
         truthy single_tool = true ->
         get single_tool "tool_use" = Return tool_use ->
         truthy tool_use = false ->
         validateJsonStructure JSON_parse jsonResponse
         = Return {| valid := false;
                     errors := ["tool_use field is required in single_tool"] |})
  /\ (forall multiple_tools : value,
         get response "response_type" = Return (VStr "multiple_tools") ->
         get response "multiple_tools" = Return multiple_tools ->
         truthy multiple_tools = false ->
         validateJsonStructure JSON_parse jsonResponse
         = Return {| valid := false;
                     errors := ["multiple_tools field is required for multiple_tools response_type"] |})
  /\ (forall multiple_tools tools : value,
         get response "response_type" = Return (VStr "multiple_tools") ->
         get response "multiple_tools" = Return multiple_tools ->
         truthy multiple_tools = true ->
         get multiple_tools "tools" = Return tools ->
         isArray tools = false ->
         validateJsonStructure JSON_parse jsonResponse
         = Return {| valid := false;
                     errors := ["tools field must be an array in multiple_tools"] |})
  /\ (forall multiple_tools : value,
         get response "response_type" = Return (VStr "multiple_tools") ->
         get response "multiple_tools" = Return multiple_tools ->
         truthy multiple_tools = true ->
         get multiple_tools "tools" = Return (VArr []) ->
         validateJsonStructure JSON_parse jsonResponse
         = Return {| valid := false; errors := ["tools array cannot be empty"] |}).
Proof.
  intros Hp. split; [|split; [|split; [|split]]].
  - intros single_tool Ht Hs Hst. exact (validate_single_tool_absent _ _ _ _ Hp Ht Hs Hst).
  - intros single_tool tool_use Ht Hs Hst Hu Hfalsy.
    rewrite (validate_single_tool _ _ _ _ _ Hp Ht Hs Hst Hu), Hfalsy. reflexivity.
  - intros multiple_tools Ht Hs Hst.
    exact (validate_multiple_tools_absent _ _ _ _ Hp Ht Hs Hst).
  - intros multiple_tools tools Ht Hs Hst Hu Harray.
    exact (validate_tools_not_array _ _ _ _ _ Hp Ht Hs Hst Hu Harray).
  - intros multiple_tools Ht Hs Hst Hu.
    exact (validate_multiple_tools _ _ _ _ _ Hp Ht Hs Hst Hu).
Qed.

Lemma validateJsonStructure_field_checks_witness :
  validateJsonStructure sample_parse
    (VObj [("response_type", VStr "single_tool"); ("single_tool", VObj [])])
  = Return {| valid := false; errors := ["tool_use field is required in single_tool"] |}.
Proof.
  exact (proj1 (proj2 (validateJsonStructure_field_checks sample_parse
                         (VObj [("response_type", VStr "single_tool");
                                ("single_tool", VObj [])])
                         (VObj [("response_type", VStr "single_tool");
                                ("single_tool", VObj [])])
                         eq_refl))
           (VObj []) VUndefined eq_refl eq_refl eq_refl eq_refl eq_refl).
Defined.

(** ** The validator and the orchestrator on the same input *)

Lemma known_response_type_true (v : value) :
  known_response_type v = true ->
  v = VStr "single_tool" \/ v = VStr "multiple_tools" \/ v = VStr "text_only".
Proof.
  unfold known_response_type. rewrite !orb_true_iff.
  intros [[H|H]|H]; apply is_string_true in H; tauto.
Qed.

Lemma presents_or_parse_fails (JSON_parse : string -> outcome value) (jsonResponse : value) :
  (exists response, presents JSON_parse jsonResponse response)
  \/ (exists text e, jsonResponse = VStr text /\ JSON_parse text = Throw e).
Proof.
  destruct jsonResponse as [| |b|n|text|l|o]; try (left; eexists; reflexivity).
  destruct (JSON_parse text) as [v|e] eqn:E.
  - left. exists v. exact E.
  - right. now exists text, e.
Qed.

Lemma isArray_true (v : value) : isArray v = true -> exists l, v = VArr l.
Proof. destruct v; try discriminate. intros _. now eexists. Qed.

Lemma valid_reaches_encoders_parsed (JSON_parse : string -> outcome value)
      (jsonResponse response : value) (v : validation) :
  presents JSON_parse jsonResponse response ->
  validateJsonStructure JSON_parse jsonResponse = Return v ->
  v.(valid) = true ->
  exists r : ConversionResult,
    convertJsonToXml JSON_parse jsonResponse = Return r
    /\ (r.(success) = true
        \/ exists message : string, r.(error) = VStr ("Conversion error: " ++ message)).
Proof.
  intros Hp Hv Hvalid.
  destruct (truthy response) eqn:Ht;
    [|rewrite (validate_not_object _ _ _ Hp (or_introl Ht)) in Hv;
      injection Hv as <-; discriminate].
  destruct (typeof_object response) eqn:Ho;
    [|rewrite (validate_not_object _ _ _ Hp (or_intror Ho)) in Hv;
      injection Hv as <-; discriminate].
  destruct (get_returns_truthy response "response_type" Ht) as [rt Hr].
  destruct (known_response_type rt) eqn:Hk.
  - destruct (known_response_type_true _ Hk) as [-> | [-> | ->]].
    + (* single_tool *)
      destruct (get_returns_truthy response "single_tool" Ht) as [st Hs].
      destruct (truthy st) eqn:Hst;
        [|rewrite (validate_single_tool_absent _ _ _ _ Hp Hr Hs Hst) in Hv;
          injection Hv as <-; discriminate].
      destruct (get_returns_truthy st "tool_use" Hst) as [tu Hu].
      rewrite (validate_single_tool _ _ _ _ _ Hp Hr Hs Hst Hu) in Hv.
      destruct (truthy tu) eqn:Htu; [|injection Hv as <-; discriminate].
      destruct (convertJsonToXml_single_tool _ _ _ _ _ Hp Hr Hs Hu Htu)
        as [reasoning0 [thinking0 [_ ->]]].
      destruct (convertSingleToolToXml tu) as [fragment|e].
      * eexists. split; [reflexivity|]. now left.
      * eexists. split; [reflexivity|]. right. now eexists.
    + (* multiple_tools *)
      destruct (get_returns_truthy response "multiple_tools" Ht) as [mt Hs].
      destruct (truthy mt) eqn:Hmt;
        [|rewrite (validate_multiple_tools_absent _ _ _ _ Hp Hr Hs Hmt) in Hv;
          injection Hv as <-; discriminate].
      destruct (get_returns_truthy mt "tools" Hmt) as [tools Hu].
      destruct (isArray tools) eqn:Harray;
        [|rewrite (validate_tools_not_array _ _ _ _ _ Hp Hr Hs Hmt Hu Harray) in Hv;
          injection Hv as <-; discriminate].
      destruct (isArray_true _ Harray) as [l ->].
      rewrite (validate_multiple_tools _ _ _ _ _ Hp Hr Hs Hmt Hu) in Hv.
      destruct l as [|t l]; [injection Hv as <-; discriminate|].
      assert (Hne : t :: l <> []) by discriminate.
      destruct (convertJsonToXml_multiple_tools _ _ _ _ _ Hp Hr Hs Hu Hne)
        as [reasoning0 [thinking0 [_ ->]]].
      destruct (convertMultipleToolsToXml (VArr (t :: l))) as [fragments|e].
      * eexists. split; [reflexivity|]. now left.
      * eexists. split; [reflexivity|]. right. now eexists.
    + (* text_only *)
      destruct (get_returns_truthy response "text_response" Ht) as [tr Hx].
      rewrite (presents_not_text _ _ _ Hp), (convert_parsed_prefix response Ht Ho).
      cbv zeta. rewrite Hr. cbn [bind is_string String.eqb Ascii.eqb Bool.eqb].
      rewrite Hx. cbn [bind]. eexists. split; [reflexivity|]. now left.
  - rewrite (validateJsonStructure_presents _ _ _ Hp),
      (validate_parsed_unknown _ _ Ht Ho Hr Hk) in Hv.
    destruct (truthy rt); cbn [negb] in Hv; [|injection Hv as <-; discriminate].
    destruct (ToString rt); injection Hv as <-; discriminate.
Qed.

(** X22.  An input that the validator accepts is never refused by the
    structural checks of the orchestrator: its conversion either succeeds or
    fails inside an encoder, with a message that starts with [Conversion
    error:]. *)
Theorem valid_reaches_encoders
        (JSON_parse : string -> outcome value) (jsonResponse : value) (v : validation) :
  validateJsonStructure JSON_parse jsonResponse = Return v ->
  v.(valid) = true ->
  exists r : ConversionResult,
    convertJsonToXml JSON_parse jsonResponse = Return r
    /\ (r.(success) = true
        \/ exists message : string, r.(error) = VStr ("Conversion error: " ++ message)).
Proof.
  intros Hv Hvalid.
  destruct (presents_or_parse_fails JSON_parse jsonResponse)
    as [[response Hp] | [text [e [-> He]]]].
  - exact (valid_reaches_encoders_parsed _ _ _ _ Hp Hv Hvalid).
  - unfold validateJsonStructure, validate_try, and_then, lift in Hv.
    rewrite He in Hv. injection Hv as <-. discriminate.
Qed.

Lemma valid_reaches_encoders_witness :
  exists r : ConversionResult,
    convertJsonToXml sample_parse (single_tool_response sample_search_without_regex)
    = Return r
    /\ (r.(success) = true
        \/ exists message : string, r.(error) = VStr ("Conversion error: " ++ message)).
Proof.
  exact (valid_reaches_encoders sample_parse
           (single_tool_response sample_search_without_regex)
           {| valid := true; errors := [] |} eq_refl eq_refl).
Defined.

Lemma convertMultipleToolsToXml_returns_array (tools : value) (text : string) :
  convertMultipleToolsToXml tools = Return text -> exists l, tools = VArr l.
Proof.
  unfold convertMultipleToolsToXml.
  destruct tools; try (cbn; discriminate). intros _. now eexists.
Qed.

Lemma success_single_tool (response single_tool : value) (r : ConversionResult) :
  truthy response = true -> typeof_object response = true ->
  get response "response_type" = Return (VStr "single_tool") ->
  get response "single_tool" = Return single_tool ->
  convert_parsed response = Return r ->
  r.(success) = true ->
  exists tool_use,
    get single_tool "tool_use" = Return tool_use /\ truthy tool_use = true.
Proof.
  intros Ht Ho Hr Hs Hc Hsuccess.
  rewrite (convert_parsed_prefix response Ht Ho) in Hc. cbv zeta in Hc.
  rewrite Hr in Hc. cbn [bind is_string String.eqb Ascii.eqb Bool.eqb] in Hc.
  rewrite Hs in Hc. cbn [bind] in Hc.
  destruct (get_optional_returns single_tool "tool_use") as [tu Hu].
  rewrite Hu in Hc. cbn [bind] in Hc.
  destruct (truthy tu) eqn:Htu.
  - exists tu. split; [exact (get_optional_truthy _ _ _ Hu Htu) | exact Htu].
  - cbn [negb] in Hc. injection Hc as <-. discriminate Hsuccess.
Qed.

Lemma success_multiple_tools (response multiple_tools : value) (r : ConversionResult) :
  truthy response = true -> typeof_object response = true ->
  get response "response_type" = Return (VStr "multiple_tools") ->
  get response "multiple_tools" = Return multiple_tools ->
  convert_parsed response = Return r ->
  r.(success) = true ->
  exists tool tools,
    get multiple_tools "tools" = Return (VArr (tool :: tools)).
Proof.
  intros Ht Ho Hr Hs Hc Hsuccess.
  rewrite (convert_parsed_prefix response Ht Ho) in Hc. cbv zeta in Hc.
  rewrite Hr in Hc. cbn [bind is_string String.eqb Ascii.eqb Bool.eqb] in Hc.
  rewrite Hs in Hc. cbn [bind] in Hc.
  destruct (get_optional_returns multiple_tools "tools") as [tools Hu].
  rewrite Hu in Hc. cbn [bind] in Hc.
  destruct (truthy tools) eqn:Htools;
    [|cbn [negb] in Hc; injection Hc as <-; discriminate Hsuccess].
  cbn [negb] in Hc.
  pose proof (get_optional_truthy _ _ _ Hu Htools) as Hget.
  rewrite Hget in Hc. cbn [bind] in Hc.
  destruct (get_returns_truthy tools "length" Htools) as [len Hl].
  rewrite Hl in Hc. cbn [bind] in Hc.
  destruct (is_zero len) eqn:Hz; [injection Hc as <-; discriminate Hsuccess|].
  destruct (convertMultipleToolsToXml tools) as [text|e] eqn:E;
    [|discriminate Hc].
  destruct (convertMultipleToolsToXml_returns_array _ _ E) as [l ->].
  destruct l as [|tool l].
  - cbn in Hl. injection Hl as <-. discriminate Hz.
  - now exists tool, l.
Qed.

(** X23.  A [single_tool] or [multiple_tools] response that converts with
    success is one that the validator accepts with no error.  (A
    [text_only] response is the exception: it converts with success also
    when the validator rejects it for a missing text.) *)
Theorem success_is_valid
        (JSON_parse : string -> outcome value)
        (jsonResponse response : value) (r : ConversionResult) :
  presents JSON_parse jsonResponse response ->
  get response "response_type" = Return (VStr "single_tool")
  \/ get response "response_type" = Return (VStr "multiple_tools") ->
  convertJsonToXml JSON_parse jsonResponse = Return r ->
  r.(success) = true ->
  validateJsonStructure JSON_parse jsonResponse
  = Return {| valid := true; errors := [] |}.
Proof.
  intros Hp Hr Hc Hsuccess.
  rewrite (presents_not_text _ _ _ Hp) in Hc.
  destruct (convert_parsed response) as [r'|e] eqn:E;
    [injection Hc as ->|injection Hc as <-; discriminate Hsuccess].
  destruct Hr as [Hr|Hr]; destruct (response_type_object _ _ Hr) as [properties ->].
  - destruct (get_returns_truthy (VObj properties) "single_tool" eq_refl) as [st Hs].
    destruct (success_single_tool (VObj properties) _ _ eq_refl eq_refl Hr Hs E Hsuccess)
      as [tu [Hu Htu]].
    destruct (get_truthy_object st "tool_use" tu eq_refl Hu Htu) as [fields ->].
    rewrite (validate_single_tool _ _ _ _ _ Hp Hr Hs eq_refl Hu), Htu. reflexivity.
  - destruct (get_returns_truthy (VObj properties) "multiple_tools" eq_refl) as [mt Hs].
    destruct (success_multiple_tools (VObj properties) _ _ eq_refl eq_refl Hr Hs E Hsuccess)
      as [tool [tools Hu]].
    destruct (get_truthy_object mt "tools" (VArr (tool :: tools)) eq_refl Hu eq_refl)
      as [fields ->].
    exact (validate_multiple_tools _ _ _ _ _ Hp Hr Hs eq_refl Hu).
Qed.

Lemma success_is_valid_witness :
  validateJsonStructure sample_parse sample_with_side_channels
  = Return {| valid := true; errors := [] |}.
Proof.
  exact (success_is_valid sample_parse sample_with_side_channels
           sample_with_side_channels
           {| success := true;
              xml := VStr ("<list_files>" ++ nl ++ "<path>src</path>" ++ nl
                           ++ "<recursive>true</recursive>" ++ nl ++ "</list_files>");
              error := VUndefined;
              reasoning := VStr "Need to list the sources";
              thinking := VStr "I need to analyze this file first" |}
           eq_refl (or_introl eq_refl) eq_refl eq_refl).
Defined.

(** X24.  The validator does not look inside an invocation: a [single_tool]
    response with a truthy [tool_use] is valid with no error even when the
    encoding of the invocation throws, and its conversion is then the
    failure [Conversion error:] with the message of the throw.  A
    [search_files] invocation without its required [regex] is such an
    invocation: the escaper is applied to [undefined] and throws. *)
Theorem validator_is_shallow
        (JSON_parse : string -> outcome value)
        (jsonResponse response single_tool tool_use : value) (e : thrown) :
  presents JSON_parse jsonResponse response ->
  get response "response_type" = Return (VStr "single_tool") ->
  get response "single_tool" = Return single_tool ->
  get single_tool "tool_use" = Return tool_use ->
  truthy tool_use = true ->
  convertSingleToolToXml tool_use = Throw e ->
  validateJsonStructure JSON_parse jsonResponse
  = Return {| valid := true; errors := [] |}
  /\ convertJsonToXml JSON_parse jsonResponse
     = Return {| success := false; xml := VUndefined;
                 error := VStr ("Conversion error: " ++ message_or_unknown e);
                 reasoning := VUndefined; thinking := VUndefined |}
  /\ (forall path : string,
         get tool_use "tool" = Return (VStr "search_files") ->
         get tool_use "path" = Return (VStr path) ->
         get tool_use "regex" = Return VUndefined ->
         e = TypeError "Cannot read properties of undefined (reading 'replace')").
Proof.
  intros Hp Hr Hs Hu Htu He.
  destruct (get_truthy_object single_tool "tool_use" tool_use eq_refl Hu Htu)
    as [fields ->].
  split; [|split].
  - rewrite (validate_single_tool _ _ _ _ _ Hp Hr Hs eq_refl Hu), Htu. reflexivity.
  - destruct (convertJsonToXml_single_tool _ _ _ _ _ Hp Hr Hs Hu Htu)
      as [reasoning0 [thinking0 [_ ->]]].
    now rewrite He.
  - intros path Htag Hpath Hregex.
    rewrite (convertSingleToolToXml_dispatch _ _ Htag) in He. cbn in He.
    unfold convertSearchFilesToXml in He. cbv zeta in He.
    rewrite Hpath, Hregex in He. cbn in He. now injection He as <-.
Qed.

Lemma validator_is_shallow_witness :
  validateJsonStructure sample_parse (single_tool_response sample_search_without_regex)
  = Return {| valid := true; errors := [] |}
  /\ convertJsonToXml sample_parse (single_tool_response sample_search_without_regex)
     = Return {| success := false; xml := VUndefined;
                 error := VStr "Conversion error: Cannot read properties of undefined (reading 'replace')";
                 reasoning := VUndefined; thinking := VUndefined |}.
Proof.
  destruct (validator_is_shallow sample_parse
              (single_tool_response sample_search_without_regex)
              (single_tool_response sample_search_without_regex)
              (VObj [("tool_use", sample_search_without_regex)])
              sample_search_without_regex
              (TypeError "Cannot read properties of undefined (reading 'replace')")
              eq_refl eq_refl eq_refl eq_refl eq_refl eq_refl) as [Hvalid [Hconvert _]].
  split; [exact Hvalid | exact Hconvert].
Defined.

(** ** The batch runner, and encoders on invocations that miss a field *)

Lemma map_outcome_app {A B : Type} (f : A -> outcome B) (l1 l2 : list A)
      (r1 r2 : list B) :
  map_outcome f l1 = Return r1 ->
  map_outcome f l2 = Return r2 ->
  map_outcome f (l1 ++ l2)%list = Return (r1 ++ r2)%list.
Proof.
  revert r1. induction l1 as [|x l1 IH]; intros r1 H1 H2.
  - injection H1 as <-. exact H2.
  - cbn [map_outcome List.app] in *.
    destruct (f x) as [y|e]; [|discriminate H1]. cbn [bind] in *.
    destruct (map_outcome f l1) as [ys|e]; [|discriminate H1]. cbn [bind] in *.
    injection H1 as <-. now rewrite (IH ys eq_refl H2).
Qed.

(** X25.  The batch runner returns one result for each input, in the order
    of the inputs, each the result of the orchestrator on that input alone:
    a failure of one input changes no other result, and the results of a
    concatenation are the results of its parts, concatenated. *)
Theorem convertMultipleJsonToXml_independent (JSON_parse : string -> outcome value) :
  (forall jsonResponses : list value,
      exists results : list ConversionResult,
        convertMultipleJsonToXml JSON_parse jsonResponses = Return results
        /\ List.length results = List.length jsonResponses
        /\ Forall2 (fun jsonResponse r =>
                      convertJsonToXml JSON_parse jsonResponse = Return r)
                   jsonResponses results)
  /\ (forall (first second : list value) (results1 results2 : list ConversionResult),
         convertMultipleJsonToXml JSON_parse first = Return results1 ->
         convertMultipleJsonToXml JSON_parse second = Return results2 ->
         convertMultipleJsonToXml JSON_parse (first ++ second)%list
         = Return (results1 ++ results2)%list).
Proof.
  split.
  - intros jsonResponses.
    destruct (convertMultipleJsonToXml_each JSON_parse jsonResponses) as [results [E H]].
    exists results. split; [exact E|]. split; [|exact H].
    symmetry. exact (Forall2_length H).
  - intros first second results1 results2. apply map_outcome_app.
Qed.

Lemma for_of_first_throw {A S : Type} (body : S -> A -> outcome S)
      (before : list A) (bad : A) (after : list A) (s0 s1 : S) (e : thrown) :
  for_of before body s0 = Return s1 ->
  body s1 bad = Throw e ->
  for_of (before ++ bad :: after)%list body s0 = Throw e.
Proof.
  revert s0. induction before as [|x before IH]; intros s0 Hb Hbad.
  - injection Hb as <-. cbn [List.app for_of]. now rewrite Hbad.
  - cbn [List.app for_of] in *. destruct (body s0 x) as [s'|e']; [|discriminate Hb].
    cbn [bind] in *. now apply IH.
Qed.

(** X26.  The [read_file] encoder gives no partial text: when [args] is
    absent it throws on the read of [file], and when an entry has a [path]
    that is not a string, after entries that are well formed, it throws what
    the escaper throws on that [path]. *)
Theorem convertReadFileToXml_throws (toolUse : value) :
  (get toolUse "args" = Return VUndefined ->
   convertReadFileToXml toolUse
   = Throw (TypeError "Cannot read properties of undefined (reading 'file')"))
  /\ (forall (args file : value) (before : list value) (refs : list FileRef)
             (entry path : value) (after : list value) (e : thrown),
         get toolUse "args" = Return args ->
         get args "file" = Return file ->
         file_entries file = (before ++ entry :: after)%list ->
         Forall2 reads_as_FileRef before refs ->
         get entry "path" = Return path ->
         escapeXml_any path = Throw e ->
         convertReadFileToXml toolUse = Throw e).
Proof.
  split.
  - intros Ha. unfold convertReadFileToXml. now rewrite Ha.
  - intros args file before refs entry path after e Ha Hf Hentries Hbefore Hpath He.
    unfold convertReadFileToXml. rewrite Ha, bind_Return. cbv zeta.
    rewrite Hf, bind_Return.
    assert (Hfiles : (if isArray file then Return file
                      else file1 <- Return file ;; Return (VArr [file1]))
                     = Return (VArr (file_entries file))).
    { destruct file; reflexivity. }
    rewrite Hfiles, bind_Return, Hentries.
    erewrite for_of_first_throw; [reflexivity | exact (read_file_loop _ _ Hbefore _) |].
    cbv beta zeta. rewrite Hpath, bind_Return, He. reflexivity.
Qed.

Lemma convertReadFileToXml_throws_witness :
  convertReadFileToXml
    (VObj [("tool", VStr "read_file");
           ("args", VObj [("file", VArr [VObj [("path", VStr "a")]; VObj []])])])
  = Throw (TypeError "Cannot read properties of undefined (reading 'replace')").
Proof.
  refine (proj2 (convertReadFileToXml_throws
                   (VObj [("tool", VStr "read_file");
                          ("args", VObj [("file", VArr [VObj [("path", VStr "a")];
                                                        VObj []])])]))
            (VObj [("file", VArr [VObj [("path", VStr "a")]; VObj []])])
            (VArr [VObj [("path", VStr "a")]; VObj []])
            [VObj [("path", VStr "a")]]
            [ {| ref_path := "a"; ref_line_range := None |} ]
            (VObj []) VUndefined []
            (TypeError "Cannot read properties of undefined (reading 'replace')")
            eq_refl eq_refl eq_refl _ eq_refl eq_refl).
  repeat constructor.
Defined.

Lemma escapeXml_any_not_string (unsafe : value) :
  (forall s : string, unsafe <> VStr s) ->
  exists message : string, escapeXml_any unsafe = Throw (TypeError message).
Proof.
  intros H. destruct unsafe; try (eexists; reflexivity). now elim (H s).
Qed.

(** X27.  The five encoders that write a [<path>] require a string for it:
    when the [path] of a [search_files], [list_files],
    [list_code_definition_names], [write_to_file] or [apply_diff] invocation
    is absent or is not a string, the dispatcher throws the TypeError of
    the escaper and gives no text. *)
Theorem path_is_required (toolUse : value) (name : string) (path : value) :
  get toolUse "tool" = Return (VStr name) ->
  In name ["search_files"; "list_files"; "list_code_definition_names";
           "write_to_file"; "apply_diff"] ->
  get toolUse "path" = Return path ->
  (forall s : string, path <> VStr s) ->
  exists message : string,
    escapeXml_any path = Throw (TypeError message)
    /\ convertSingleToolToXml toolUse = Throw (TypeError message).
Proof.
  intros Ht Hin Hp Hnot.
  destruct (escapeXml_any_not_string path Hnot) as [message He].
  exists message. split; [exact He|].
  rewrite (convertSingleToolToXml_dispatch _ _ Ht).
  cbn [In] in Hin.
  destruct Hin as [<- | [<- | [<- | [<- | [<- | []]]]]]; cbn [String.eqb Ascii.eqb Bool.eqb].
  - unfold convertSearchFilesToXml. cbv zeta. now rewrite Hp, bind_Return, He.
  - unfold convertListFilesToXml. cbv zeta. now rewrite Hp, bind_Return, He.
  - unfold convertListCodeDefinitionNamesToXml. cbv zeta. now rewrite Hp, bind_Return, He.
  - unfold convertWriteToFileToXml. cbv zeta. now rewrite Hp, bind_Return, He.
  - unfold convertApplyDiffToXml. cbv zeta. now rewrite Hp, bind_Return, He.
Qed.

Lemma path_is_required_witness :
  exists message : string,
    escapeXml_any (VNum "7") = Throw (TypeError message)
    /\ convertSingleToolToXml (VObj [("tool", VStr "apply_diff"); ("path", VNum "7")])
       = Throw (TypeError message).
Proof.
  refine (path_is_required (VObj [("tool", VStr "apply_diff"); ("path", VNum "7")])
            "apply_diff" (VNum "7") eq_refl _ eq_refl _).
  - cbn. tauto.
  - intros s. discriminate.
Defined.

(** ** The caller *)

Lemma convertJsonToXml_text_only_result (JSON_parse : string -> outcome value)
      (jsonResponse response text_response : value) :
  presents JSON_parse jsonResponse response ->
  get response "response_type" = Return (VStr "text_only") ->
  get response "text_response" = Return text_response ->
  convertJsonToXml JSON_parse jsonResponse
  = Return {| success := true; xml := or_else text_response (VStr EmptyString);
              error := VUndefined; reasoning := VUndefined;
              thinking := read response "thinking" |}.
Proof.
  intros Hp Hr Hx.
  destruct (response_type_object _ _ Hr) as [properties ->].
  rewrite (presents_not_text _ _ _ Hp),
    (convert_parsed_prefix (VObj properties) eq_refl eq_refl).
  cbv zeta. rewrite Hr. cbn [bind is_string String.eqb Ascii.eqb Bool.eqb].
  rewrite Hx. reflexivity.
Qed.

(** X28.  What [completePrompt] returns for a content is the content itself
    or the [xml] of a successful conversion of the content, and that [xml]
    is then truthy: without a schema, for a blank content, when the
    conversion fails, and when the conversion succeeds with an empty [xml],
    the content is returned as it arrived.  So the content of a [text_only]
    response comes back as its [text_response] when that is a string that
    is not empty, and as the unconverted content when it is the empty
    string. *)
Theorem completePrompt_result_fallback
        (JSON_parse : string -> outcome value) (trim : string -> string)
        (jsonSchema : value) (content : string) :
  (exists r : ConversionResult,
      convertJsonToXml JSON_parse (VStr content) = Return r
      /\ completePrompt_result JSON_parse trim jsonSchema content
         = Return (if truthy jsonSchema && truthy (VStr (trim content))
                      && r.(success) && truthy r.(xml)
                   then r.(xml) else VStr content)
      /\ (r.(success) = false ->
          completePrompt_result JSON_parse trim jsonSchema content = Return (VStr content))
      /\ (r.(xml) = VStr EmptyString ->
          completePrompt_result JSON_parse trim jsonSchema content = Return (VStr content)))
  /\ (truthy jsonSchema = false ->
      completePrompt_result JSON_parse trim jsonSchema content = Return (VStr content))
  /\ (trim content = EmptyString ->
      completePrompt_result JSON_parse trim jsonSchema content = Return (VStr content))
  /\ (forall (response : value) (text : string),
         truthy jsonSchema = true ->
         trim content <> EmptyString ->
         JSON_parse content = Return response ->
         get response "response_type" = Return (VStr "text_only") ->
         get response "text_response" = Return (VStr text) ->
         completePrompt_result JSON_parse trim jsonSchema content
         = Return (VStr (if String.eqb text EmptyString then content else text))).
Proof.
  destruct (convertJsonToXml_returns JSON_parse (VStr content)) as [r [Hr _]].
  unfold completePrompt_result. rewrite Hr. cbn [bind].
  split; [exists r; split; [reflexivity|]; repeat split|repeat split].
  - destruct (truthy jsonSchema && truthy (VStr (trim content)));
      destruct (success r && truthy (xml r)) eqn:E; cbn [andb];
      try reflexivity.
    + apply andb_true_iff in E as [-> ->]. reflexivity.
    + destruct (success r); [cbn in E; now rewrite E | reflexivity].
  - intros ->. cbn [andb]. destruct (_ && _); reflexivity.
  - intros ->. cbn. rewrite andb_false_r. destruct (_ && _); reflexivity.
  - intros ->. reflexivity.
  - intros ->. cbn. now rewrite andb_false_r.
  - intros response text Hschema Hblank Hparse Ht Hx.
    rewrite (convertJsonToXml_text_only_result JSON_parse (VStr content) response
               (VStr text) Hparse Ht Hx) in Hr.
    injection Hr as <-. rewrite Hschema. cbn [truthy success xml andb].
    apply String.eqb_neq in Hblank. rewrite Hblank. cbn [negb].
    unfold or_else. cbn [truthy].
    destruct (String.eqb text EmptyString) eqn:Etext; cbn [negb truthy];
      rewrite ?Etext; reflexivity.
Qed.

(** ** Every fragment is wrapped in the tag of its tool *)

Lemma known_tool_true (tag : value) :
  known_tool tag = true ->
  exists name : string,
    tag = VStr name
    /\ In name ["read_file"; "search_files"; "list_files"; "list_code_definition_names";
                "write_to_file"; "apply_diff"; "fetch_instructions"].
Proof.
  unfold known_tool. rewrite !orb_true_iff.
  intros [[[[[[H|H]|H]|H]|H]|H]|H]; apply is_string_true in H; subst;
    eexists; (split; [reflexivity | cbn; tauto]).
Qed.

(** Case analysis on the reads, escapes and tests of an encoder that
    returned. *)
Ltac encoder_cases H :=
  repeat (cbn [bind negb] in H;
          match type of H with
          | context [get ?o ?k] => destruct (get o k) eqn:?
          | context [escapeXml_any ?v] => destruct (escapeXml_any v) eqn:?
          | context [ToString ?v] => destruct (ToString v) eqn:?
          | context [truthy ?v] => destruct (truthy v) eqn:?
          | context [is_undefined ?v] => destruct (is_undefined v) eqn:?
          | Throw _ = Return _ => discriminate H
          end).

Lemma Return_injective {A : Type} (a b : A) : Return a = Return b -> a = b.
Proof. now intros [= ->]. Qed.

Lemma read_file_loop_extends (files : list value) (xml0 xml1 : string)
      (body := fun (xml : string) (file : value) =>
                 let xml := xml ++ "  <file>" ++ nl in
                 path <- get file "path" ;;
                 escaped <- escapeXml_any path ;;
                 let xml := xml ++ "    <path>" ++ escaped ++ "</path>" ++ nl in
                 line_range <- get file "line_range" ;;
                 xml <- (if truthy line_range
                         then line_range <- get file "line_range" ;;
                              escaped <- escapeXml_any line_range ;;
                              Return (xml ++ "    <line_range>" ++ escaped
                                          ++ "</line_range>" ++ nl)
                         else Return xml) ;;
                 Return (xml ++ "  </file>" ++ nl)) :
  for_of files body xml0 = Return xml1 ->
  exists blocks : string, xml1 = xml0 ++ blocks.
Proof.
  revert xml0. induction files as [|file files IH]; intros xml0 H.
  - injection H as <-. exists EmptyString. now rewrite append_empty_r.
  - cbn [for_of] in H. destruct (body xml0 file) as [xml'|e] eqn:E; [|discriminate H].
    cbn [bind] in H.
    assert (Hstep : exists block, xml' = xml0 ++ block).
    { clear H IH. unfold body in E. cbv zeta in E. encoder_cases E; injection E as <-;
        rewrite ?append_assoc; eexists; reflexivity. }
    destruct Hstep as [block ->].
    destruct (IH _ H) as [blocks ->]. rewrite append_assoc. now eexists.
Qed.

Lemma convertReadFileToXml_wrapped (toolUse : value) (fragment : string) :
  convertReadFileToXml toolUse = Return fragment ->
  (exists after, fragment = "<read_file>" ++ nl ++ after)
  /\ (exists before, fragment = before ++ "</read_file>").
Proof.
  unfold convertReadFileToXml. intros H. cbv zeta in H.
  destruct (get toolUse "args") as [args|e]; [|discriminate H]. cbn [bind] in H.
  destruct (get args "file") as [file|e]; [|discriminate H]. cbn [bind] in H.
  destruct (isArray file); cbn [bind] in H.
  all: match type of H with
  | bind ?loop _ = _ => destruct loop as [xml|e] eqn:E; [|discriminate H]
  end.
  all: cbn [bind] in H; injection H as <-.
  all: destruct (read_file_loop_extends _ _ _ E) as [blocks ->].
  all: split;
    [ exists ("<args>" ++ nl ++ blocks ++ "</args>" ++ nl ++ "</read_file>")
    | exists (("<read_file>" ++ nl ++ "<args>" ++ nl) ++ blocks ++ "</args>" ++ nl) ];
    rewrite !append_assoc; reflexivity.
Qed.

Lemma encoders_wrapped (toolUse : value) (fragment : string) :
  (convertSearchFilesToXml toolUse = Return fragment ->
   (exists after, fragment = "<search_files>" ++ nl ++ after)
   /\ (exists before, fragment = before ++ "</search_files>"))
  /\ (convertListFilesToXml toolUse = Return fragment ->
      (exists after, fragment = "<list_files>" ++ nl ++ after)
      /\ (exists before, fragment = before ++ "</list_files>"))
  /\ (convertListCodeDefinitionNamesToXml toolUse = Return fragment ->
      (exists after, fragment = "<list_code_definition_names>" ++ nl ++ after)
      /\ (exists before, fragment = before ++ "</list_code_definition_names>"))
  /\ (convertWriteToFileToXml toolUse = Return fragment ->
      (exists after, fragment = "<write_to_file>" ++ nl ++ after)
      /\ (exists before, fragment = before ++ "</write_to_file>"))
  /\ (convertApplyDiffToXml toolUse = Return fragment ->
      (exists after, fragment = "<apply_diff>" ++ nl ++ after)
      /\ (exists before, fragment = before ++ "</apply_diff>"))
  /\ (convertFetchInstructionsToXml toolUse = Return fragment ->
      (exists after, fragment = "<fetch_instructions>" ++ nl ++ after)
      /\ (exists before, fragment = before ++ "</fetch_instructions>")).
Proof.
  repeat match goal with |- _ /\ _ => split end.
  all: match goal with |- ?f _ = _ -> _ => unfold f end; intros H; cbv zeta in H;
       encoder_cases H; apply Return_injective in H; rewrite <- H.
  all: split; [rewrite ?append_assoc; eexists; reflexivity | eexists; reflexivity].
Qed.

(** X29.  Whenever the dispatcher returns a fragment, the invocation has
    one of the seven known tags, the fragment starts with the opening tag
    of that tool on a line of its own, and it ends with the closing tag of
    that tool. *)
Theorem convertSingleToolToXml_wrapped (toolUse : value) (fragment : string) :
  convertSingleToolToXml toolUse = Return fragment ->
  exists name : string,
    get toolUse "tool" = Return (VStr name)
    /\ In name ["read_file"; "search_files"; "list_files"; "list_code_definition_names";
                "write_to_file"; "apply_diff"; "fetch_instructions"]
    /\ (exists after : string, fragment = "<" ++ name ++ ">" ++ nl ++ after)
    /\ (exists before : string, fragment = before ++ "</" ++ name ++ ">").
Proof.
  intros H.
  destruct (get toolUse "tool") as [tag|e] eqn:Ht;
    [|unfold convertSingleToolToXml in H; rewrite Ht in H; discriminate H].
  destruct (known_tool tag) eqn:Hk.
  - destruct (known_tool_true _ Hk) as [name [-> Hin]].
    exists name. split; [reflexivity|]. split; [exact Hin|].
    rewrite (convertSingleToolToXml_dispatch _ _ Ht) in H.
    destruct (encoders_wrapped toolUse fragment) as (Hs & Hl & Hc & Hw & Ha & Hf).
    cbn [In] in Hin.
    destruct Hin as [<- | [<- | [<- | [<- | [<- | [<- | [<- | []]]]]]]];
      cbn [String.eqb Ascii.eqb Bool.eqb] in H.
    + destruct (convertReadFileToXml_wrapped _ _ H) as [[after E1] [before E2]].
      split; [exists after; exact E1 | exists before; exact E2].
    + destruct (Hs H) as [[after E1] [before E2]].
      split; [exists after; exact E1 | exists before; exact E2].
    + destruct (Hl H) as [[after E1] [before E2]].
      split; [exists after; exact E1 | exists before; exact E2].
    + destruct (Hc H) as [[after E1] [before E2]].
      split; [exists after; exact E1 | exists before; exact E2].
    + destruct (Hw H) as [[after E1] [before E2]].
      split; [exists after; exact E1 | exists before; exact E2].
    + destruct (Ha H) as [[after E1] [before E2]].
      split; [exists after; exact E1 | exists before; exact E2].
    + destruct (Hf H) as [[after E1] [before E2]].
      split; [exists after; exact E1 | exists before; exact E2].
  - rewrite (convertSingleToolToXml_unknown _ _ Ht Hk) in H.
    destruct (ToString tag); discriminate H.
Qed.

Lemma convertSingleToolToXml_wrapped_witness :
  exists name : string,
    get sample_list_files "tool" = Return (VStr name)
    /\ In name ["read_file"; "search_files"; "list_files"; "list_code_definition_names";
                "write_to_file"; "apply_diff"; "fetch_instructions"]
    /\ (exists after : string,
           "<list_files>" ++ nl ++ "<path>src</path>" ++ nl
           ++ "<recursive>true</recursive>" ++ nl ++ "</list_files>"
           = "<" ++ name ++ ">" ++ nl ++ after)
    /\ (exists before : string,
           "<list_files>" ++ nl ++ "<path>src</path>" ++ nl
           ++ "<recursive>true</recursive>" ++ nl ++ "</list_files>"
           = before ++ "</" ++ name ++ ">").
Proof.
  exact (convertSingleToolToXml_wrapped sample_list_files
           ("<list_files>" ++ nl ++ "<path>src</path>" ++ nl
            ++ "<recursive>true</recursive>" ++ nl ++ "</list_files>") eq_refl).
Defined.
